(** * deep-listening, workbook 3: feature extraction for the UrbanSound8K CNN

    A shallow embedding of the Python 2 code of
    [3-us8k-cnn-extract-train.ipynb]: the window generator [windows], the
    extractors [extract_features] and [extract_feature_array], the label
    encoder [one_hot_encode], the fold persistence [save_folds] and
    [load_folds], and the fold rotation of the training loop.

    Python integers are [Z]; [a / b] on integers is Python 2's floor
    division, which is [Z.div] for a positive divisor.  numpy arrays are kept
    as a list of rows along axis 0, each row holding its elements in C order,
    together with the shape of one row.  Floating-point values are never
    computed on by this code, only moved around, so their type is a
    parameter [F]; the librosa kernels are parameters as well. *)

From Stdlib Require Import ZArith List Lia String Ascii Bool.
From stdpp Require Import base numbers list strings gmap pretty sorting.

Local Open Scope Z_scope.

(** ** Outcomes of running a piece of the notebook *)

(** The exceptions that the modelled code can raise. [DecodeError] stands for
    whatever [librosa.load] raises on a file it cannot read. *)
Inductive exn : Set :=
  | IndexError
  | ValueError
  | IOError
  | UnboundLocalError
  | DecodeError.

(** A run either returns a value, raises, or is still running when the fuel
    of the model is used up ([OutOfFuel]). *)
Inductive outcome (A : Type) : Type :=
  | Done (a : A)
  | Raise (e : exn)
  | OutOfFuel.
Arguments Done {A} a.
Arguments Raise {A} e.
Arguments OutOfFuel {A}.

Global Instance outcome_ret : MRet outcome := @Done.
Global Instance outcome_bind : MBind outcome := λ A B f m,
  match m with
  | Done a => f a
  | Raise e => Raise e
  | OutOfFuel => OutOfFuel
  end.
Global Instance outcome_fmap : FMap outcome := λ A B f m,
  match m with
  | Done a => Done (f a)
  | Raise e => Raise e
  | OutOfFuel => OutOfFuel
  end.

Definition returns {A} (m : outcome A) : Prop := ∃ a, m = Done a.

(** ** Python and numpy primitives *)

Module Py.

(** [len(x)] as a Python integer. *)
Definition len {A} (l : list A) : Z := Z.of_nat (length l).

(** A slice bound, as Python resolves it against a sequence of length [n]:
    a negative bound counts from the end, and every bound is clamped to
    [0..n]. *)
Definition slice_bound (n i : Z) : Z :=
  if i <? 0 then Z.max (i + n) 0 else Z.min i n.

(** [l[start:stop]] *)
Definition slice {A} (l : list A) (start stop : Z) : list A :=
  let a := slice_bound (len l) start in
  let b := slice_bound (len l) stop in
  take (Z.to_nat (b - a)) (drop (Z.to_nat a) l).

(** [x[i]] on a Python list. *)
Definition getitem {A} (l : list A) (i : nat) : outcome A :=
  match l !! i with
  | Some x => Done x
  | None => Raise IndexError
  end.

(** [s.split(sep)] for a non-empty separator: the pieces between the
    non-overlapping occurrences of [sep], scanned from the left. [skip]
    counts the characters of a separator still to be passed over and [cur]
    is the piece being collected. *)
Fixpoint split_go (sep s : string) (skip : nat) (cur : string) : list string :=
  match s with
  | EmptyString => [cur]
  | String c s' =>
      match skip with
      | S k => split_go sep s' k cur
      | O =>
          if String.prefix sep s
          then cur :: split_go sep s' (String.length sep - 1) EmptyString
          else split_go sep s' 0 (cur +:+ String c EmptyString)
      end
  end.

Definition split (s sep : string) : list string := split_go sep s 0 EmptyString.

(** [sep in s] *)
Fixpoint contains (sep s : string) : bool :=
  String.prefix sep s ||
  match s with
  | EmptyString => false
  | String _ s' => contains sep s'
  end.

(** [os.path.join(a, b)] on POSIX paths. *)
Definition path_join (a b : string) : string :=
  if String.prefix "/" b then b
  else if String.eqb a "" then b
  else if String.eqb (String.substring (String.length a - 1) 1 a) "/" then a +:+ b
  else a +:+ "/" +:+ b.

(** [str(k)] on an integer. *)
Definition str (k : Z) : string := pretty k.

End Py.

(** ** The window generator

<<
def windows(data, window_size):
    start = 0
    while start < len(data):
        yield start, start + window_size
        start += (window_size / 2)
>>  *)

Module Windower.

(** One resumption of the generator suspended with local [start]: it
    either yields a pair and suspends again with the advanced [start], or
    leaves the loop and is exhausted. *)
Definition windows_next {A} (data : list A) (window_size start : Z)
  : option ((Z * Z) * Z) :=
  if start <? Py.len data
  then Some ((start, start + window_size), start + window_size / 2)
  else None.

(** All the pairs the generator yields from [start] on, when it is
    exhausted within [fuel] resumptions. *)
Fixpoint windows_from {A} (fuel : nat) (data : list A) (window_size start : Z)
  : outcome (list (Z * Z)) :=
  match fuel with
  | O => OutOfFuel
  | S fuel' =>
      match windows_next data window_size start with
      | None => Done []
      | Some (p, start') => (p ::.) <$> windows_from fuel' data window_size start'
      end
  end.

Definition windows {A} (fuel : nat) (data : list A) (window_size : Z)
  : outcome (list (Z * Z)) :=
  windows_from fuel data window_size 0.

(** The [n]-th pair yielded (counting from 0), if the generator gets that
    far. *)
Fixpoint windows_nth {A} (n : nat) (data : list A) (window_size start : Z)
  : option (Z * Z) :=
  match windows_next data window_size start with
  | None => None
  | Some (p, start') =>
      match n with
      | O => Some p
      | S n' => windows_nth n' data window_size start'
      end
  end.

(** Closed forms for a positive step: the number of pairs yielded from
    [start] on, and the [k]-th of them. *)
Definition n_windows (len_data window_size start : Z) : nat :=
  Z.to_nat ((len_data - start + window_size / 2 - 1) / (window_size / 2)).

Definition nth_window (window_size start : Z) (k : nat) : Z * Z :=
  (start + Z.of_nat k * (window_size / 2),
   start + Z.of_nat k * (window_size / 2) + window_size).

(** The test the consumers apply to a yielded pair:
    [len(sound_clip[start:end]) == window_size]. *)
Definition full_window {A} (data : list A) (window_size : Z) (p : Z * Z) : bool :=
  Py.len (Py.slice data p.1 p.2) =? window_size.

End Windower.

(** ** numpy arrays *)

Module Np.
Section Numpy.
Context {F : Type}.

(** An array of shape [(length rows, d1, .., dk)]: [row_shape] is
    [[d1; ..; dk]] and every element of [rows] lists the [d1 * .. * dk]
    elements of one index along axis 0, in C order. A 2-D array handed to
    or returned by a librosa kernel is the list of its rows. *)
Record ndarray : Type := { row_shape : list nat; rows : list (list F) }.

Definition size_of (shape : list nat) : nat := foldr Nat.mul 1%nat shape.

Definition ncols (m : list (list F)) : nat :=
  match m with
  | [] => 0
  | r :: _ => length r
  end.

Definition column (m : list (list F)) (j : nat) : list F :=
  omap (λ r, r !! j) m.

(** [m.T.flatten()]: the columns of [m] one after the other. *)
Definition T_flatten (m : list (list F)) : list F :=
  mjoin (column m <$> seq 0 (ncols m)).

(** [np.asarray(xs).reshape(len(xs), d1, .., dk)] for a Python list [xs] of
    arrays, each given by its elements in C order. The arrays appended by
    the extractors all have one shape, and the reshape then succeeds
    exactly when each of them has [d1 * .. * dk] elements; [xs = []] gives
    an array of no rows. *)
Definition asarray_reshape (xs : list (list F)) (shape : list nat)
  : outcome ndarray :=
  if forallb (λ x, Nat.eqb (length x) (size_of shape)) xs
  then Done {| row_shape := shape; rows := xs |}
  else Raise ValueError.

(** [np.concatenate((a, np.zeros(np.shape(a))), axis = 3)] for [a] of shape
    [(n, bands, frames, 1)]: every element is followed by a zero. *)
Definition concatenate_zeros (zero : F) (bands frames : nat) (a : ndarray)
  : ndarray :=
  {| row_shape := [bands; frames; 2%nat];
     rows := (λ r, r ≫= λ v, [v; zero]) <$> rows a |}.

Fixpoint every_other (l : list F) : list F :=
  match l with
  | [] => []
  | x :: t => x :: match t with
                   | [] => []
                   | _ :: t' => every_other t'
                   end
  end.

(** [r[:, :, c]] for a row [r] of shape [(bands, frames, 2)], as a
    [bands] x [frames] array. *)
Definition channel (c bands frames : nat) (r : list F) : list (list F) :=
  reshape (replicate bands frames) (every_other (drop c r)).

Definition has_shape (m : list (list F)) (nrows ncolumns : nat) : bool :=
  Nat.eqb (length m) nrows && forallb (λ r, Nat.eqb (length r) ncolumns) m.

(** One axis of numpy's broadcasting: an axis of the length asked for
    stays as it is, and an axis of length 1 is repeated. *)
Definition stretch {A} (n : nat) (l : list A) : option (list A) :=
  if Nat.eqb (length l) n then Some l
  else match l with
       | [x] => Some (replicate n x)
       | _ => None
       end.

(** [np.broadcast_to(d, (nrows, ncolumns))] for a 2-D array [d], as an
    assignment to a slice of that shape broadcasts its value: both axes
    are stretched, and [None] stands for the shapes that do not fit. The
    rows of an array have one length; an array without rows fits any
    number of columns, as in [has_shape]. *)
Definition broadcast_to (d : list (list F)) (nrows ncolumns : nat)
  : option (list (list F)) :=
  if forallb (λ r, Nat.eqb (length r) (ncols d)) d
  then mapM (stretch ncolumns) d ≫= stretch nrows
  else None.

(** [r[:, :, 1] = d] on a row [r] of shape [(bands, frames, 2)]: the value
    [d] is broadcast to [(bands, frames)], and a value that cannot be
    raises [ValueError]. *)
Definition set_channel1 (bands frames : nat) (r : list F) (d : list (list F))
  : outcome (list F) :=
  match broadcast_to d bands frames with
  | Some d => Done (mjoin (zip_with (λ v w, [v; w]) (every_other r) (mjoin d)))
  | None => Raise ValueError
  end.

(** [np.concatenate((a, b))] along axis 0: the other dimensions must
    agree. *)
Definition concatenate (a b : ndarray) : outcome ndarray :=
  if decide (row_shape a = row_shape b)
  then Done {| row_shape := row_shape a; rows := rows a ++ rows b |}
  else Raise ValueError.

(** [a[n, i, j, c]] for [a] of shape [(_, bands, frames, 2)]. *)
Definition get4 (frames : nat) (a : ndarray) (n i j c : nat) : option F :=
  rows a !! n ≫= λ r, r !! ((i * frames + j) * 2 + c)%nat.

(** [np.unique(labels)]: the distinct values, ascending. *)
Fixpoint insert_unique (x : Z) (l : list Z) : list Z :=
  match l with
  | [] => [x]
  | y :: l' =>
      if x <? y then x :: l
      else if x =? y then l
      else y :: insert_unique x l'
  end.

Definition unique (labels : list Z) : list Z := foldr insert_unique [] labels.

(** An index into an axis of size [n]: negative indices count from the
    end, anything outside [-n..n-1] raises. *)
Definition axis_index (n : nat) (i : Z) : outcome nat :=
  if (0 <=? i) && (i <? Z.of_nat n) then Done (Z.to_nat i)
  else if (- Z.of_nat n <=? i) && (i <? 0) then Done (Z.to_nat (i + Z.of_nat n))
  else Raise IndexError.

(** [a[rs, cs] = v] for index arrays [rs] and [cs] of one length, on a 2-D
    array of [width] columns given by its rows: [a[r, c] = v] for the
    pairs in turn. *)
Fixpoint setitem_pairs (width : nat) (a : list (list F)) (idx : list (nat * Z))
    (v : F) : outcome (list (list F)) :=
  match idx with
  | [] => Done a
  | (r, c) :: idx' =>
      c' ← axis_index width c;
      setitem_pairs width (alter (λ row, <[c' := v]> row) r a) idx' v
  end.

End Numpy.
Arguments ndarray F : clear implicits.
End Np.

(** ** The label encoder

<<
def one_hot_encode(labels):
    n_labels = len(labels)
    n_unique_labels = len(np.unique(labels))
    one_hot_encode = np.zeros((n_labels,n_unique_labels))
    one_hot_encode[np.arange(n_labels), labels] = 1
    return one_hot_encode
>>  *)

Module Labels.
Section Encoder.
Context {F : Type} (zero one : F).

Definition one_hot_encode (labels : list Z) : outcome (Np.ndarray F) :=
  let n_labels := length labels in
  let n_unique_labels := length (Np.unique labels) in
  let zeros := replicate n_labels (replicate n_unique_labels zero) in
  m ← Np.setitem_pairs n_unique_labels zeros (zip (seq 0 n_labels) labels) one;
  Done {| Np.row_shape := [n_unique_labels]; Np.rows := m |}.

End Encoder.
End Labels.

(** ** The extractors *)

Module Extract.
Section Extractor.
Context {F : Type} (zero : F).

(** The collaborators: [librosa.load] ([None] when it raises),
    [librosa.feature.melspectrogram], [librosa.logamplitude],
    [librosa.feature.delta], [glob.glob], and the conversion of a string
    to an integer that [np.array(.., dtype = np.int)] applies ([None] when
    it raises [ValueError]). *)
Variable librosa_load : string → option (list F).
Variable melspectrogram : list F → nat → list (list F).
Variable logamplitude : list (list F) → list (list F).
Variable delta : list (list F) → list (list F).
Variable glob : string → list string.
Variable np_int : string → option Z.

Definition window_size (frames : nat) : Z := 512 * (Z.of_nat frames - 1).

Definition load (fn : string) : outcome (list F) :=
  match librosa_load fn with
  | Some sound_clip => Done sound_clip
  | None => Raise DecodeError
  end.

(** [fn.split('fold')[1].split('-')[1]] *)
Definition parse_label (fn : string) : outcome string :=
  after_fold ← Py.getitem (Py.split fn "fold") 1;
  Py.getitem (Py.split after_fold "-") 1.

(** The body of the loop over the yielded pairs, up to the [append]:
    [logspec.T.flatten()[:, np.newaxis].T] has the elements of
    [logspec.T.flatten()], as one row. *)
Definition window_logspec (sound_clip : list F) (bands : nat) (p : Z * Z) : list F :=
  let signal := Py.slice sound_clip p.1 p.2 in
  let melspec := melspectrogram signal bands in
  let logspec := logamplitude melspec in
  Np.T_flatten logspec.

(** The loop over the yielded pairs in [extract_features], threading the
    two lists it appends to. *)
Definition clip_loop (sound_clip : list F) (label : string) (bands : nat)
    (window_size : Z) (ws : list (Z * Z)) (acc : list (list F) * list string)
  : list (list F) * list string :=
  fold_left
    (λ acc p,
       if Windower.full_window sound_clip window_size p
       then (acc.1 ++ [window_logspec sound_clip bands p], acc.2 ++ [label])
       else acc)
    ws acc.

Fixpoint file_loop (fuel : nat) (bands : nat) (window_size : Z)
    (fns : list string) (acc : list (list F) * list string)
  : outcome (list (list F) * list string) :=
  match fns with
  | [] => Done acc
  | fn :: fns' =>
      sound_clip ← load fn;
      label ← parse_label fn;
      ws ← Windower.windows fuel sound_clip window_size;
      file_loop fuel bands window_size fns'
        (clip_loop sound_clip label bands window_size ws acc)
  end.

Fixpoint dir_loop (fuel : nat) (parent_dir file_ext : string) (bands : nat)
    (window_size : Z) (sub_dirs : list string)
    (acc : list (list F) * list string)
  : outcome (list (list F) * list string) :=
  match sub_dirs with
  | [] => Done acc
  | sub_dir :: sub_dirs' =>
      acc' ← file_loop fuel bands window_size
               (glob (Py.path_join (Py.path_join parent_dir sub_dir) file_ext)) acc;
      dir_loop fuel parent_dir file_ext bands window_size sub_dirs' acc'
  end.

(** [for i in range(len(features)):
       features[i, :, :, 1] = librosa.feature.delta(features[i, :, :, 0])] *)
Fixpoint delta_loop (bands frames : nat) (rs : list (list F))
  : outcome (list (list F)) :=
  match rs with
  | [] => Done []
  | r :: rs' =>
      r' ← Np.set_channel1 bands frames r (delta (Np.channel 0 bands frames r));
      (r' ::.) <$> delta_loop bands frames rs'
  end.

(** The lines after the loops, shared by both extractors: the stacked
    log-spectrograms reshaped to [(n, bands, frames, 1)], a channel of
    zeros appended, and the deltas written into it. *)
Definition features_of (log_specgrams : list (list F)) (bands frames : nat)
  : outcome (Np.ndarray F) :=
  log_specgrams ← Np.asarray_reshape log_specgrams [bands; frames; 1%nat];
  let features := Np.concatenate_zeros zero bands frames log_specgrams in
  rs ← delta_loop bands frames (Np.rows features);
  Done {| Np.row_shape := Np.row_shape features; Np.rows := rs |}.

(** [np.array(labels, dtype = np.int)] *)
Fixpoint int_array (labels : list string) : outcome (list Z) :=
  match labels with
  | [] => Done []
  | l :: labels' =>
      match np_int l with
      | Some k => (k ::.) <$> int_array labels'
      | None => Raise ValueError
      end
  end.

Definition extract_features (fuel : nat) (parent_dir : string)
    (sub_dirs : list string) (file_ext : string) (bands frames : nat)
  : outcome (Np.ndarray F * list Z) :=
  let window_size := window_size frames in
  '(log_specgrams, labels) ←
    dir_loop fuel parent_dir file_ext bands window_size sub_dirs ([], []);
  features ← features_of log_specgrams bands frames;
  labels ← int_array labels;
  Done (features, labels).

Definition extract_feature_array (fuel : nat) (filename : string)
    (bands frames : nat) : outcome (Np.ndarray F) :=
  let window_size := window_size frames in
  sound_clip ← load filename;
  ws ← Windower.windows fuel sound_clip window_size;
  let log_specgrams :=
    fold_left
      (λ acc p,
         if Windower.full_window sound_clip window_size p
         then acc ++ [window_logspec sound_clip bands p]
         else acc)
      ws [] in
  features_of log_specgrams bands frames.

(** *** Persisting the folds

    The directory of saved arrays is a finite map from file names to
    arrays. [save_folds] returns it as it is when the function returns or
    is left by an exception: the files written for earlier folds stay. *)

Definition fold_name (k : Z) : string := "fold" +:+ Py.str k.
Definition feature_file (data_dir : string) (k : Z) : string :=
  Py.path_join data_dir (fold_name k +:+ "_x.npy").
Definition labels_file (data_dir : string) (k : Z) : string :=
  Py.path_join data_dir (fold_name k +:+ "_y.npy").

Variable one : F.

(** The body of the loop of [save_folds] up to the two [np.save]. The
    defaults of [extract_features] apply: "*.wav", 60 bands, 41 frames. *)
Definition fold_arrays (fuel : nat) (parent_dir : string) (k : Z)
  : outcome (Np.ndarray F * Np.ndarray F) :=
  '(features, labels) ←
    extract_features fuel parent_dir [fold_name k] "*.wav" 60 41;
  labels ← Labels.one_hot_encode zero one labels;
  Done (features, labels).

Fixpoint save_loop (fuel : nat) (parent_dir data_dir : string) (ks : list Z)
    (fs : gmap string (Np.ndarray F))
  : gmap string (Np.ndarray F) * outcome () :=
  match ks with
  | [] => (fs, Done ())
  | k :: ks' =>
      match fold_arrays fuel parent_dir k with
      | Done (features, labels) =>
          save_loop fuel parent_dir data_dir ks'
            (<[labels_file data_dir k := labels]>
               (<[feature_file data_dir k := features]> fs))
      | Raise e => (fs, Raise e)
      | OutOfFuel => (fs, OutOfFuel)
      end
  end.

(** [range(1, 11)] *)
Definition fold_range : list Z := Z.of_nat <$> seq 1 10.

(** [parent_dir] is a global of the notebook. *)
Definition save_folds (fuel : nat) (parent_dir data_dir : string)
    (fs : gmap string (Np.ndarray F))
  : gmap string (Np.ndarray F) * outcome () :=
  save_loop fuel parent_dir data_dir fold_range fs.

(** [np.load] *)
Definition np_load (fs : gmap string (Np.ndarray F)) (file : string)
  : outcome (Np.ndarray F) :=
  match fs !! file with
  | Some a => Done a
  | None => Raise IOError
  end.

(** Reading a local variable that may not have been assigned yet. *)
Definition local {A} (x : option A) : outcome A :=
  match x with
  | Some a => Done a
  | None => Raise UnboundLocalError
  end.

(** The loop of [load_folds]; the state is the flag [subsequent_fold] and
    the locals [features] and [labels]. *)
Fixpoint load_loop (fs : gmap string (Np.ndarray F)) (data_dir : string)
    (folds : list Z)
    (st : bool * option (Np.ndarray F) * option (Np.ndarray F))
  : outcome (bool * option (Np.ndarray F) * option (Np.ndarray F)) :=
  match folds with
  | [] => Done st
  | k :: folds' =>
      let '(subsequent_fold, features, labels) := st in
      loaded_features ← np_load fs (feature_file data_dir k);
      loaded_labels ← np_load fs (labels_file data_dir k);
      st' ← (if subsequent_fold : bool
             then
               features ← local features;
               features ← Np.concatenate features loaded_features;
               labels ← local labels;
               labels ← Np.concatenate labels loaded_labels;
               Done (subsequent_fold, Some features, Some labels)
             else Done (true, Some loaded_features, Some loaded_labels));
      load_loop fs data_dir folds' st'
  end.

(** [data_dir] is a global of the notebook. *)
Definition load_folds (fs : gmap string (Np.ndarray F)) (data_dir : string)
    (folds : list Z) : outcome (Np.ndarray F * Np.ndarray F) :=
  '(_, features, labels) ← load_loop fs data_dir folds (false, None, None);
  features ← local features;
  labels ← local labels;
  Done (features, labels).

End Extractor.
End Extract.

(** ** The fold rotation of the training loop

<<
    for f in range(1,max_trials+1):
        v = f + 2
        if v > 10: v = 1
        t = v + 1
        if t > 10: t = 1
        train_x, train_y = load_folds([f,f+1])
        valid_x, valid_y = load_folds([v])
        test_x, test_y = load_folds([t])
>>  *)

Module Trial.

Record roles : Set := { train : list Z; validation : list Z; test : list Z }.

Definition rotation (f : Z) : roles :=
  let v := f + 2 in
  let v := if v >? 10 then 1 else v in
  let t := v + 1 in
  let t := if t >? 10 then 1 else t in
  {| train := [f; f + 1]; validation := [v]; test := [t] |}.

End Trial.

(** ** Decoding the labels in [evaluate]

<<
def evaluate(model):
    y_prob = model.predict_proba(test_x, verbose=0)
    y_pred = np_utils.probas_to_classes(y_prob)
    y_true = np.argmax(test_y, 1)
>>

    Only the line that reads the classes back from the one-hot labels is
    modelled; the rest of the function calls the model. *)

Module Evaluate.
Section Argmax.
Context {F : Type}.

(** The comparison [<=] of the array elements and their test for
    not-a-number. *)
Variable leb : F → F → bool.
Variable isnan : F → bool.

(** The scan of [np.argmax] over the elements along one axis: [best] is
    the largest value seen so far, [best_i] the first index where it was
    seen, [i] the index of the head of the rest. An element replaces
    [best] when it is not [<= best]; a not-a-number counts as the largest
    and ends the scan. *)
Fixpoint argmax_from (best : F) (best_i i : nat) (r : list F) : nat :=
  match r with
  | [] => best_i
  | x :: r' =>
      if leb x best then argmax_from best best_i (S i) r'
      else if isnan x then i
      else argmax_from x i (S i) r'
  end.

Definition argmax (l : list F) : nat :=
  match l with
  | [] => 0%nat
  | x :: r => if isnan x then 0%nat else argmax_from x 0 1 r
  end.

(** The elements [r[0, j], .., r[d-1, j]] of one index [r] along axis 0,
    of shape [(d, n)] in C order. *)
Definition lane (d n : nat) (r : list F) (j : nat) : list F :=
  omap (λ i, r !! (i * n + j)%nat) (seq 0 d).

(** [np.argmax(a, 1)]: axis 1 is dropped, and every other index holds the
    position along axis 1 of the first largest element. An array of one
    dimension has no axis 1, and an axis 1 of length 0 has no largest
    element: both raise [ValueError]. *)
Definition argmax_axis1 (a : Np.ndarray F) : outcome (Np.ndarray nat) :=
  match Np.row_shape a with
  | [] => Raise ValueError
  | O :: _ => Raise ValueError
  | d :: rest =>
      let n := Np.size_of rest in
      Done {| Np.row_shape := rest;
              Np.rows := (λ r, (λ j, argmax (lane d n r j)) <$> seq 0 n) <$> Np.rows a |}
  end.

Definition y_true (test_y : Np.ndarray F) : outcome (Np.ndarray nat) :=
  argmax_axis1 test_y.

End Argmax.
End Evaluate.

(** ** More of Python's strings *)

Module PyStr.

(** [s.find(sep)]: the index of the first occurrence of [sep] in [s], or
    -1. [i] is the index of the head of [s] in the whole string. *)
Fixpoint find_from (sep s : string) (i : Z) : Z :=
  if String.prefix sep s then i
  else match s with
       | EmptyString => -1
       | String _ s' => find_from sep s' (i + 1)
       end.

Definition find (s sep : string) : Z := find_from sep s 0.

End PyStr.

(** ** The loads of one training trial

<<
        train_x, train_y = load_folds([f,f+1])
        valid_x, valid_y = load_folds([v])
        test_x, test_y = load_folds([t])
>>

    with [v] and [t] as [Trial.rotation] has them. *)

Module Training.
Section Loads.
Context {F : Type}.

Definition load_trial (fs : gmap string (Np.ndarray F)) (data_dir : string) (f : Z)
  : outcome ((Np.ndarray F * Np.ndarray F)
             * (Np.ndarray F * Np.ndarray F)
             * (Np.ndarray F * Np.ndarray F)) :=
  let r := Trial.rotation f in
  train ← Extract.load_folds fs data_dir (Trial.train r);
  valid ← Extract.load_folds fs data_dir (Trial.validation r);
  test ← Extract.load_folds fs data_dir (Trial.test r);
  Done (train, valid, test).

End Loads.
End Training.

(** ** Loading all the folds

<<
def load_all_folds():
    subsequent_fold = False
    for k in range(1,9):
        fold_name = 'fold' + str(k)
        feature_file = os.path.join(data_dir, fold_name + '_x.npy')
        labels_file = os.path.join(data_dir, fold_name + '_y.npy')
        loaded_features = np.load(feature_file)
        loaded_labels = np.load(labels_file)
        if subsequent_fold:
            train_x = np.concatenate((features, loaded_features))
            train_y = np.concatenate((labels, loaded_labels))
        else:
            train_x = loaded_features
            train_y = loaded_labels
            subsequent_fold = True
    valid_fold_name = 'fold9'
    ...
    valid_x = np.load(feature_file)
    valid_y = np.load(labels_file)
    test_fold_name = 'fold10'
    ...
    test_x = np.load(feature_file)
    test_y = np.load(labels_file)
>>

    The function assigns neither [features] nor [labels], so these two names
    are looked up among the globals of the notebook; what the look-ups give
    is a parameter. The function has no [return]: [load_all_folds_locals]
    is the state of its local variables when its body ends. *)

Module AllFolds.
Section LoadAll.
Context {F : Type}.

(** Reading the globals [features] and [labels]. *)
Variable global_features : outcome (Np.ndarray F).
Variable global_labels : outcome (Np.ndarray F).

Record locals : Type := {
  train_x : Np.ndarray F;
  train_y : Np.ndarray F;
  valid_x : Np.ndarray F;
  valid_y : Np.ndarray F;
  test_x : Np.ndarray F;
  test_y : Np.ndarray F
}.

Fixpoint train_loop (fs : gmap string (Np.ndarray F)) (data_dir : string)
    (ks : list Z) (st : bool * option (Np.ndarray F) * option (Np.ndarray F))
  : outcome (bool * option (Np.ndarray F) * option (Np.ndarray F)) :=
  match ks with
  | [] => Done st
  | k :: ks' =>
      let '(subsequent_fold, train_x, train_y) := st in
      loaded_features ← Extract.np_load fs (Extract.feature_file data_dir k);
      loaded_labels ← Extract.np_load fs (Extract.labels_file data_dir k);
      st' ← (if subsequent_fold : bool
             then
               features ← global_features;
               train_x ← Np.concatenate features loaded_features;
               labels ← global_labels;
               train_y ← Np.concatenate labels loaded_labels;
               Done (subsequent_fold, Some train_x, Some train_y)
             else Done (true, Some loaded_features, Some loaded_labels));
      train_loop fs data_dir ks' st'
  end.

(** [range(1, 9)] *)
Definition train_range : list Z := Z.of_nat <$> seq 1 8.

Definition load_all_folds_locals (fs : gmap string (Np.ndarray F))
    (data_dir : string) : outcome locals :=
  '(_, train_x, train_y) ← train_loop fs data_dir train_range (false, None, None);
  valid_x ← Extract.np_load fs (Extract.feature_file data_dir 9);
  valid_y ← Extract.np_load fs (Extract.labels_file data_dir 9);
  test_x ← Extract.np_load fs (Extract.feature_file data_dir 10);
  test_y ← Extract.np_load fs (Extract.labels_file data_dir 10);
  train_x ← Extract.local train_x;
  train_y ← Extract.local train_y;
  Done {| train_x := train_x; train_y := train_y;
          valid_x := valid_x; valid_y := valid_y;
          test_x := test_x; test_y := test_y |}.

(** The call itself returns [None]. *)
Definition load_all_folds (fs : gmap string (Np.ndarray F)) (data_dir : string)
  : outcome () :=
  load_all_folds_locals fs data_dir ;; Done ().

End LoadAll.
End AllFolds.

(** ** A concrete corpus

    Stand-ins for the collaborators, on integers in place of floats, to run
    the definitions above on concrete inputs. *)

Module Sample.

(** A spectrogram kernel of the right shape, [bands] rows and one column
    per 512 samples plus one; entry [(b, f)] is [100 * b + f]. *)
Definition melspectrogram (signal : list Z) (bands : nat) : list (list Z) :=
  (λ b, (λ f, 100 * Z.of_nat b + Z.of_nat f) <$> seq 0 (1 + length signal / 512)%nat)
    <$> seq 0 bands.

Definition logamplitude (m : list (list Z)) : list (list Z) := m.

Definition delta (m : list (list Z)) : list (list Z) :=
  (λ r : list Z, (λ _, 7) <$> r) <$> m.

Definition digit (c : ascii) : option Z :=
  let n := Z.of_nat (nat_of_ascii c) in
  if (48 <=? n) && (n <=? 57) then Some (n - 48) else None.

Fixpoint digits (s : string) (acc : Z) : option Z :=
  match s with
  | EmptyString => Some acc
  | String c s' => d ← digit c; digits s' (10 * acc + d)
  end.

Definition np_int (s : string) : option Z :=
  match s with
  | EmptyString => None
  | _ => digits s 0
  end.

Definition clip (n : Z) : option (list Z) := Some (replicate (Z.to_nat n) 5).

(** The recordings, by directory and file name ([None]: the file cannot
    be decoded). Under [us8k], [fold1] has a clip of class 0 of exactly one
    window of the default size (20480 samples) and a clip of class 1 of a
    window and a half, [fold2] one clip of class 0, and the other folds
    are empty. Under [raw], [fold1] has two clips shorter than a default
    window, [fold2] a file whose name carries no label followed by a good
    one, [fold3] a file that cannot be decoded followed by a good one, and
    [fold4] a clip of class 0 and a clip of class 2. *)
Definition recordings : list (string * string * option (list Z)) :=
  [ ("us8k/fold1", "100-0-0-0.wav", clip 20480);
    ("us8k/fold1", "101-1-0-0.wav", clip 30720);
    ("us8k/fold2", "102-0-0-0.wav", clip 20480);
    ("raw/fold1", "103-0-0-0.wav", clip 1536);
    ("raw/fold1", "104-1-0-0.wav", clip 100);
    ("raw/fold2", "noise.wav", clip 1536);
    ("raw/fold2", "105-1-0-0.wav", clip 1536);
    ("raw/fold3", "106-0-0-0.wav", None);
    ("raw/fold3", "107-1-0-0.wav", clip 1536);
    ("raw/fold4", "108-0-0-0.wav", clip 20480);
    ("raw/fold4", "109-2-0-0.wav", clip 20480) ].

Definition path (r : string * string * option (list Z)) : string :=
  r.1.1 +:+ "/" +:+ r.1.2.

Definition librosa_load (fn : string) : option (list Z) :=
  mjoin (snd <$> find (λ r, String.eqb fn (path r)) recordings).

(** [glob.glob] on the patterns "dir/*.wav". *)
Definition glob (pattern : string) : list string :=
  path <$> List.filter (λ r, String.eqb pattern (r.1.1 +:+ "/*.wav")) recordings.

Definition extract_features :=
  Extract.extract_features 0 librosa_load melspectrogram logamplitude delta glob np_int.

Definition extract_feature_array :=
  Extract.extract_feature_array 0 librosa_load melspectrogram logamplitude delta.

Definition save_folds :=
  Extract.save_folds 0 librosa_load melspectrogram logamplitude delta glob np_int 1.

(** A small directory of saved folds: two examples in fold 1, one in fold
    2, tensors of shape [(1, 1, 2)] and labels over two classes. *)
Definition fold1_x : Np.ndarray Z :=
  {| Np.row_shape := [1; 1; 2]%nat; Np.rows := [[11; 12]; [13; 14]] |}.
Definition fold1_y : Np.ndarray Z :=
  {| Np.row_shape := [2%nat]; Np.rows := [[1; 0]; [0; 1]] |}.
Definition fold2_x : Np.ndarray Z :=
  {| Np.row_shape := [1; 1; 2]%nat; Np.rows := [[21; 22]] |}.
Definition fold2_y : Np.ndarray Z :=
  {| Np.row_shape := [2%nat]; Np.rows := [[0; 1]] |}.

Definition saved : gmap string (Np.ndarray Z) :=
  <["data/fold1_x.npy" := fold1_x]> (<["data/fold1_y.npy" := fold1_y]>
    (<["data/fold2_x.npy" := fold2_x]> (<["data/fold2_y.npy" := fold2_y]> ∅))).

End Sample.

(** ** A directory with all ten folds

    One example per fold, with tensors of shape [(1, 1, 2)] that tell the
    folds apart and labels over two classes. *)

Module SampleFolds.

Definition fold_x (k : Z) : Np.ndarray Z :=
  {| Np.row_shape := [1; 1; 2]%nat; Np.rows := [[10 * k + 1; 10 * k + 2]] |}.

Definition fold_y (k : Z) : Np.ndarray Z :=
  {| Np.row_shape := [2%nat]; Np.rows := [[1 - k `mod` 2; k `mod` 2]] |}.

Definition saved : gmap string (Np.ndarray Z) :=
  foldr (λ k fs, <[Extract.feature_file "data" k := fold_x k]>
                   (<[Extract.labels_file "data" k := fold_y k]> fs))
        ∅ Extract.fold_range.

(** The globals [features] and [labels] as a notebook could have them. *)
Definition global_features : Np.ndarray Z :=
  {| Np.row_shape := [1; 1; 2]%nat; Np.rows := [[1; 2]; [3; 4]] |}.

Definition global_labels : Np.ndarray Z :=
  {| Np.row_shape := [2%nat]; Np.rows := [[1; 0]; [0; 1]] |}.

End SampleFolds.

(** * Properties *)

(** [lia] is to see through the divisions by 2 throughout. *)
Ltac Zify.zify_post_hook ::= Z.to_euclidean_division_equations.

(** ** The window generator *)

Section WindowerFacts.
Context {A : Type}.
Implicit Types (data : list A) (W start : Z).
Import Windower.

Lemma n_windows_exhausted data W start :
  1 <= W / 2 → Py.len data <= start → n_windows (Py.len data) W start = 0%nat.
Proof.
  intros Hh Hge. unfold n_windows.
  assert ((Py.len data - start + W / 2 - 1) / (W / 2) <= 0); [|lia].
  assert ((Py.len data - start + W / 2 - 1) / (W / 2) < 1); [|lia].
  apply Z.div_lt_upper_bound; lia.
Qed.

Lemma n_windows_step data W start :
  1 <= W / 2 → start < Py.len data →
  n_windows (Py.len data) W start = S (n_windows (Py.len data) W (start + W / 2)).
Proof.
  intros Hh Hlt. unfold n_windows.
  replace (Py.len data - start + W / 2 - 1)
    with ((Py.len data - (start + W / 2) + W / 2 - 1) + 1 * (W / 2)) by lia.
  rewrite Z.div_add by lia.
  assert (0 <= (Py.len data - (start + W / 2) + W / 2 - 1) / (W / 2)).
  { apply Z.div_pos; lia. }
  lia.
Qed.

Lemma nth_window_shift W start k :
  nth_window W start (S k) = nth_window W (start + W / 2) k.
Proof. unfold nth_window. f_equal; lia. Qed.

(** With a positive step the generator is exhausted after [n_windows]
    pairs, which are the pairs [nth_window]. *)
Lemma windows_from_closed_form fuel data W start :
  1 <= W / 2 →
  (n_windows (Py.len data) W start < fuel)%nat →
  windows_from fuel data W start
  = Done (nth_window W start <$> seq 0 (n_windows (Py.len data) W start)).
Proof.
  intros Hh. revert start.
  induction fuel as [|fuel IH]; intros start Hfuel; [lia|].
  simpl. unfold windows_next.
  destruct (Z.ltb_spec start (Py.len data)) as [Hlt|Hge].
  - rewrite (n_windows_step data W start) in * by done.
    rewrite IH by lia. simpl. f_equal. f_equal.
    + unfold nth_window. f_equal; lia.
    + rewrite <- fmap_S_seq, <- list_fmap_compose.
      apply list_fmap_ext. intros _ k _. simpl. by rewrite nth_window_shift.
  - by rewrite n_windows_exhausted.
Qed.

(** With a step that is not positive the generator never gets past a
    non-empty [data]. *)
Lemma windows_from_stuck fuel data W start :
  W / 2 <= 0 → start <= 0 → data ≠ [] →
  windows_from fuel data W start = OutOfFuel.
Proof.
  intros Hh Hs Hne. revert start Hs.
  induction fuel as [|fuel IH]; intros start Hs; [done|].
  simpl. unfold windows_next.
  assert (0 < Py.len data) by (destruct data; [done | unfold Py.len; simpl; lia]).
  destruct (Z.ltb_spec start (Py.len data)); [|lia].
  rewrite IH by lia. done.
Qed.

Lemma windows_nth_stuck n data W start :
  W / 2 <= 0 → start <= 0 → data ≠ [] →
  windows_nth n data W start
  = Some (start + Z.of_nat n * (W / 2), start + Z.of_nat n * (W / 2) + W).
Proof.
  intros Hh Hs Hne. revert start Hs.
  assert (0 < Py.len data) by (destruct data; [done | unfold Py.len; simpl; lia]).
  induction n as [|n IH]; intros start Hs; simpl; unfold windows_next;
    (destruct (Z.ltb_spec start (Py.len data)); [|lia]).
  - do 2 f_equal; lia.
  - rewrite IH by lia. do 2 f_equal; lia.
Qed.

Lemma slice_length data s W :
  0 <= s <= Py.len data → 0 <= W →
  Py.len (Py.slice data s (s + W)) = Z.min (s + W) (Py.len data) - s.
Proof.
  intros Hs HW. unfold Py.slice, Py.slice_bound, Py.len in *.
  destruct (Z.ltb_spec s 0); [lia|].
  destruct (Z.ltb_spec (s + W) 0); [lia|].
  rewrite length_take, length_drop. lia.
Qed.

Lemma full_window_nth data W k :
  1 <= W / 2 → (k < n_windows (Py.len data) W 0)%nat →
  full_window data W (nth_window W 0 k)
  = bool_decide (Z.of_nat k * (W / 2) + W <= Py.len data).
Proof.
  intros Hh Hk. unfold full_window, nth_window. simpl.
  assert (Z.of_nat k * (W / 2) < Py.len data) as Hlt.
  { unfold n_windows in Hk.
    assert (Z.of_nat k < (Py.len data - 0 + W / 2 - 1) / (W / 2)) as Hk' by lia.
    assert (W / 2 * (Z.of_nat k + 1) <= Py.len data - 0 + W / 2 - 1); [|lia].
    etrans; [|apply (Z.mul_div_le _ (W / 2)); lia].
    apply Z.mul_le_mono_nonneg_l; lia. }
  assert (0 <= W) by (pose proof (Z.mul_div_le W 2); lia).
  rewrite slice_length by lia.
  destruct (Z.eqb_spec (Z.min (Z.of_nat k * (W / 2) + W) (Py.len data)
                        - Z.of_nat k * (W / 2)) W);
    case_bool_decide; lia.
Qed.

Lemma filter_seq_prefix {B} (f : B → bool) (g : nat → B) (n m : nat) :
  (∀ k, (k < n)%nat → f (g k) = bool_decide (k < m)%nat) →
  length (List.filter f (g <$> seq 0 n)) = Nat.min n m.
Proof.
  induction n as [|n IH]; intros Hf; [done|].
  rewrite seq_S, fmap_app, List.filter_app, length_app, IH by (intros; apply Hf; lia).
  cbn [fmap list_fmap List.filter Nat.add]. rewrite Hf by lia.
  case_bool_decide; cbn [length]; lia.
Qed.

Lemma n_windows_short data W :
  1 <= W / 2 → Py.len data < W → (n_windows (Py.len data) W 0 <= 2)%nat.
Proof.
  intros Hh Hlt. unfold n_windows.
  assert ((Py.len data - 0 + W / 2 - 1) / (W / 2) < 3); [|lia].
  apply Z.div_lt_upper_bound; lia.
Qed.

Lemma full_windows_short data W :
  1 <= W / 2 → Py.len data < W →
  List.filter (full_window data W)
    (nth_window W 0 <$> seq 0 (n_windows (Py.len data) W 0)) = [].
Proof.
  intros Hh Hlt. apply length_zero_iff_nil.
  rewrite (filter_seq_prefix _ _ _ 0); [lia|].
  intros k Hk. rewrite full_window_nth by done.
  repeat case_bool_decide; lia.
Qed.


End WindowerFacts.

(** C3, as the code has it. For a window size of at least 2 the generator
    yields the pairs [(k * (W/2), k * (W/2) + W)] for [k = 0, 1, ..] while
    the start is below the length [L], so each start is a multiple of [W/2]
    and advances by [W/2]; the yielded pairs whose slice has length at least
    [W] are those that pass the consumers' test, and their number is
    [floor((L - W) / (W/2)) + 1] when [W <= L], and 0 when [L < W]. *)
Theorem windows_full_count {A} (data : list A) (W : Z) :
  2 <= W →
  ∃ ws,
    (∀ fuel, (Windower.n_windows (Py.len data) W 0 < fuel)%nat →
             Windower.windows fuel data W = Done ws)
    ∧ ws = Windower.nth_window W 0 <$> seq 0 (Windower.n_windows (Py.len data) W 0)
    ∧ List.filter (λ p, W <=? Py.len (Py.slice data p.1 p.2)) ws
      = List.filter (Windower.full_window data W) ws
    ∧ Z.of_nat (length (List.filter (λ p, W <=? Py.len (Py.slice data p.1 p.2)) ws))
      = if W <=? Py.len data then (Py.len data - W) / (W / 2) + 1 else 0.
Proof.
  intros HW. assert (1 <= W / 2) as Hh by lia.
  eexists. split; [|split; [reflexivity|]].
  { intros fuel Hfuel. by apply windows_from_closed_form. }
  set (L := Py.len data).
  assert (List.filter (λ p, W <=? Py.len (Py.slice data p.1 p.2))
            (Windower.nth_window W 0 <$> seq 0 (Windower.n_windows L W 0))
          = List.filter (Windower.full_window data W)
              (Windower.nth_window W 0 <$> seq 0 (Windower.n_windows L W 0))) as Hsame.
  { apply List.filter_ext_in. intros p Hp.
    apply list_elem_of_In, list_elem_of_fmap in Hp as (k & -> & Hk).
    apply elem_of_seq in Hk. unfold Windower.full_window, Windower.nth_window. simpl.
    assert (Z.of_nat k * (W / 2) < L) as Hlt.
    { unfold Windower.n_windows in Hk.
      assert (Z.of_nat k < (L - 0 + W / 2 - 1) / (W / 2)) as Hk' by lia.
      assert (W / 2 * (Z.of_nat k + 1) <= L - 0 + W / 2 - 1); [|lia].
      etrans; [|apply (Z.mul_div_le _ (W / 2)); lia].
      apply Z.mul_le_mono_nonneg_l; lia. }
    rewrite slice_length by lia. fold L.
    destruct (Z.leb_spec W (Z.min (Z.of_nat k * (W / 2) + W) L - Z.of_nat k * (W / 2)));
      destruct (Z.eqb_spec (Z.min (Z.of_nat k * (W / 2) + W) L - Z.of_nat k * (W / 2)) W);
      lia. }
  split; [done|]. rewrite Hsame.
  set (m := if W <=? L then Z.to_nat ((L - W) / (W / 2) + 1) else 0%nat).
  rewrite (filter_seq_prefix _ _ _ m).
  - subst m. destruct (Z.leb_spec W L) as [Hle|Hgt].
    + assert (0 <= (L - W) / (W / 2)) by (apply Z.div_pos; lia).
      assert ((L - W) / (W / 2) + 1 <= (L - 0 + W / 2 - 1) / (W / 2)).
      { rewrite <- (Z.div_add (L - W) 1 (W / 2)) by lia.
        apply Z.div_le_mono; lia. }
      unfold Windower.n_windows. lia.
    + lia.
  - intros k Hk. rewrite full_window_nth by done. fold L.
    subst m. destruct (Z.leb_spec W L) as [Hle|Hgt].
    + assert (0 <= (L - W) / (W / 2)) by (apply Z.div_pos; lia).
      repeat case_bool_decide; try done.
      * assert (Z.of_nat k <= (L - W) / (W / 2)); [|lia].
        apply Z.div_le_lower_bound; lia.
      * assert (Z.of_nat k <= (L - W) / (W / 2)) as Hk' by lia.
        assert (W / 2 * Z.of_nat k <= W / 2 * ((L - W) / (W / 2)))
          by (apply Z.mul_le_mono_nonneg_l; lia).
        pose proof (Z.mul_div_le (L - W) (W / 2)). lia.
    + repeat case_bool_decide; lia.
Qed.

Lemma windows_full_count_witness :
  ∃ ws,
    (∀ fuel, (Windower.n_windows 5 4 0 < fuel)%nat →
             Windower.windows fuel [1; 2; 3; 4; 5] 4 = Done ws)
    ∧ ws = Windower.nth_window 4 0 <$> seq 0 (Windower.n_windows 5 4 0)
    ∧ List.filter (λ p, 4 <=? Py.len (Py.slice [1; 2; 3; 4; 5] p.1 p.2)) ws
      = List.filter (Windower.full_window [1; 2; 3; 4; 5] 4) ws
    ∧ Z.of_nat
        (length (List.filter (λ p, 4 <=? Py.len (Py.slice [1; 2; 3; 4; 5] p.1 p.2)) ws))
      = (5 - 4) / (4 / 2) + 1.
Proof. apply (windows_full_count [1; 2; 3; 4; 5] 4). lia. Defined.

(** C3 fails as stated on a clip shorter than half a window: one sample and
    a window of 5 give the single pair [(0, 5)], whose slice has length 1,
    so no window of length at least 5, while the formula gives -1 (whether
    the division rounds down or towards zero). And with a window of 1 the
    step is 0: on a non-empty clip the generator is never exhausted, so
    there is no number of produced windows. *)
Lemma windows_full_count_short_clip :
  (∃ ws,
     (∀ fuel, (Windower.n_windows (Py.len [7]) 5 0 < fuel)%nat →
              Windower.windows fuel [7] 5 = Done ws)
     ∧ ws = [(0, 5)]
     ∧ Z.of_nat (length (List.filter (λ p, 5 <=? Py.len (Py.slice [7] p.1 p.2)) ws)) = 0
     ∧ (Py.len [7] - 5) / (5 / 2) + 1 = -1
     ∧ (Py.len [7] - 5) ÷ (5 ÷ 2) + 1 = -1
     ∧ Z.of_nat (length (List.filter (λ p, 5 <=? Py.len (Py.slice [7] p.1 p.2)) ws))
       ≠ (Py.len [7] - 5) / (5 / 2) + 1)
  ∧ ¬ (∃ fuel, returns (Windower.windows fuel [7] 1)).
Proof.
  split.
  - exists [(0, 5)]. split; [|done].
    intros fuel Hfuel. unfold Windower.windows.
    rewrite windows_from_closed_form; done.
  - intros [fuel [ws Hws]]. unfold Windower.windows in Hws.
    by rewrite windows_from_stuck in Hws.
Qed.

(** C9, as the code has it. For a non-empty clip shorter than a window the
    generator yields the pair [(0, W)] first; for an empty clip it yields
    nothing; in both cases it is exhausted without error and no yielded pair
    passes the consumers' length test. *)
Theorem windows_short_clip {A} (data : list A) (W : Z) :
  Py.len data < W →
  ∃ ws,
    (∀ fuel, (2 < fuel)%nat → Windower.windows fuel data W = Done ws)
    ∧ (data ≠ [] → head ws = Some (0, W))
    ∧ (data = [] → ws = [])
    ∧ List.filter (Windower.full_window data W) ws = [].
Proof.
  intros Hlt. destruct data as [|x data].
  - exists []. repeat split; try done. intros [|fuel] ?; [lia|done].
  - assert (0 < Py.len (x :: data)) by (unfold Py.len; simpl; lia).
    assert (1 <= W / 2) as Hh by lia.
    eexists. split; [|split; [|split]].
    + intros fuel Hfuel. apply windows_from_closed_form; [done|].
      pose proof (n_windows_short (x :: data) W). lia.
    + intros _. rewrite (n_windows_step (x :: data) W 0) by done. simpl.
      unfold Windower.nth_window. do 2 f_equal; lia.
    + done.
    + by apply full_windows_short.
Qed.

Lemma windows_short_clip_witness :
  ∃ ws,
    (∀ fuel, (2 < fuel)%nat → Windower.windows fuel [7; 7; 7] 4 = Done ws)
    ∧ ([7; 7; 7] ≠ [] → head ws = Some (0, 4))
    ∧ ([7; 7; 7] = [] → ws = [])
    ∧ List.filter (Windower.full_window [7; 7; 7] 4) ws = [].
Proof. apply (windows_short_clip [7; 7; 7] 4). unfold Py.len. simpl. lia. Defined.

(** C9 fails as stated on the empty clip: the loop condition [0 < 0] is
    false at once, so no pair is yielded, not even [(0, W)]. *)
Lemma windows_empty_clip_no_pair :
  Py.len (@nil Z) < 4
  ∧ Windower.windows 3 (@nil Z) 4 = Done []
  ∧ Windower.windows_nth 0 (@nil Z) 4 0 = None.
Proof. done. Qed.

(** C10. The generator is exhausted after finitely many resumptions exactly
    when the step [window_size / 2] is at least 1 or [data] is empty; the
    step is at least 1 exactly when [window_size >= 2], whether the division
    rounds down, as Python 2 has it, or towards zero; and for
    [window_size <= 1] on a non-empty [data] no amount of fuel exhausts it,
    every resumption yielding one more pair from a start that stays below
    the length. *)
Theorem windows_terminates_iff {A} (data : list A) (W : Z) :
  ((∃ fuel, returns (Windower.windows fuel data W)) ↔ (1 <= W / 2 ∨ data = []))
  ∧ (1 <= W / 2 ↔ 2 <= W)
  ∧ (1 <= W ÷ 2 ↔ 2 <= W)
  ∧ (W <= 1 → data ≠ [] →
     (∀ fuel, Windower.windows fuel data W = OutOfFuel)
     ∧ ∀ n, ∃ p, Windower.windows_nth n data W 0 = Some p
                 ∧ p.1 = Z.of_nat n * (W / 2) ∧ p.1 < Py.len data).
Proof.
  split; [|split; [|split]].
  - split.
    + intros [fuel [ws Hws]].
      destruct (decide (1 <= W / 2)) as [|Hh]; [by left|right].
      destruct data as [|x data]; [done|].
      unfold Windower.windows in Hws.
      rewrite windows_from_stuck in Hws; [done|lia|lia|done].
    + intros [Hh| ->].
      * exists (S (Windower.n_windows (Py.len data) W 0)). eexists.
        apply windows_from_closed_form; [done|lia].
      * exists 1%nat, []. done.
  - lia.
  - lia.
  - intros HW Hne. assert (W / 2 <= 0) as Hh by lia. split.
    + intros fuel. by apply windows_from_stuck.
    + intros n. eexists. split; [by apply windows_nth_stuck|]. simpl.
      assert (0 < Py.len data) by (destruct data; [done | unfold Py.len; simpl; lia]).
      split; [lia|]. nia.
Qed.

Lemma windows_terminates_iff_witness :
  (∀ fuel, Windower.windows fuel [7; 7] 1 = OutOfFuel)
  ∧ ∀ n, ∃ p, Windower.windows_nth n [7; 7] 1 0 = Some p
              ∧ p.1 = Z.of_nat n * (1 / 2) ∧ p.1 < Py.len [7; 7].
Proof. apply (windows_terminates_iff [7; 7] 1); [lia|done]. Defined.

(** ** Strings *)

Lemma list_ascii_app (a b : string) :
  list_ascii_of_string (a +:+ b) = list_ascii_of_string a ++ list_ascii_of_string b.
Proof. induction a as [|c a IH]; simpl; [done|]. by rewrite IH. Qed.

Lemma list_ascii_length (a : string) :
  length (list_ascii_of_string a) = String.length a.
Proof. induction a as [|c a IH]; simpl; [done|]. by rewrite IH. Qed.

Lemma list_ascii_inj (a b : string) :
  list_ascii_of_string a = list_ascii_of_string b → a = b.
Proof.
  intros H. rewrite <- (string_of_list_ascii_of_string a),
    <- (string_of_list_ascii_of_string b). by rewrite H.
Qed.

Lemma append_nil_r (s : string) : s +:+ "" = s.
Proof.
  induction s as [|c s IH]; [done|].
  change (String c s +:+ "") with (String c (s +:+ "")). by rewrite IH.
Qed.

Lemma append_snoc (a : string) (c : ascii) (b : string) :
  (a +:+ String c "") +:+ b = a +:+ String c b.
Proof.
  induction a as [|x a IH]; [done|].
  change ((String x a +:+ String c "") +:+ b)
    with (String x ((a +:+ String c "") +:+ b)).
  by rewrite IH.
Qed.

(** Without an occurrence of the separator [split] returns the string as
    its only piece. *)
Lemma split_go_absent (sep s cur : string) :
  Py.contains sep s = false → Py.split_go sep s 0 cur = [cur +:+ s].
Proof.
  revert cur. induction s as [|c s IH]; intros cur Hno; simpl in *.
  - by rewrite append_nil_r.
  - apply orb_false_iff in Hno as [Hprefix Hno].
    rewrite Hprefix, IH by done. by rewrite append_snoc.
Qed.

Lemma prefix_char (c x : ascii) (s : string) :
  String.prefix (String c "") (String x s) = bool_decide (c = x).
Proof. simpl. destruct (ascii_dec c x); case_bool_decide; by destruct s. Qed.

Lemma contains_char (c : ascii) (s : string) :
  Py.contains (String c "") s = false ↔ c ∉ list_ascii_of_string s.
Proof.
  induction s as [|x s IH].
  - simpl. rewrite elem_of_nil. tauto.
  - cbn [Py.contains list_ascii_of_string].
    rewrite orb_false_iff, IH, not_elem_of_cons, prefix_char.
    case_bool_decide; intuition congruence.
Qed.

(** Every character of a piece returned by [split] comes from the piece
    being collected or from the rest of the string. *)
Lemma split_go_chars (sep s : string) : ∀ skip cur p x,
  p ∈ Py.split_go sep s skip cur →
  x ∈ list_ascii_of_string p →
  x ∈ list_ascii_of_string cur ∨ x ∈ list_ascii_of_string s.
Proof.
  induction s as [|c s IH]; intros skip cur p x Hp Hx; cbn [Py.split_go] in Hp.
  - apply list_elem_of_singleton in Hp as ->. by left.
  - cbn [list_ascii_of_string]. rewrite elem_of_cons.
    destruct skip as [|skip].
    + destruct (String.prefix sep (String c s)).
      * apply elem_of_cons in Hp as [->|Hp]; [by left|].
        destruct (IH _ _ _ _ Hp Hx) as [Hnil|?]; [|tauto].
        by apply elem_of_nil in Hnil.
      * destruct (IH _ _ _ _ Hp Hx) as [Hcur|?]; [|tauto].
        rewrite list_ascii_app in Hcur. apply elem_of_app in Hcur as [?|Hc]; [tauto|].
        apply list_elem_of_singleton in Hc. tauto.
    + destruct (IH _ _ _ _ Hp Hx); tauto.
Qed.

(** ** Array layout *)

Section NpFacts.
Context {F : Type}.
Implicit Types (m : list (list F)) (r flat : list F).

Lemma has_shape_spec m nrows ncolumns :
  Np.has_shape m nrows ncolumns = true ↔
  length m = nrows ∧ Forall (λ r, length r = ncolumns) m.
Proof.
  unfold Np.has_shape. rewrite andb_true_iff, Nat.eqb_eq.
  split; intros [Hlen Hrows]; (split; [done|]).
  - apply Forall_forall. intros r Hr.
    apply Is_true_true_2, forallb_True in Hrows.
    eapply Forall_forall in Hrows; [|done]. by apply Nat.eqb_eq, Is_true_true_1.
  - apply Is_true_true_1, forallb_True. eapply Forall_impl; [done|].
    intros r Hr. by apply Is_true_true_2, Nat.eqb_eq.
Qed.

Lemma column_cons r m (j : nat) x :
  r !! j = Some x → Np.column (r :: m) j = x :: Np.column m j.
Proof. unfold Np.column. simpl. by intros ->. Qed.

Lemma column_lookup m (j i : nat) :
  Forall (λ r, (j < length r)%nat) m →
  Np.column m j !! i = m !! i ≫= (.!! j).
Proof.
  intros Hm. revert i.
  induction Hm as [|r m Hr _ IH]; intros i; [done|].
  destruct (lookup_lt_is_Some_2 _ _ Hr) as [x Hx]. rewrite (column_cons _ _ _ x Hx).
  destruct i as [|i]; simpl; [done|]. apply IH.
Qed.

Lemma column_length m (j : nat) :
  Forall (λ r, (j < length r)%nat) m → length (Np.column m j) = length m.
Proof.
  induction 1 as [|r m Hr _ IH]; [done|].
  destruct (lookup_lt_is_Some_2 _ _ Hr) as [x Hx]. rewrite (column_cons _ _ _ x Hx).
  simpl. by rewrite IH.
Qed.

(** Element [k] of [m.T.flatten()], for [m] with [bands] rows and [frames]
    columns, is the entry of [m] at row [k mod bands], column
    [k / bands]. *)
Lemma T_flatten_lookup m (bands frames k : nat) :
  Np.has_shape m bands frames = true → (k < bands * frames)%nat →
  Np.T_flatten m !! k = m !! (k `mod` bands)%nat ≫= (.!! (k / bands)%nat).
Proof.
  intros [Hlen Hrows]%has_shape_spec Hk.
  assert (0 < bands)%nat as Hbands by lia.
  assert (k / bands < frames)%nat as Hj by (apply Nat.Div0.div_lt_upper_bound; lia).
  assert (k `mod` bands < bands)%nat as Hi by (apply Nat.mod_upper_bound; lia).
  assert (Np.ncols m = frames) as Hcols.
  { destruct m as [|r m]; simpl in *; [lia|]. by inversion Hrows. }
  unfold Np.T_flatten. rewrite Hcols.
  rewrite (Nat.div_mod_eq k bands) at 1. rewrite (Nat.mul_comm bands).
  apply option_eq. intros x.
  rewrite (join_lookup_Some_same_length' bands); [| |done].
  - split.
    + intros (l & Hl & Hx). rewrite list_lookup_fmap, lookup_seq_lt in Hl by done.
      injection Hl as <-. rewrite <- Hx. symmetry. apply column_lookup.
      eapply Forall_impl; [done|]. simpl. lia.
    + intros Hx. exists (Np.column m (k / bands)). split.
      * by rewrite list_lookup_fmap, lookup_seq_lt.
      * rewrite <- Hx. apply column_lookup.
        eapply Forall_impl; [done|]. simpl. lia.
  - apply Forall_fmap, Forall_seq. intros j Hjr. simpl.
    rewrite column_length; [done|]. eapply Forall_impl; [done|]. simpl. lia.
Qed.

Lemma every_other_zeros (zero : F) flat :
  Np.every_other (flat ≫= λ v, [v; zero]) = flat.
Proof.
  induction flat as [|x flat IH]; [done|].
  rewrite bind_cons. simpl. by rewrite IH.
Qed.

Lemma interleave_lookup_even flat ds (k : nat) :
  length flat = length ds →
  mjoin (zip_with (λ v w, [v; w]) flat ds) !! (k * 2)%nat = flat !! k.
Proof.
  revert ds k. induction flat as [|x flat IH]; intros [|d ds] k Hlen; try done.
  destruct k as [|k]; [done|]. simpl. apply IH. by injection Hlen.
Qed.

Lemma has_shape_join_length m (nrows ncolumns : nat) :
  Np.has_shape m nrows ncolumns = true → length (mjoin m) = (nrows * ncolumns)%nat.
Proof.
  intros [Hlen Hrows]%has_shape_spec.
  rewrite length_join, (sum_list_fmap_same ncolumns) by done. by rewrite Hlen.
Qed.

Lemma T_flatten_length m (bands frames : nat) :
  Np.has_shape m bands frames = true → (0 < bands)%nat →
  length (Np.T_flatten m) = (bands * frames)%nat.
Proof.
  intros [Hlen Hrows]%has_shape_spec Hbands.
  assert (Np.ncols m = frames) as Hcols.
  { destruct m as [|r m]; simpl in *; [lia|]. by inversion Hrows. }
  unfold Np.T_flatten. rewrite Hcols, length_join.
  rewrite (sum_list_fmap_same bands).
  - rewrite length_fmap, length_seq. lia.
  - apply Forall_fmap, Forall_seq. intros j Hj. simpl.
    rewrite column_length; [done|]. eapply Forall_impl; [done|]. simpl. lia.
Qed.

Lemma reshape_rows_shape (bands frames : nat) : ∀ flat,
  length flat = (bands * frames)%nat →
  Np.has_shape (reshape (replicate bands frames) flat) bands frames = true.
Proof.
  intros flat Hflat. apply has_shape_spec. split.
  { by rewrite length_reshape, length_replicate. }
  revert flat Hflat. induction bands as [|bands IH]; intros flat Hflat; simpl.
  - constructor.
  - constructor.
    + rewrite length_take. lia.
    + apply IH. rewrite length_drop. lia.
Qed.

(** Broadcasting gives the shape asked for, and leaves an array of that
    shape as it is. *)
Lemma stretch_length {A} (n : nat) (l l' : list A) :
  Np.stretch n l = Some l' → length l' = n.
Proof.
  unfold Np.stretch. destruct (Nat.eqb_spec (length l) n) as [Hn|_].
  - by intros [= <-].
  - destruct l as [|x [|y l]]; intros [= <-]. by rewrite length_replicate.
Qed.

Lemma stretch_same {A} (n : nat) (l : list A) :
  length l = n → Np.stretch n l = Some l.
Proof. intros <-. unfold Np.stretch. by rewrite Nat.eqb_refl. Qed.

Lemma broadcast_to_shape (d : list (list F)) (nrows ncolumns : nat) d' :
  Np.broadcast_to d nrows ncolumns = Some d' →
  Np.has_shape d' nrows ncolumns = true.
Proof.
  unfold Np.broadcast_to. destruct (forallb _ d); [|done].
  destruct (mapM (Np.stretch ncolumns) d) as [rs|] eqn:Hrs; [|done].
  assert (Forall (λ r, length r = ncolumns) rs) as Hcols.
  { apply mapM_Some in Hrs. induction Hrs as [|r r' d0 rs0 Hr _ IH]; [constructor|].
    constructor; [by eapply stretch_length|done]. }
  cbn [mbind option_bind]. intros Hd'. apply has_shape_spec.
  split; [by eapply stretch_length|].
  revert Hd'. unfold Np.stretch. destruct (Nat.eqb (length rs) nrows).
  - by intros [= <-].
  - destruct rs as [|r [|r1 rs]]; intros [= <-].
    apply Forall_replicate. by inversion Hcols.
Qed.

Lemma broadcast_to_same_shape (d : list (list F)) (nrows ncolumns : nat) :
  Np.has_shape d nrows ncolumns = true →
  Np.broadcast_to d nrows ncolumns = Some d.
Proof.
  intros [Hlen Hrows]%has_shape_spec. unfold Np.broadcast_to.
  assert (forallb (λ r, Nat.eqb (length r) (Np.ncols d)) d = true) as ->.
  { apply Is_true_true_1, forallb_True. destruct Hrows as [|r d0 Hr Hd0]; [done|].
    simpl. constructor; [by apply Is_true_true_2, Nat.eqb_eq|].
    eapply Forall_impl; [exact Hd0|]. intros r0 Hr0.
    apply Is_true_true_2, Nat.eqb_eq. congruence. }
  assert (mapM (Np.stretch ncolumns) d = Some d) as ->.
  { apply mapM_Some. clear Hlen. induction Hrows as [|r d0 Hr _ IH]; [constructor|].
    constructor; [by apply stretch_same|done]. }
  cbn [mbind option_bind]. by apply stretch_same.
Qed.

Lemma set_channel1_same_shape (bands frames : nat) (r : list F) d :
  Np.has_shape d bands frames = true →
  Np.set_channel1 bands frames r d
  = Done (mjoin (zip_with (λ v w, [v; w]) (Np.every_other r) (mjoin d))).
Proof.
  intros Hshape. unfold Np.set_channel1. by rewrite broadcast_to_same_shape.
Qed.

Lemma set_channel1_done (bands frames : nat) (r : list F) d r' :
  Np.set_channel1 bands frames r d = Done r' →
  ∃ d', Np.broadcast_to d bands frames = Some d'
        ∧ Np.has_shape d' bands frames = true
        ∧ r' = mjoin (zip_with (λ v w, [v; w]) (Np.every_other r) (mjoin d')).
Proof.
  unfold Np.set_channel1.
  destruct (Np.broadcast_to d bands frames) as [d'|] eqn:Hd'; [|done].
  intros [= <-]. exists d'. split; [done|]. split; [|done].
  by eapply broadcast_to_shape.
Qed.

End NpFacts.

Section FeatureFacts.
Context {F : Type} (zero : F).
Variable delta : list (list F) → list (list F).

Lemma delta_loop_rows bands frames rs rs' :
  Extract.delta_loop delta bands frames rs = Done rs' →
  Forall2
    (λ r r', Np.set_channel1 bands frames r (delta (Np.channel 0 bands frames r))
             = Done r')
    rs rs'.
Proof.
  revert rs'. induction rs as [|r rs IH]; intros rs' Hrs; simpl in Hrs.
  - injection Hrs as <-. constructor.
  - destruct (Np.set_channel1 _ _ _ _) as [r'| |] eqn:Hr; [|done..]. simpl in Hrs.
    destruct (Extract.delta_loop _ _ _ _) as [rs''| |]; [|done..].
    injection Hrs as <-. constructor; [done|]. by apply IH.
Qed.

(** What the lines after the loops make of the stacked log-spectrograms:
    an array of shape [(n, bands, frames, 2)] whose channel 0 at [(i, j)]
    is element [i * frames + j] of the flattened log-spectrogram, the
    buffer being read row by row whatever order it was written in. *)
Lemma features_of_channel0 log_specgrams bands frames a :
  Extract.features_of zero delta log_specgrams bands frames = Done a →
  Np.row_shape a = [bands; frames; 2%nat]
  ∧ length (Np.rows a) = length log_specgrams
  ∧ ∀ n flat i j,
      log_specgrams !! n = Some flat → (i < bands)%nat → (j < frames)%nat →
      Np.get4 frames a n i j 0 = flat !! (i * frames + j)%nat.
Proof.
  unfold Extract.features_of, Np.asarray_reshape. intros Ha.
  destruct (forallb _ log_specgrams) eqn:Hsizes; [|done]. simpl in Ha.
  destruct (Extract.delta_loop _ _ _ _) as [rs| |] eqn:Hrs; [|done..].
  injection Ha as <-. simpl.
  apply delta_loop_rows in Hrs.
  split; [done|]. split.
  { apply Forall2_length in Hrs. by rewrite length_fmap in Hrs. }
  intros n flat i j Hflat Hi Hj. unfold Np.get4. simpl.
  assert (length flat = (bands * frames)%nat) as Hlen.
  { apply Is_true_true_2, forallb_True in Hsizes.
    eapply Forall_lookup_1 in Hsizes; [|done].
    apply Is_true_true_1, Nat.eqb_eq in Hsizes. rewrite Hsizes. simpl. lia. }
  destruct (Forall2_lookup_l _ _ _ n (flat ≫= λ v, [v; zero]) Hrs) as (r' & Hr' & Hset).
  { by rewrite list_lookup_fmap, Hflat. }
  rewrite Hr'. simpl.
  apply set_channel1_done in Hset as (d' & _ & Hshape & ->).
  rewrite every_other_zeros.
  rewrite Nat.add_0_r. apply interleave_lookup_even.
  by rewrite (has_shape_join_length _ _ _ Hshape).
Qed.

(** With a [delta] that keeps the shape of its argument, the lines after
    the loops return on log-spectrograms of [bands * frames] elements. *)
Lemma features_of_returns log_specgrams bands frames :
  (∀ m, Np.has_shape m bands frames = true →
        Np.has_shape (delta m) bands frames = true) →
  Forall (λ flat, length flat = (bands * frames)%nat) log_specgrams →
  returns (Extract.features_of zero delta log_specgrams bands frames).
Proof.
  intros Hdelta Hsizes. unfold Extract.features_of, Np.asarray_reshape.
  assert (forallb (λ x, Nat.eqb (length x) (Np.size_of [bands; frames; 1%nat]))
            log_specgrams = true) as ->.
  { apply Is_true_true_1, forallb_True. eapply Forall_impl; [done|].
    intros flat Hflat. apply Is_true_true_2, Nat.eqb_eq.
    unfold Np.size_of. simpl. by rewrite !Nat.mul_1_r. }
  simpl.
  assert (returns (Extract.delta_loop delta bands frames
                     ((λ r, r ≫= λ v, [v; zero]) <$> log_specgrams))) as [rs ->];
    [|by eexists].
  induction Hsizes as [|flat specs Hflat _ [rs IH]]; [by eexists|].
  rewrite fmap_cons. simpl. rewrite set_channel1_same_shape.
  - simpl. rewrite IH. by eexists.
  - unfold Np.channel. rewrite drop_0, every_other_zeros.
    apply Hdelta. by apply reshape_rows_shape.
Qed.

End FeatureFacts.


(** ** The extractors *)

(** A file name without the marker "fold", or without a "-", has no label:
    one of the two [split] returns a single piece, and indexing it at 1
    raises. *)
Lemma parse_label_absent (fn : string) :
  Py.contains "fold" fn = false ∨ Py.contains "-" fn = false →
  Extract.parse_label fn = Raise IndexError.
Proof.
  unfold Extract.parse_label, Py.getitem, Py.split. intros [Hfold|Hdash].
  - by rewrite split_go_absent.
  - destruct (Py.split_go "fold" fn 0 "" !! 1%nat) as [after_fold|] eqn:Hpiece; [|done].
    simpl. rewrite split_go_absent; [done|].
    apply contains_char. intros Hin.
    apply list_elem_of_lookup_2 in Hpiece.
    destruct (split_go_chars _ _ _ _ _ _ Hpiece Hin) as [Hnil|Hfn].
    + by apply elem_of_nil in Hnil.
    + by apply contains_char in Hdash.
Qed.

Section ExtractorFacts.
Context {F : Type} (zero : F).
Variable librosa_load : string → option (list F).
Variable melspectrogram : list F → nat → list (list F).
Variable logamplitude : list (list F) → list (list F).
Variable delta : list (list F) → list (list F).
Variable glob : string → list string.
Variable np_int : string → option Z.

Local Abbreviation load := (Extract.load librosa_load).
Local Abbreviation window_logspec := (Extract.window_logspec melspectrogram logamplitude).
Local Abbreviation clip_loop := (Extract.clip_loop melspectrogram logamplitude).
Local Abbreviation file_loop := (Extract.file_loop librosa_load melspectrogram logamplitude).
Local Abbreviation dir_loop := (Extract.dir_loop librosa_load melspectrogram logamplitude glob).
Local Abbreviation features_of := (Extract.features_of zero delta).
Local Abbreviation extract_features :=
  (Extract.extract_features zero librosa_load melspectrogram logamplitude delta
     glob np_int).
Local Abbreviation extract_feature_array :=
  (Extract.extract_feature_array zero librosa_load melspectrogram logamplitude delta).

(** The loop over the yielded pairs appends one log-spectrogram and one
    copy of the label for each pair that passes the length test, in
    order. *)
Lemma clip_loop_filter sound_clip label bands W ws acc :
  clip_loop sound_clip label bands W ws acc
  = (acc.1 ++ (window_logspec sound_clip bands
                 <$> List.filter (Windower.full_window sound_clip W) ws),
     acc.2 ++ replicate
                (length (List.filter (Windower.full_window sound_clip W) ws)) label).
Proof.
  unfold Extract.clip_loop. revert acc.
  induction ws as [|p ws IH]; intros [specs labels]; simpl.
  - by rewrite !app_nil_r.
  - rewrite IH. destruct (Windower.full_window sound_clip W p); simpl; [|done].
    by rewrite <- !app_assoc.
Qed.

Lemma array_loop_filter sound_clip bands W ws acc :
  fold_left
    (λ acc p,
       if Windower.full_window sound_clip W p
       then acc ++ [window_logspec sound_clip bands p]
       else acc)
    ws acc
  = acc ++ (window_logspec sound_clip bands
              <$> List.filter (Windower.full_window sound_clip W) ws).
Proof.
  revert acc. induction ws as [|p ws IH]; intros acc; simpl.
  - by rewrite app_nil_r.
  - rewrite IH. destruct (Windower.full_window sound_clip W p); simpl; [|done].
    by rewrite <- app_assoc.
Qed.


Lemma parse_label_outcome fn :
  returns (Extract.parse_label fn) ∨ Extract.parse_label fn = Raise IndexError.
Proof.
  unfold Extract.parse_label, Py.getitem.
  destruct (Py.split fn "fold" !! 1%nat) as [after_fold|]; simpl; [|by right].
  destruct (Py.split after_fold "-" !! 1%nat); simpl; [left; by eexists | by right].
Qed.

(** A file that cannot be decoded or whose name has no label ends the file
    loop: whatever comes after it is not looked at. *)
Lemma file_loop_bad fuel bands W fns fn acc :
  fn ∈ fns →
  librosa_load fn = None ∨ ¬ returns (Extract.parse_label fn) →
  ¬ returns (file_loop fuel bands W fns acc).
Proof.
  intros Hin Hbad. revert acc.
  induction fns as [|fn' fns IH]; intros acc [r Hr]; [by apply elem_of_nil in Hin|].
  simpl in Hr. unfold Extract.load in Hr.
  destruct (librosa_load fn') as [clip|] eqn:Hload; [|done]. simpl in Hr.
  destruct (Extract.parse_label fn') as [label| |] eqn:Hlabel; [|done..]. simpl in Hr.
  destruct (Windower.windows fuel clip W) as [ws| |]; [|done..]. simpl in Hr.
  apply elem_of_cons in Hin as [->|Hin].
  - destruct Hbad as [Hbad|Hbad]; [congruence|].
    apply Hbad. rewrite Hlabel. by eexists.
  - eapply IH; [done|]. by eexists.
Qed.

Lemma dir_loop_bad fuel parent_dir file_ext bands W sub_dirs sub_dir fn acc :
  sub_dir ∈ sub_dirs →
  fn ∈ glob (Py.path_join (Py.path_join parent_dir sub_dir) file_ext) →
  librosa_load fn = None ∨ ¬ returns (Extract.parse_label fn) →
  ¬ returns (dir_loop fuel parent_dir file_ext bands W sub_dirs acc).
Proof.
  intros Hdir Hin Hbad. revert acc.
  induction sub_dirs as [|d ds IH]; intros acc [r Hr]; [by apply elem_of_nil in Hdir|].
  simpl in Hr.
  destruct (file_loop fuel bands W _ acc) as [acc'| |] eqn:Hfiles; [|done..].
  simpl in Hr. apply elem_of_cons in Hdir as [->|Hdir].
  - eapply file_loop_bad; [done..|]. rewrite Hfiles. by eexists.
  - eapply IH; [done|]. by eexists.
Qed.



(** The first bad file of a walk, after files that are processed
    normally, ends the walk with its exception. *)
Lemma file_loop_first_bad fuel bands W good fn rest acc :
  Forall (λ g, ∃ sound_clip,
              librosa_load g = Some sound_clip
              ∧ returns (Extract.parse_label g)
              ∧ returns (Windower.windows fuel sound_clip W)) good →
  librosa_load fn = None ∨ ¬ returns (Extract.parse_label fn) →
  file_loop fuel bands W (good ++ fn :: rest) acc
  = Raise (match librosa_load fn with Some _ => IndexError | None => DecodeError end).
Proof.
  intros Hgood Hbad. revert acc.
  induction Hgood as [|g good (clip & Hload & [label Hlabel] & [ws Hws]) _ IH];
    intros acc; simpl; unfold Extract.load.
  - destruct (librosa_load fn) as [clip|]; [|done]. simpl.
    destruct Hbad as [|Hbad]; [done|].
    by destruct (parse_label_outcome fn) as [ | -> ].
  - rewrite Hload. simpl. rewrite Hlabel. simpl. rewrite Hws. simpl. apply IH.
Qed.

(** C5, as the code has it. Nothing in [extract_features] catches an
    exception: when a file under one of the sub-directories cannot be
    decoded, or its name has no label (as when "fold" or "-" does not occur
    in it), the call does not return, so the features of the other files are
    lost with it; and when the files walked before it are processed
    normally, the call raises the exception of that file, the decoder's or
    [IndexError]. *)
Theorem bad_file_aborts_extraction fuel parent_dir sub_dirs file_ext bands frames
    sub_dir fn :
  sub_dir ∈ sub_dirs →
  fn ∈ glob (Py.path_join (Py.path_join parent_dir sub_dir) file_ext) →
  librosa_load fn = None ∨ ¬ returns (Extract.parse_label fn) →
  ¬ returns (extract_features fuel parent_dir sub_dirs file_ext bands frames)
  ∧ (¬ returns (Extract.parse_label fn) → Extract.parse_label fn = Raise IndexError)
  ∧ (Py.contains "fold" fn = false ∨ Py.contains "-" fn = false →
     ¬ returns (Extract.parse_label fn))
  ∧ (∀ good rest,
       glob (Py.path_join (Py.path_join parent_dir sub_dir) file_ext)
       = good ++ fn :: rest →
       Forall (λ g, ∃ sound_clip,
                   librosa_load g = Some sound_clip
                   ∧ returns (Extract.parse_label g)
                   ∧ returns (Windower.windows fuel sound_clip
                                (Extract.window_size frames))) good →
       extract_features fuel parent_dir [sub_dir] file_ext bands frames
       = Raise (match librosa_load fn with Some _ => IndexError | None => DecodeError end)).
Proof.
  intros Hdir Hin Hbad. split; [|split; [|split]].
  - intros [r Hr]. unfold Extract.extract_features in Hr.
    destruct (dir_loop fuel parent_dir file_ext bands _ sub_dirs ([], []))
      as [acc| |] eqn:Hloop; [|done..].
    eapply (dir_loop_bad fuel _ _ bands _ _ _ _ _ Hdir Hin Hbad).
    rewrite Hloop. by eexists.
  - intros Hno. by destruct (parse_label_outcome fn).
  - intros Habsent [label Hlabel]. by rewrite parse_label_absent in Hlabel.
  - intros good rest Hglob Hgood.
    unfold Extract.extract_features. simpl. rewrite Hglob.
    by rewrite (file_loop_first_bad fuel bands _ good fn rest).
Qed.

(** With kernels of the expected shapes [extract_feature_array] returns
    whenever the file is decoded and the window generator is exhausted
    within the fuel. *)
Lemma extract_feature_array_returns fuel filename bands frames sound_clip ws :
  librosa_load filename = Some sound_clip →
  Windower.windows fuel sound_clip (Extract.window_size frames) = Done ws →
  (0 < bands)%nat →
  (∀ m, Np.has_shape m bands frames = true →
        Np.has_shape (delta m) bands frames = true) →
  Forall (λ p, Np.has_shape
                 (logamplitude (melspectrogram (Py.slice sound_clip p.1 p.2) bands))
                 bands frames = true)
    (List.filter (Windower.full_window sound_clip (Extract.window_size frames)) ws) →
  returns (extract_feature_array fuel filename bands frames).
Proof.
  intros Hload Hws Hbands Hdelta Hshapes.
  unfold Extract.extract_feature_array, Extract.load.
  rewrite Hload. simpl. rewrite Hws. simpl. rewrite array_loop_filter. simpl.
  apply features_of_returns; [done|].
  apply Forall_fmap. eapply Forall_impl; [done|].
  intros p Hp. simpl. by apply T_flatten_length.
Qed.

(** Channel 0 of the tensor of the [n]-th full window [p], at position
    [(i, j)], is the entry of the log-mel spectrogram of that window at band
    [(i * frames + j) mod bands] and frame [(i * frames + j) / bands]. *)
Lemma extract_feature_array_channel0 fuel filename bands frames sound_clip ws a :
  librosa_load filename = Some sound_clip →
  Windower.windows fuel sound_clip (Extract.window_size frames) = Done ws →
  extract_feature_array fuel filename bands frames = Done a →
  Np.row_shape a = [bands; frames; 2%nat]
  ∧ length (Np.rows a)
    = length (List.filter
                (Windower.full_window sound_clip (Extract.window_size frames)) ws)
  ∧ ∀ n p i j,
      List.filter (Windower.full_window sound_clip (Extract.window_size frames)) ws
        !! n = Some p →
      let logspec :=
        logamplitude (melspectrogram (Py.slice sound_clip p.1 p.2) bands) in
      Np.has_shape logspec bands frames = true →
      (i < bands)%nat → (j < frames)%nat →
      Np.get4 frames a n i j 0
      = logspec !! ((i * frames + j) `mod` bands)%nat
          ≫= (.!! ((i * frames + j) / bands)%nat).
Proof.
  intros Hload Hws Ha.
  unfold Extract.extract_feature_array, Extract.load in Ha.
  rewrite Hload in Ha. simpl in Ha. rewrite Hws in Ha. simpl in Ha.
  rewrite array_loop_filter in Ha. simpl in Ha.
  apply features_of_channel0 in Ha as (Hshape & Hlen & Hch0).
  split; [done|]. split; [by rewrite Hlen, length_fmap|].
  intros n p i j Hp logspec Hlogspec Hi Hj.
  rewrite (Hch0 n (Np.T_flatten logspec)); [|by rewrite list_lookup_fmap, Hp|done..].
  apply (T_flatten_lookup _ bands frames); [done|]. nia.
Qed.

End ExtractorFacts.



Lemma bad_file_aborts_extraction_witness :
  ¬ returns (Sample.extract_features 10 "raw" ["fold2"] "*.wav" 60 41)
  ∧ Sample.extract_features 10 "raw" ["fold2"] "*.wav" 60 41 = Raise IndexError.
Proof.
  destruct (bad_file_aborts_extraction 0 Sample.librosa_load Sample.melspectrogram
              Sample.logamplitude Sample.delta Sample.glob Sample.np_int
              10 "raw" ["fold2"] "*.wav" 60 41 "fold2" "raw/fold2/noise.wav")
    as (Hno & _ & _ & Hraise).
  - apply list_elem_of_singleton. reflexivity.
  - apply elem_of_cons. left. reflexivity.
  - right. vm_compute. intros [l Hl]. discriminate Hl.
  - split; [exact Hno|].
    apply (Hraise [] ["raw/fold2/105-1-0-0.wav"]); [reflexivity|constructor].
Defined.

(** C5 fails as stated: under [raw/fold2] the file [noise.wav], whose name
    has no label, comes before a good recording, and under [raw/fold3] an
    undecodable file does. Walking on past the bad file would give the five
    examples of the good recording; the call raises instead. *)
Lemma bad_file_is_not_skipped :
  Sample.glob "raw/fold2/*.wav" = ["raw/fold2/noise.wav"; "raw/fold2/105-1-0-0.wav"]
  ∧ Sample.glob "raw/fold3/*.wav" = ["raw/fold3/106-0-0-0.wav"; "raw/fold3/107-1-0-0.wav"]
  ∧ (∃ logspecs,
       Extract.file_loop Sample.librosa_load Sample.melspectrogram Sample.logamplitude
         10 2 (Extract.window_size 2) ["raw/fold2/105-1-0-0.wav"] ([], [])
       = Done (logspecs, replicate 5 "1"))
  ∧ Sample.extract_features 10 "raw" ["fold2"] "*.wav" 2 2 = Raise IndexError
  ∧ Sample.extract_features 10 "raw" ["fold3"] "*.wav" 2 2 = Raise DecodeError.
Proof. vm_compute. repeat split. by eexists. Qed.

(** C2, at a failing input. The clip [us8k/fold1/100-0-0-0.wav] is exactly
    one window of the default size; its log-mel spectrogram [logspec] has 60
    rows (bands) and 41 columns (frames), with 1 at band 0, frame 1 and 100
    at band 1, frame 0. The tensor has the shape [(60, 41, 2)], but its
    channel 0 at position [(0, 1)] holds 100, the value of band 1 at frame
    0: [logspec.T.flatten()] lays the values out frame by frame, and the
    later [reshape] to [(bands, frames)] reads that buffer band by band. *)
Theorem channel0_not_band_by_frame :
  ∃ a sound_clip,
    Sample.librosa_load "us8k/fold1/100-0-0-0.wav" = Some sound_clip
    ∧ Py.len sound_clip = Extract.window_size 41
    ∧ Sample.extract_feature_array 10 "us8k/fold1/100-0-0-0.wav" 60 41 = Done a
    ∧ Np.row_shape a = [60; 41; 2]%nat
    ∧ length (Np.rows a) = 1%nat
    ∧ let logspec :=
        Sample.logamplitude
          (Sample.melspectrogram (Py.slice sound_clip 0 (Extract.window_size 41)) 60) in
      Np.has_shape logspec 60 41 = true
      ∧ logspec !! 0%nat ≫= (.!! 1%nat) = Some 1
      ∧ logspec !! 1%nat ≫= (.!! 0%nat) = Some 100
      ∧ Np.get4 41 a 0 0 1 0 = Some 100.
Proof.
  eexists. exists (replicate (Z.to_nat 20480) 5).
  split; [reflexivity|]. split; [vm_compute; reflexivity|].
  split; [vm_compute; reflexivity|].
  vm_compute. repeat split.
Qed.

(** ** The label encoder *)

Lemma insert_unique_elem (x y : Z) (l : list Z) :
  y ∈ Np.insert_unique x l ↔ y = x ∨ y ∈ l.
Proof.
  induction l as [|z l IH]; simpl.
  - rewrite list_elem_of_singleton, elem_of_nil. tauto.
  - destruct (Z.ltb_spec x z); [by rewrite elem_of_cons|].
    destruct (Z.eqb_spec x z) as [->|].
    + rewrite elem_of_cons. tauto.
    + rewrite !elem_of_cons, IH. tauto.
Qed.

Lemma insert_unique_sorted (x : Z) (l : list Z) :
  StronglySorted Z.lt l → StronglySorted Z.lt (Np.insert_unique x l).
Proof.
  induction 1 as [|z l Hl IH Hz]; simpl; [repeat constructor|].
  destruct (Z.ltb_spec x z).
  - constructor; [by constructor|]. constructor; [done|].
    eapply Forall_impl; [done|]. simpl. lia.
  - destruct (Z.eqb_spec x z); [by constructor|].
    constructor; [done|]. apply Forall_forall. intros y Hy.
    apply insert_unique_elem in Hy as [->|Hy]; [lia|].
    by eapply Forall_forall in Hz.
Qed.

Lemma unique_elem (y : Z) (labels : list Z) : y ∈ Np.unique labels ↔ y ∈ labels.
Proof.
  induction labels as [|x labels IH]; simpl; [done|].
  by rewrite insert_unique_elem, elem_of_cons, IH.
Qed.

Lemma unique_sorted (labels : list Z) : StronglySorted Z.lt (Np.unique labels).
Proof.
  induction labels as [|x labels IH]; simpl; [constructor|].
  by apply insert_unique_sorted.
Qed.

(** Strictly ascending integers, as many as the interval they lie in has
    room for, are the interval. *)
Lemma sorted_dense (l : list Z) : ∀ a,
  StronglySorted Z.lt l →
  Forall (λ x, a <= x < a + Z.of_nat (length l)) l →
  l = seqZ a (Z.of_nat (length l)).
Proof.
  induction l as [|x l IH]; intros a Hsorted Hrange; [done|].
  apply StronglySorted_inv in Hsorted as [Hl Hx].
  apply Forall_cons in Hrange as [Hxa Hrange]. simpl length in *.
  assert (l = seqZ (a + 1) (Z.of_nat (length l))) as Hl'.
  { apply IH; [done|]. apply Forall_forall. intros y Hy.
    eapply Forall_forall in Hx; [|done]. eapply Forall_forall in Hrange; [|done].
    simpl in Hrange. lia. }
  assert (x = a) as ->.
  { destruct l as [|y l]; [simpl in Hxa; lia|].
    apply Forall_cons in Hx as [Hxy _].
    rewrite seqZ_cons in Hl' by (simpl; lia). injection Hl' as Hy _. lia. }
  rewrite seqZ_cons by lia. f_equal.
  rewrite Hl' at 1. f_equal; lia.
Qed.

Section EncoderFacts.
Context {F : Type} (zero one : F).

Lemma axis_index_nonneg (n : nat) (c : Z) (c' : nat) :
  0 <= c → Np.axis_index n c = Done c' → c' = Z.to_nat c ∧ (c' < n)%nat.
Proof.
  unfold Np.axis_index. intros Hc.
  destruct (Z.leb_spec 0 c); [|lia].
  destruct (Z.ltb_spec c (Z.of_nat n)); simpl.
  - intros [= <-]. lia.
  - destruct (Z.leb_spec (- Z.of_nat n) c); destruct (Z.ltb_spec c 0); simpl;
      intros [=]; lia.
Qed.

(** The pairs [(s, c0), (s + 1, c1), ..] are assigned in turn: rows before
    [s] stay, and row [s + i] gets the value at the resolved column of
    [ci]. *)
Lemma setitem_pairs_rows (v : F) width labels : ∀ s a a',
  Np.setitem_pairs width a (zip (seq s (length labels)) labels) v = Done a' →
  length a' = length a
  ∧ (∀ r, (r < s)%nat → a' !! r = a !! r)
  ∧ (∀ i c, labels !! i = Some c →
       ∃ c', Np.axis_index width c = Done c'
             ∧ a' !! (s + i)%nat = (λ row, <[c' := v]> row) <$> a !! (s + i)%nat).
Proof.
  induction labels as [|c labels IH]; intros s a a' Hset; simpl in Hset.
  - injection Hset as <-. split; [done|]. split; [done|]. intros i c Hi. by destruct i.
  - destruct (Np.axis_index width c) as [c'| |] eqn:Hc; [|done..]. simpl in Hset.
    apply IH in Hset as (Hlen & Hbefore & Hrows).
    rewrite length_alter in Hlen. split; [done|]. split.
    + intros r Hr. rewrite Hbefore by lia. apply list_lookup_alter_ne. lia.
    + intros [|i] c0 Hi; simpl in Hi.
      * injection Hi as <-. exists c'. split; [done|].
        rewrite Nat.add_0_r, Hbefore by lia. apply list_lookup_alter_eq.
      * destruct (Hrows i c0 Hi) as (c0' & Hc0 & Hrow). exists c0'. split; [done|].
        replace (s + S i)%nat with (S s + i)%nat by lia.
        rewrite Hrow. f_equal. apply list_lookup_alter_ne. lia.
Qed.

(** What [one_hot_encode] returns when it returns: one row per label, as
    many columns as there are distinct labels, and in the row of a label
    [c] a single [one], at the column that the index [c] itself resolves
    to. *)
Lemma one_hot_encode_rows labels a :
  Labels.one_hot_encode zero one labels = Done a →
  Np.row_shape a = [length (Np.unique labels)]
  ∧ length (Np.rows a) = length labels
  ∧ ∀ i c, labels !! i = Some c →
      ∃ c', Np.axis_index (length (Np.unique labels)) c = Done c'
            ∧ Np.rows a !! i
              = Some (<[c' := one]> (replicate (length (Np.unique labels)) zero)).
Proof.
  unfold Labels.one_hot_encode. intros Ha.
  destruct (Np.setitem_pairs _ _ _ _) as [m| |] eqn:Hm; [|done..].
  injection Ha as <-. simpl.
  apply setitem_pairs_rows in Hm as (Hlen & _ & Hrows).
  rewrite length_replicate in Hlen. split; [done|]. split; [done|].
  intros i c Hi. destruct (Hrows i c Hi) as (c' & Hc & Hrow).
  exists c'. split; [done|]. simpl in Hrow. rewrite Hrow.
  rewrite lookup_replicate_2; [done|]. by eapply lookup_lt_Some.
Qed.

Lemma setitem_pairs_returns (v : F) width (idx : list (nat * Z)) : ∀ a,
  Forall (λ rc, returns (Np.axis_index width rc.2)) idx →
  returns (Np.setitem_pairs width a idx v).
Proof.
  induction idx as [|[r c] idx IH]; intros a Hidx; [by eexists|].
  apply Forall_cons in Hidx as [[c' Hc] Hidx]. simpl in *.
  rewrite Hc. simpl. by apply IH.
Qed.

Lemma axis_index_returns (n : nat) (c : Z) :
  0 <= c → returns (Np.axis_index n c) ↔ c < Z.of_nat n.
Proof.
  intros Hc. split.
  - intros [c' Hc']. apply axis_index_nonneg in Hc' as [-> ?]; lia.
  - intros Hlt. unfold Np.axis_index.
    destruct (Z.leb_spec 0 c); [|lia]. destruct (Z.ltb_spec c (Z.of_nat n)); [|lia].
    by eexists.
Qed.

(** On labels that are not negative, [one_hot_encode] returns exactly when
    every label is below the number of distinct labels. *)
Lemma one_hot_encode_returns (labels : list Z) :
  Forall (λ c, 0 <= c) labels →
  returns (Labels.one_hot_encode zero one labels)
  ↔ Forall (λ c, c < Z.of_nat (length (Np.unique labels))) labels.
Proof.
  intros Hpos. split.
  - intros [a Ha]. apply one_hot_encode_rows in Ha as (_ & _ & Hrows).
    apply Forall_lookup. intros i c Hi.
    destruct (Hrows i c Hi) as (c' & Hc' & _).
    apply axis_index_returns; [|by eexists].
    by eapply Forall_lookup_1 in Hpos.
  - intros Hlt. unfold Labels.one_hot_encode.
    edestruct (setitem_pairs_returns one (length (Np.unique labels))
                 (zip (seq 0 (length labels)) labels)) as [m Hm]; [|rewrite Hm; by eexists].
    apply Forall_forall. intros [r c] Hrc. simpl.
    apply elem_of_zip_r in Hrc.
    apply axis_index_returns.
    + by eapply Forall_forall in Hpos.
    + by eapply Forall_forall in Hlt.
Qed.

(** In that case the distinct labels are [0, 1, .., k - 1], so that the
    column of a label, the label itself, is also its rank among the distinct
    labels in ascending order. *)
Lemma one_hot_encode_rank (labels : list Z) (a : Np.ndarray F) :
  Forall (λ c, 0 <= c) labels →
  Labels.one_hot_encode zero one labels = Done a →
  Np.unique labels = seqZ 0 (Z.of_nat (length (Np.unique labels)))
  ∧ ∀ i c, labels !! i = Some c →
      ∃ rank, Np.unique labels !! rank = Some c
              ∧ Np.rows a !! i
                = Some (<[rank := one]> (replicate (length (Np.unique labels)) zero)).
Proof.
  intros Hpos Ha.
  assert (Forall (λ c, c < Z.of_nat (length (Np.unique labels))) labels) as Hlt.
  { apply one_hot_encode_returns; [done|by eexists]. }
  assert (Np.unique labels = seqZ 0 (Z.of_nat (length (Np.unique labels)))) as Hdense.
  { apply sorted_dense; [apply unique_sorted|].
    apply Forall_forall. intros c Hc. apply (proj1 (unique_elem _ _)) in Hc.
    pose proof (proj1 (Forall_forall _ _) Hpos c Hc).
    pose proof (proj1 (Forall_forall _ _) Hlt c Hc). simpl in *. lia. }
  split; [done|]. intros i c Hi.
  apply one_hot_encode_rows in Ha as (_ & _ & Hrows).
  destruct (Hrows i c Hi) as (c' & Hc' & Hrow).
  assert (0 <= c) by (by eapply Forall_lookup_1 in Hpos).
  apply axis_index_nonneg in Hc' as [-> Hlt']; [|done].
  exists (Z.to_nat c). split; [|done].
  rewrite Hdense, lookup_seqZ_lt by lia. f_equal. lia.
Qed.

End EncoderFacts.

(** C1, at a failing input. The labels 0 and 2 have two distinct values, so
    the matrix gets two columns; the 1 of the second row is then written at
    column 2, the label itself and not its rank 1 among [np.unique], which is
    out of bounds. *)
Theorem one_hot_encode_indexes_by_value {F} (zero one : F) :
  Np.unique [0; 2] = [0; 2]
  ∧ Labels.one_hot_encode zero one [0; 2] = Raise IndexError.
Proof. split; reflexivity. Qed.

(** ** The persisted folds *)

(** Joining a relative file name onto a directory puts a prefix before it
    that depends on the directory alone. *)
Lemma path_join_relative (d : string) :
  ∃ pre, ∀ b, String.prefix "/" b = false →
    list_ascii_of_string (Py.path_join d b) = pre ++ list_ascii_of_string b.
Proof.
  unfold Py.path_join.
  destruct (String.eqb d "") eqn:Hd;
    [|destruct (String.eqb (String.substring (String.length d - 1) 1 d) "/")].
  - exists []. intros b ->. done.
  - exists (list_ascii_of_string d). intros b ->. by rewrite list_ascii_app.
  - exists (list_ascii_of_string d ++ list_ascii_of_string "/"). intros b ->.
    by rewrite !list_ascii_app, app_assoc.
Qed.

Lemma fold_file_inj (d : string) (k k' : Z) (sfx sfx' : string) :
  String.length sfx = String.length sfx' →
  Py.path_join d (Extract.fold_name k +:+ sfx)
  = Py.path_join d (Extract.fold_name k' +:+ sfx') →
  k = k' ∧ sfx = sfx'.
Proof.
  intros Hlen Heq. destruct (path_join_relative d) as [pre Hpre].
  apply (f_equal list_ascii_of_string) in Heq.
  rewrite !Hpre in Heq by done.
  apply app_inv_head in Heq. unfold Extract.fold_name in Heq.
  rewrite !list_ascii_app, <- !app_assoc in Heq. apply app_inv_head in Heq.
  apply app_inj_2 in Heq as [Hk Hsfx].
  - split; [|by apply list_ascii_inj].
    apply list_ascii_inj in Hk. by apply (inj pretty) in Hk.
  - by rewrite !list_ascii_length.
Qed.

Lemma feature_file_inj d k k' :
  Extract.feature_file d k = Extract.feature_file d k' → k = k'.
Proof. intros H. by apply fold_file_inj in H as [? _]. Qed.

Lemma labels_file_inj d k k' :
  Extract.labels_file d k = Extract.labels_file d k' → k = k'.
Proof. intros H. by apply fold_file_inj in H as [? _]. Qed.

Lemma feature_file_labels_file d k k' :
  Extract.feature_file d k ≠ Extract.labels_file d k'.
Proof. intros H. by apply fold_file_inj in H as [_ ?]. Qed.

Section FoldFacts.
Context {F : Type} (zero one : F).
Variable librosa_load : string → option (list F).
Variable melspectrogram : list F → nat → list (list F).
Variable logamplitude : list (list F) → list (list F).
Variable delta : list (list F) → list (list F).
Variable glob : string → list string.
Variable np_int : string → option Z.

Local Abbreviation extract_features :=
  (Extract.extract_features zero librosa_load melspectrogram logamplitude delta
     glob np_int).
Local Abbreviation fold_arrays :=
  (Extract.fold_arrays zero librosa_load melspectrogram logamplitude delta
     glob np_int one).
Local Abbreviation save_loop :=
  (Extract.save_loop zero librosa_load melspectrogram logamplitude delta
     glob np_int one).
Local Abbreviation save_folds :=
  (Extract.save_folds zero librosa_load melspectrogram logamplitude delta
     glob np_int one).

(** The save loop writes the two files of the folds it processes and no
    other. *)
Lemma save_loop_other fuel parent_dir data_dir ks (fs : gmap string (Np.ndarray F))
    (file : string) :
  (∀ k, k ∈ ks →
        file ≠ Extract.feature_file data_dir k ∧ file ≠ Extract.labels_file data_dir k) →
  (save_loop fuel parent_dir data_dir ks fs).1 !! file = fs !! file.
Proof.
  revert fs. induction ks as [|k ks IH]; intros fs Hfile; simpl; [done|].
  destruct (fold_arrays fuel parent_dir k) as [[features labels]| |]; [|done..].
  rewrite IH by (intros; apply Hfile; by right).
  destruct (Hfile k) as [? ?]; [by left|].
  by rewrite !lookup_insert_ne.
Qed.

(** When the save loop runs to its end, the files of every fold it went
    through hold the features of that fold and the one-hot encoding of the
    labels of that fold alone. *)
Lemma save_loop_done fuel parent_dir data_dir ks (fs fs' : gmap string (Np.ndarray F)) :
  NoDup ks →
  save_loop fuel parent_dir data_dir ks fs = (fs', Done ()) →
  ∀ k, k ∈ ks →
    ∃ features labels onehot,
      extract_features fuel parent_dir [Extract.fold_name k] "*.wav" 60 41
      = Done (features, labels)
      ∧ Labels.one_hot_encode zero one labels = Done onehot
      ∧ fs' !! Extract.feature_file data_dir k = Some features
      ∧ fs' !! Extract.labels_file data_dir k = Some onehot.
Proof.
  intros Hnodup. revert fs.
  induction Hnodup as [|k0 ks Hk0 Hnodup IH]; intros fs Hsave k Hk;
    [by apply elem_of_nil in Hk|].
  simpl in Hsave.
  destruct (fold_arrays fuel parent_dir k0) as [[features onehot]| |] eqn:Harrays;
    [|done..].
  apply elem_of_cons in Hk as [->|Hk]; [|by eapply IH].
  unfold Extract.fold_arrays in Harrays.
  destruct (extract_features fuel parent_dir _ _ _ _) as [[features' labels]| |]
    eqn:Hextract; [|done..].
  simpl in Harrays.
  destruct (Labels.one_hot_encode zero one labels) as [onehot'| |] eqn:Hencode; [|done..].
  injection Harrays as -> ->.
  exists features, labels, onehot. split; [done|]. split; [done|].
  assert (fs' = (save_loop fuel parent_dir data_dir ks
                   (<[Extract.labels_file data_dir k0:=onehot]>
                      (<[Extract.feature_file data_dir k0:=features]> fs))).1) as ->
    by (by rewrite Hsave).
  split.
  - rewrite save_loop_other.
    + rewrite lookup_insert_ne
        by (intros H; by apply symmetry, feature_file_labels_file in H).
      apply lookup_insert_eq.
    + intros k Hk. split.
      * intros H. apply feature_file_inj in H as ->. done.
      * apply feature_file_labels_file.
  - rewrite save_loop_other; [apply lookup_insert_eq|].
    intros k Hk. split.
    + intros H. by apply symmetry, feature_file_labels_file in H.
    + intros H. apply labels_file_inj in H as ->. done.
Qed.

Lemma fold_range_spec k : k ∈ Extract.fold_range ↔ 1 <= k <= 10.
Proof.
  unfold Extract.fold_range. rewrite list_elem_of_fmap. split.
  - intros (n & -> & Hn). apply elem_of_seq in Hn. lia.
  - intros Hk. exists (Z.to_nat k). split; [lia|]. apply elem_of_seq. lia.
Qed.

(** C6, as the code has it. [save_folds] encodes the labels fold by fold:
    when it runs to its end, the labels file of each fold 1..10 holds
    [one_hot_encode] of the labels extracted from that fold alone. Its
    width is the number of distinct labels of that fold, so two folds have
    matrices of one width exactly when they have the same number of
    distinct labels; and the row of an example of class [c >= 0] has its
    single [one] at column [c], in every fold. *)
Theorem save_folds_encodes_each_fold fuel parent_dir data_dir
    (fs fs' : gmap string (Np.ndarray F)) :
  save_folds fuel parent_dir data_dir fs = (fs', Done ()) →
  ∀ k, 1 <= k <= 10 →
    ∃ features labels onehot,
      extract_features fuel parent_dir [Extract.fold_name k] "*.wav" 60 41
      = Done (features, labels)
      ∧ Labels.one_hot_encode zero one labels = Done onehot
      ∧ fs' !! Extract.feature_file data_dir k = Some features
      ∧ fs' !! Extract.labels_file data_dir k = Some onehot
      ∧ Np.row_shape onehot = [length (Np.unique labels)]
      ∧ ∀ i c, labels !! i = Some c → 0 <= c →
          (Z.to_nat c < length (Np.unique labels))%nat
          ∧ Np.rows onehot !! i
            = Some (<[Z.to_nat c := one]>
                      (replicate (length (Np.unique labels)) zero)).
Proof.
  intros Hsave k Hk. unfold Extract.save_folds in Hsave.
  eapply save_loop_done in Hsave as (features & labels & onehot & He & Ho & Hx & Hy).
  - exists features, labels, onehot. do 4 (split; [done|]).
    destruct (one_hot_encode_rows _ _ _ _ Ho) as (Hshape & _ & Hrows).
    split; [done|]. intros i c Hi Hc.
    destruct (Hrows i c Hi) as (c' & Hc' & Hrow).
    apply axis_index_nonneg in Hc' as [-> ?]; done.
  - unfold Extract.fold_range. apply NoDup_fmap; [apply _|apply NoDup_seq].
  - by apply fold_range_spec.
Qed.

Local Abbreviation load_loop := (Extract.load_loop (F := F)).
Local Abbreviation load_folds := (Extract.load_folds (F := F)).

(** After the first fold, each further fold is concatenated onto the
    arrays loaded so far, provided its rows have their shape. *)
Lemma load_loop_subsequent (fs : gmap string (Np.ndarray F)) data_dir folds :
  ∀ Xs Ys X0 Y0,
  Forall2 (λ k X, fs !! Extract.feature_file data_dir k = Some X
                  ∧ Np.row_shape X = Np.row_shape X0) folds Xs →
  Forall2 (λ k Y, fs !! Extract.labels_file data_dir k = Some Y
                  ∧ Np.row_shape Y = Np.row_shape Y0) folds Ys →
  load_loop fs data_dir folds (true, Some X0, Some Y0)
  = Done (true,
          Some {| Np.row_shape := Np.row_shape X0;
                  Np.rows := Np.rows X0 ++ mjoin (Np.rows <$> Xs) |},
          Some {| Np.row_shape := Np.row_shape Y0;
                  Np.rows := Np.rows Y0 ++ mjoin (Np.rows <$> Ys) |}).
Proof.
  induction folds as [|k folds IH]; intros Xs Ys X0 Y0 HX HY.
  - apply Forall2_nil_inv_l in HX as ->. apply Forall2_nil_inv_l in HY as ->.
    simpl. rewrite !app_nil_r. by destruct X0, Y0.
  - apply Forall2_cons_inv_l in HX as (X & Xs' & [HXk HXs] & HXs' & ->).
    apply Forall2_cons_inv_l in HY as (Y & Ys' & [HYk HYs] & HYs' & ->).
    simpl. unfold Extract.np_load. rewrite HXk, HYk. simpl.
    unfold Np.concatenate. rewrite !decide_True by done. simpl.
    rewrite (IH Xs' Ys'); simpl; [|done..].
    by rewrite <- !app_assoc.
Qed.

Lemma sum_lengths_take (Xs Ys : list (Np.ndarray F)) (j : nat) :
  Forall2 (λ X Y, length (Np.rows X) = length (Np.rows Y)) Xs Ys →
  sum_list (length <$> take j (Np.rows <$> Ys))
  = sum_list (length <$> take j (Np.rows <$> Xs)).
Proof.
  intros H. revert j. induction H as [|X Y Xs Ys HXY _ IH]; intros [|j]; simpl; try done.
  by rewrite IH, HXY.
Qed.

(** C8, as the code has it. For a non-empty list of folds whose two files
    exist, with feature arrays of one row shape and label arrays of one row
    shape, [load_folds] returns the arrays concatenated along axis 0 in the
    order of the list; the row counts are the sums of the per-fold counts,
    and when each fold has as many label rows as feature rows, the example
    at position [p] of the [j]-th fold and its label are found at one and
    the same index of the two aggregates. *)
Theorem load_folds_concatenates (fs : gmap string (Np.ndarray F)) data_dir folds
    Xs Ys sx sy :
  folds ≠ [] →
  Forall2 (λ k X, fs !! Extract.feature_file data_dir k = Some X
                  ∧ Np.row_shape X = sx) folds Xs →
  Forall2 (λ k Y, fs !! Extract.labels_file data_dir k = Some Y
                  ∧ Np.row_shape Y = sy) folds Ys →
  ∃ X Y,
    load_folds fs data_dir folds = Done (X, Y)
    ∧ Np.row_shape X = sx ∧ Np.row_shape Y = sy
    ∧ Np.rows X = mjoin (Np.rows <$> Xs)
    ∧ Np.rows Y = mjoin (Np.rows <$> Ys)
    ∧ length (Np.rows X) = sum_list (length <$> (Np.rows <$> Xs))
    ∧ length (Np.rows Y) = sum_list (length <$> (Np.rows <$> Ys))
    ∧ (Forall2 (λ X Y, length (Np.rows X) = length (Np.rows Y)) Xs Ys →
       ∀ j Xj Yj p x y,
         Xs !! j = Some Xj → Ys !! j = Some Yj →
         Np.rows Xj !! p = Some x → Np.rows Yj !! p = Some y →
         let i := (sum_list (length <$> take j (Np.rows <$> Xs)) + p)%nat in
         Np.rows X !! i = Some x ∧ Np.rows Y !! i = Some y).
Proof.
  intros Hne HX HY. destruct folds as [|k folds]; [done|].
  apply Forall2_cons_inv_l in HX as (X0 & Xs' & [HXk <-] & HXs' & ->).
  apply Forall2_cons_inv_l in HY as (Y0 & Ys' & [HYk <-] & HYs' & ->).
  eexists _, _. split.
  { unfold Extract.load_folds. simpl. unfold Extract.np_load. rewrite HXk, HYk. simpl.
    rewrite (load_loop_subsequent _ _ _ Xs' Ys') by done. simpl. reflexivity. }
  simpl. do 4 (split; [done|]).
  split; [by rewrite length_app, length_join|].
  split; [by rewrite length_app, length_join|].
  intros Hcounts j Xj Yj p x y HXj HYj Hx Hy.
  change (Np.rows X0 ++ mjoin (Np.rows <$> Xs')) with (mjoin (Np.rows <$> X0 :: Xs')).
  change (Np.rows Y0 ++ mjoin (Np.rows <$> Ys')) with (mjoin (Np.rows <$> Y0 :: Ys')).
  split.
  - apply join_lookup_Some. exists j, (Np.rows Xj), p.
    split; [by rewrite list_lookup_fmap, HXj|]. done.
  - apply join_lookup_Some. exists j, (Np.rows Yj), p.
    split; [by rewrite list_lookup_fmap, HYj|]. split; [done|].
    by rewrite (sum_lengths_take (X0 :: Xs') (Y0 :: Ys')).
Qed.

End FoldFacts.

Lemma pair_with_snd {A B} (p : A * B) (b : B) : p.2 = b → p = (p.1, b).
Proof. destruct p. simpl. by intros ->. Qed.

Lemma save_folds_encodes_each_fold_witness :
  ∃ features labels onehot,
    Sample.extract_features 10 "us8k" [Extract.fold_name 1] "*.wav" 60 41
    = Done (features, labels)
    ∧ Labels.one_hot_encode 0 1 labels = Done onehot
    ∧ (Sample.save_folds 10 "us8k" "data" ∅).1 !! Extract.feature_file "data" 1
      = Some features
    ∧ (Sample.save_folds 10 "us8k" "data" ∅).1 !! Extract.labels_file "data" 1
      = Some onehot
    ∧ Np.row_shape onehot = [length (Np.unique labels)]
    ∧ ∀ i c, labels !! i = Some c → 0 <= c →
        (Z.to_nat c < length (Np.unique labels))%nat
        ∧ Np.rows onehot !! i
          = Some (<[Z.to_nat c := 1]> (replicate (length (Np.unique labels)) 0)).
Proof.
  apply (save_folds_encodes_each_fold 0 1 Sample.librosa_load Sample.melspectrogram
           Sample.logamplitude Sample.delta Sample.glob Sample.np_int
           10 "us8k" "data" ∅); [|lia].
  apply pair_with_snd. vm_compute. reflexivity.
Defined.

(** C6 fails as stated: under [us8k], fold 1 has recordings of the classes
    0 and 1 and fold 2 of class 0 only; [save_folds] runs to its end and
    leaves a labels file of two columns for fold 1 and of one column for
    fold 2. *)
Lemma save_folds_widths_differ :
  snd <$> Sample.extract_features 10 "us8k" ["fold1"] "*.wav" 60 41 = Done [0; 1; 1]
  ∧ snd <$> Sample.extract_features 10 "us8k" ["fold2"] "*.wav" 60 41 = Done [0]
  ∧ (Sample.save_folds 10 "us8k" "data" ∅).2 = Done ()
  ∧ Np.row_shape <$> (Sample.save_folds 10 "us8k" "data" ∅).1 !! "data/fold1_y.npy"
    = Some [2%nat]
  ∧ Np.row_shape <$> (Sample.save_folds 10 "us8k" "data" ∅).1 !! "data/fold2_y.npy"
    = Some [1%nat].
Proof. vm_compute. repeat split. Qed.

Lemma load_folds_concatenates_witness :
  ∃ X Y,
    Extract.load_folds Sample.saved "data" [1; 2] = Done (X, Y)
    ∧ Np.row_shape X = [1; 1; 2]%nat ∧ Np.row_shape Y = [2%nat]
    ∧ Np.rows X = mjoin (Np.rows <$> [Sample.fold1_x; Sample.fold2_x])
    ∧ Np.rows Y = mjoin (Np.rows <$> [Sample.fold1_y; Sample.fold2_y])
    ∧ length (Np.rows X)
      = sum_list (length <$> (Np.rows <$> [Sample.fold1_x; Sample.fold2_x]))
    ∧ length (Np.rows Y)
      = sum_list (length <$> (Np.rows <$> [Sample.fold1_y; Sample.fold2_y]))
    ∧ (Forall2 (λ X Y, length (Np.rows X) = length (Np.rows Y))
         [Sample.fold1_x; Sample.fold2_x] [Sample.fold1_y; Sample.fold2_y] →
       ∀ j Xj Yj p x y,
         [Sample.fold1_x; Sample.fold2_x] !! j = Some Xj →
         [Sample.fold1_y; Sample.fold2_y] !! j = Some Yj →
         Np.rows Xj !! p = Some x → Np.rows Yj !! p = Some y →
         let i := (sum_list
                     (length <$> take j (Np.rows <$> [Sample.fold1_x; Sample.fold2_x]))
                   + p)%nat in
         Np.rows X !! i = Some x ∧ Np.rows Y !! i = Some y).
Proof.
  apply (load_folds_concatenates Sample.saved "data" [1; 2]).
  - discriminate.
  - repeat constructor.
  - repeat constructor.
Defined.

(** C8 fails as stated: the four files of the folds 1 and 2 written by
    [save_folds] for [us8k] exist, yet loading the two folds together raises
    [ValueError], their label matrices having two columns and one; and the
    empty list of folds leaves the locals unassigned at the [return]. *)
Lemma load_folds_width_mismatch :
  Forall (λ file, is_Some ((Sample.save_folds 10 "us8k" "data" ∅).1 !! file))
    [ Extract.feature_file "data" 1; Extract.labels_file "data" 1;
      Extract.feature_file "data" 2; Extract.labels_file "data" 2 ]
  ∧ Extract.load_folds (Sample.save_folds 10 "us8k" "data" ∅).1 "data" [1; 2]
    = Raise ValueError
  ∧ Extract.load_folds (Sample.save_folds 10 "us8k" "data" ∅).1 "data" []
    = Raise UnboundLocalError.
Proof.
  split; [|split; [vm_compute|]; reflexivity].
  repeat constructor; vm_compute; by eexists.
Qed.

(** ** The fold rotation *)

(** C4. For the trials 1 to 9 the training folds are [f] and [f + 1], the
    validation fold is [f + 2], or 1 when that exceeds 10, and the test fold
    is the one after the validation fold, or 1 when that exceeds 10; all of
    them lie in 1..10 and no fold has two roles. *)
Theorem rotation_roles (f : Z) :
  1 <= f <= 9 →
  let r := Trial.rotation f in
  let v := if f + 2 >? 10 then 1 else f + 2 in
  let t := if v + 1 >? 10 then 1 else v + 1 in
  Trial.train r = [f; f + 1]
  ∧ Trial.validation r = [v]
  ∧ Trial.test r = [t]
  ∧ Forall (λ k, 1 <= k <= 10) (Trial.train r ++ Trial.validation r ++ Trial.test r)
  ∧ NoDup (Trial.train r ++ Trial.validation r ++ Trial.test r).
Proof.
  intros Hf. unfold Trial.rotation. simpl.
  split; [done|]. split; [done|]. split; [done|].
  destruct (Z.gtb_spec (f + 2) 10); simpl;
    [|destruct (Z.gtb_spec (f + 2 + 1) 10)];
    (split; [repeat constructor; lia|]);
    repeat (apply NoDup_cons; split);
    rewrite ?elem_of_cons, ?elem_of_nil; try apply NoDup_nil; lia.
Qed.

Lemma rotation_roles_witness :
  Trial.train (Trial.rotation 9) = [9; 10]
  ∧ Trial.validation (Trial.rotation 9) = [1]
  ∧ Trial.test (Trial.rotation 9) = [2]
  ∧ Forall (λ k, 1 <= k <= 10) [9; 10; 1; 2]
  ∧ NoDup [9; 10; 1; 2].
Proof. apply (rotation_roles 9). lia. Defined.

(** * Further properties *)

(** ** More on the window generator *)

Section WindowerMore.
Context {A : Type}.
Implicit Types (data : list A) (W start : Z).

(** Fuel beyond what exhausts the generator changes nothing. *)
Lemma windows_from_more_fuel fuel fuel' data W start ws :
  Windower.windows_from fuel data W start = Done ws → (fuel <= fuel')%nat →
  Windower.windows_from fuel' data W start = Done ws.
Proof.
  revert fuel' start ws. induction fuel as [|fuel IH]; intros fuel' start ws Hws Hle;
    [done|].
  destruct fuel' as [|fuel']; [lia|]. simpl in *.
  destruct (Windower.windows_next data W start) as [[p start']|]; [|done].
  destruct (Windower.windows_from fuel data W start') as [ws'| |] eqn:Hws'; [|done..].
  by rewrite (IH fuel' start' ws') by (done || lia).
Qed.

Lemma windows_done_closed_form fuel data W ws :
  1 <= W / 2 → Windower.windows fuel data W = Done ws →
  ws = Windower.nth_window W 0 <$> seq 0 (Windower.n_windows (Py.len data) W 0).
Proof.
  intros Hh Hws. unfold Windower.windows in Hws.
  pose proof (windows_from_more_fuel _
                (fuel `max` S (Windower.n_windows (Py.len data) W 0)) _ _ _ _ Hws) as Hmore.
  rewrite windows_from_closed_form in Hmore by (done || lia).
  symmetry. injection (Hmore ltac:(lia)). done.
Qed.

Lemma n_windows_spec data W (k : nat) :
  1 <= W / 2 →
  (k < Windower.n_windows (Py.len data) W 0)%nat ↔ Z.of_nat k * (W / 2) < Py.len data.
Proof.
  intros Hh. unfold Windower.n_windows.
  assert (0 <= Py.len data) by (unfold Py.len; lia).
  assert (0 <= (Py.len data - 0 + W / 2 - 1) / (W / 2)) by (apply Z.div_pos; lia).
  split; intros Hk.
  - assert (Z.of_nat k + 1 <= (Py.len data - 0 + W / 2 - 1) / (W / 2)) as Hk' by lia.
    assert (W / 2 * (Z.of_nat k + 1) <= Py.len data - 0 + W / 2 - 1); [|lia].
    etrans; [|apply (Z.mul_div_le _ (W / 2)); lia].
    apply Z.mul_le_mono_nonneg_l; lia.
  - assert (Z.of_nat k + 1 <= (Py.len data - 0 + W / 2 - 1) / (W / 2)); [|lia].
    apply Z.div_le_lower_bound; lia.
Qed.

(** The pairs an exhausted generator has yielded are the pairs
    [windows_nth] counts. *)
Lemma windows_from_nth fuel data W start ws (n : nat) :
  Windower.windows_from fuel data W start = Done ws →
  Windower.windows_nth n data W start = ws !! n.
Proof.
  revert start ws n. induction fuel as [|fuel IH]; intros start ws n Hws; [done|].
  simpl in Hws. destruct n as [|n]; simpl;
    (destruct (Windower.windows_next data W start) as [[p start']|];
     [|by injection Hws as <-]);
    (destruct (Windower.windows_from fuel data W start') as [ws'| |] eqn:Hws';
     [|done..]); injection Hws as <-; [done|].
  rewrite lookup_cons. by apply IH.
Qed.

(** The [n]-th pair starts [n] steps after [start], below the length. *)
Lemma windows_nth_pair (n : nat) data W start p :
  Windower.windows_nth n data W start = Some p →
  p = (start + Z.of_nat n * (W / 2), start + Z.of_nat n * (W / 2) + W)
  ∧ start + Z.of_nat n * (W / 2) < Py.len data.
Proof.
  revert start. induction n as [|n IH]; intros start; simpl; unfold Windower.windows_next;
    (destruct (Z.ltb_spec start (Py.len data)); [|done]).
  - intros [= <-]. split; [f_equal; lia|lia].
  - intros Hp. apply IH in Hp as [-> Hlt]. split; [f_equal; lia|lia].
Qed.

End WindowerMore.

(** X1. The full windows leave out fewer than [W/2] samples, all at the end
    of the clip: every index that is at least [W/2] away from the end lies
    in a yielded pair that passes the consumers' test. *)
Theorem full_windows_cover {A} (data : list A) (W i : Z) fuel ws :
  2 <= W → W <= Py.len data →
  Windower.windows fuel data W = Done ws →
  0 <= i → i + W / 2 <= Py.len data →
  ∃ p, p ∈ List.filter (Windower.full_window data W) ws ∧ p.1 <= i < p.2.
Proof.
  intros HW HL Hws Hi Hend. assert (1 <= W / 2) as Hh by lia.
  apply windows_done_closed_form in Hws as ->; [|done].
  set (L := Py.len data) in *.
  set (k := Z.to_nat (Z.min (i / (W / 2)) ((L - W) / (W / 2)))).
  assert (0 <= i / (W / 2)) by (apply Z.div_pos; lia).
  assert (0 <= (L - W) / (W / 2)) by (apply Z.div_pos; lia).
  assert (Z.of_nat k * (W / 2) <= i) as Hki.
  { pose proof (Z.mul_div_le i (W / 2)). nia. }
  assert (Z.of_nat k * (W / 2) + W <= L) as HkL.
  { pose proof (Z.mul_div_le (L - W) (W / 2)). nia. }
  assert (i < Z.of_nat k * (W / 2) + W) as Hik.
  { destruct (Z.le_gt_cases (i / (W / 2)) ((L - W) / (W / 2))).
    - assert (Z.of_nat k = i / (W / 2)) as -> by lia.
      pose proof (Z.mod_pos_bound i (W / 2)). pose proof (Z.div_mod i (W / 2)). nia.
    - assert (Z.of_nat k = (L - W) / (W / 2)) as -> by lia.
      pose proof (Z.mod_pos_bound (L - W) (W / 2)).
      pose proof (Z.div_mod (L - W) (W / 2)). nia. }
  assert (k < Windower.n_windows L W 0)%nat as Hk by (apply n_windows_spec; [done|]; lia).
  exists (Windower.nth_window W 0 k). split.
  - apply list_elem_of_In, List.filter_In. split.
    + apply list_elem_of_In, list_elem_of_fmap. exists k. split; [done|].
      apply elem_of_seq. lia.
    + rewrite full_window_nth by done. case_bool_decide; [done|]. subst L. lia.
  - unfold Windower.nth_window. simpl. lia.
Qed.

(** X2. For a window size that is not negative, every pair the generator
    yields, whether or not it is ever exhausted, spans exactly
    [window_size] indices from a start inside the data, the [n]-th pair
    starting at [n] steps; it passes the consumers' length test exactly
    when it ends inside the data, and the slice then consists of the
    [window_size] samples from its start on. *)
Theorem yielded_pair_slice {A} (data : list A) (W : Z) (n : nat) p :
  0 <= W →
  Windower.windows_nth n data W 0 = Some p →
  p.1 = Z.of_nat n * (W / 2)
  ∧ p.2 - p.1 = W
  ∧ 0 <= p.1 < Py.len data
  ∧ (Windower.full_window data W p = true ↔ p.2 <= Py.len data)
  ∧ (Windower.full_window data W p = true →
     Py.slice data p.1 p.2 = take (Z.to_nat W) (drop (Z.to_nat p.1) data)).
Proof.
  intros HW Hp. apply windows_nth_pair in Hp as [-> Hlt]. cbn [fst snd].
  assert (0 <= W / 2) by (apply Z.div_pos; lia).
  assert (0 <= Z.of_nat n * (W / 2)) by (apply Z.mul_nonneg_nonneg; lia).
  split; [lia|]. split; [lia|]. split; [lia|].
  unfold Windower.full_window. cbn [fst snd].
  rewrite slice_length by lia. rewrite Z.eqb_eq.
  split; [lia|]. intros Hfull.
  unfold Py.slice, Py.slice_bound, Py.len in *.
  destruct (Z.ltb_spec (0 + Z.of_nat n * (W / 2)) 0); [lia|].
  destruct (Z.ltb_spec (0 + Z.of_nat n * (W / 2) + W) 0); [lia|].
  f_equal; [lia|]. f_equal. lia.
Qed.

(** ** The two channels *)

Section LayoutMore.
Context {F : Type}.
Implicit Types (m d : list (list F)) (r flat ds : list F).

Lemma every_other_interleave flat ds :
  length flat = length ds →
  Np.every_other (mjoin (zip_with (λ v w, [v; w]) flat ds)) = flat.
Proof.
  revert ds. induction flat as [|x flat IH]; intros [|d ds] Hlen; try done.
  simpl. f_equal. apply IH. by injection Hlen.
Qed.

Lemma every_other_cons_interleave flat ds (d0 : F) :
  length flat = length ds →
  Np.every_other (d0 :: mjoin (zip_with (λ v w, [v; w]) flat ds)) = d0 :: ds.
Proof.
  revert ds d0. induction flat as [|x flat IH]; intros [|d ds] d0 Hlen; try done.
  simpl. f_equal. apply (IH ds d). by injection Hlen.
Qed.

Lemma every_other_drop_interleave flat ds :
  length flat = length ds →
  Np.every_other (drop 1 (mjoin (zip_with (λ v w, [v; w]) flat ds))) = ds.
Proof.
  destruct flat as [|x flat], ds as [|d ds]; intros Hlen; try done.
  simpl. apply (every_other_cons_interleave flat ds d).
  by injection Hlen.
Qed.

Lemma reshape_join_rows d (nrows ncolumns : nat) :
  Np.has_shape d nrows ncolumns = true →
  reshape (replicate nrows ncolumns) (mjoin d) = d.
Proof.
  intros [<- Hrows]%has_shape_spec.
  induction Hrows as [|r d Hr _ IH]; [done|].
  simpl. rewrite take_app_length' by done. rewrite drop_app_length' by done.
  by rewrite IH.
Qed.

End LayoutMore.

Section FeatureMore.
Context {F : Type} (zero : F).
Variable delta : list (list F) → list (list F).

Lemma features_of_rows log_specgrams bands frames a :
  Extract.features_of zero delta log_specgrams bands frames = Done a →
  Np.row_shape a = [bands; frames; 2%nat]
  ∧ Forall (λ flat, length flat = (bands * frames)%nat) log_specgrams
  ∧ Forall2
      (λ flat r,
         ∃ d, Np.broadcast_to (delta (reshape (replicate bands frames) flat))
                bands frames = Some d
              ∧ Np.has_shape d bands frames = true
              ∧ r = mjoin (zip_with (λ v w, [v; w]) flat (mjoin d)))
      log_specgrams (Np.rows a).
Proof.
  unfold Extract.features_of, Np.asarray_reshape. intros Ha.
  destruct (forallb _ log_specgrams) eqn:Hsizes; [|done]. simpl in Ha.
  destruct (Extract.delta_loop _ _ _ _) as [rs| |] eqn:Hrs; [|done..].
  injection Ha as <-. simpl. split; [done|].
  assert (Forall (λ flat, length flat = (bands * frames)%nat) log_specgrams) as Hlen.
  { apply Is_true_true_2, forallb_True in Hsizes. eapply Forall_impl; [done|].
    intros flat Hflat. apply Is_true_true_1, Nat.eqb_eq in Hflat.
    rewrite Hflat. unfold Np.size_of. simpl. lia. }
  split; [done|].
  apply delta_loop_rows in Hrs. apply Forall2_fmap_l in Hrs.
  eapply Forall2_impl; [done|]. intros flat r Hr. simpl in *.
  apply set_channel1_done in Hr as (d & Hd & Hshape & ->).
  unfold Np.channel in Hd. rewrite drop_0, every_other_zeros in Hd.
  exists d. by rewrite every_other_zeros.
Qed.

End FeatureMore.

(** X3. In every tensor that the extractors return, channel 0 is the
    flattened log-spectrogram of its window read as [bands] rows of
    [frames] values, and channel 1 is [delta] of channel 0 of the same
    tensor, broadcast to [bands] rows of [frames] values as the assignment
    does: writing the deltas leaves channel 0 as it was. When [delta]
    returns an array of the shape of its argument, as the kernel of
    librosa does, channel 1 is that array. *)
Theorem features_channel1_is_delta {F} (zero : F)
    (delta : list (list F) → list (list F)) log_specgrams bands frames a n r :
  Extract.features_of zero delta log_specgrams bands frames = Done a →
  Np.rows a !! n = Some r →
  ∃ flat,
    log_specgrams !! n = Some flat
    ∧ length r = (bands * frames * 2)%nat
    ∧ Np.channel 0 bands frames r = reshape (replicate bands frames) flat
    ∧ Np.broadcast_to (delta (Np.channel 0 bands frames r)) bands frames
      = Some (Np.channel 1 bands frames r)
    ∧ (Np.has_shape (delta (Np.channel 0 bands frames r)) bands frames = true →
       Np.channel 1 bands frames r = delta (Np.channel 0 bands frames r)).
Proof.
  intros Ha Hr. apply features_of_rows in Ha as (_ & Hlen & Hrows).
  destruct (Forall2_lookup_r _ _ _ _ _ Hrows Hr) as (flat & Hflat & d & Hd & Hshape & ->).
  exists flat. split; [done|].
  pose proof (Forall_lookup_1 _ _ _ _ Hlen Hflat) as Hflatlen. simpl in Hflatlen.
  pose proof (has_shape_join_length _ _ _ Hshape) as Hdlen.
  unfold Np.channel. rewrite drop_0.
  rewrite every_other_interleave, every_other_drop_interleave by lia.
  rewrite (reshape_join_rows d) by done.
  split; [|split; [done|split; [done|]]].
  - rewrite length_join, (sum_list_fmap_same 2).
    + rewrite length_zip_with. lia.
    + apply Forall_forall. intros x Hx.
      apply elem_of_lookup_zip_with in Hx as (i & v & w & -> & _). done.
  - intros Hkeeps. apply broadcast_to_same_shape in Hkeeps. congruence.
Qed.

(** ** The walk of [extract_features] *)

Section ExtractorMore.
Context {F : Type} (zero : F).
Variable librosa_load : string → option (list F).
Variable melspectrogram : list F → nat → list (list F).
Variable logamplitude : list (list F) → list (list F).
Variable delta : list (list F) → list (list F).
Variable glob : string → list string.
Variable np_int : string → option Z.

Local Abbreviation window_logspec := (Extract.window_logspec melspectrogram logamplitude).
Local Abbreviation clip_loop := (Extract.clip_loop melspectrogram logamplitude).
Local Abbreviation file_loop := (Extract.file_loop librosa_load melspectrogram logamplitude).
Local Abbreviation dir_loop := (Extract.dir_loop librosa_load melspectrogram logamplitude glob).
Local Abbreviation features_of := (Extract.features_of zero delta).
Local Abbreviation int_array := (Extract.int_array np_int).
Local Abbreviation extract_features :=
  (Extract.extract_features zero librosa_load melspectrogram logamplitude delta
     glob np_int).
Local Abbreviation extract_feature_array :=
  (Extract.extract_feature_array zero librosa_load melspectrogram logamplitude delta).

(** The loops only append to what they are given. *)
Lemma file_loop_acc fuel bands W fns acc :
  file_loop fuel bands W fns acc
  = (λ r, (acc.1 ++ r.1, acc.2 ++ r.2)) <$> file_loop fuel bands W fns ([], []).
Proof.
  revert acc. induction fns as [|fn fns IH]; intros [specs labels]; simpl.
  - by rewrite !app_nil_r.
  - destruct (Extract.load librosa_load fn) as [clip| |]; [|done..]. simpl.
    destruct (Extract.parse_label fn) as [label| |]; [|done..]. simpl.
    destruct (Windower.windows fuel clip W) as [ws| |]; [|done..]. simpl.
    rewrite IH, (IH (clip_loop _ _ _ _ _ ([], []))), !clip_loop_filter. simpl.
    destruct (file_loop fuel bands W fns ([], [])) as [[specs' labels']| |]; [|done..].
    simpl. by rewrite !app_assoc.
Qed.

Lemma dir_loop_acc fuel parent_dir file_ext bands W sub_dirs acc :
  dir_loop fuel parent_dir file_ext bands W sub_dirs acc
  = (λ r, (acc.1 ++ r.1, acc.2 ++ r.2))
      <$> dir_loop fuel parent_dir file_ext bands W sub_dirs ([], []).
Proof.
  revert acc. induction sub_dirs as [|d ds IH]; intros [specs labels]; simpl.
  - by rewrite !app_nil_r.
  - rewrite file_loop_acc.
    destruct (file_loop fuel bands W _ ([], [])) as [[specs' labels']| |]; [|done..].
    simpl. rewrite IH, (IH (specs', labels')).
    destruct (dir_loop fuel parent_dir file_ext bands W ds ([], []))
      as [[specs'' labels'']| |]; [|done..].
    simpl. by rewrite !app_assoc.
Qed.

Lemma dir_loop_app fuel parent_dir file_ext bands W ds1 ds2 acc :
  dir_loop fuel parent_dir file_ext bands W (ds1 ++ ds2) acc
  = dir_loop fuel parent_dir file_ext bands W ds1 acc
      ≫= dir_loop fuel parent_dir file_ext bands W ds2.
Proof.
  revert acc. induction ds1 as [|d ds1 IH]; intros acc; simpl; [done|].
  destruct (file_loop fuel bands W _ acc) as [acc'| |]; [|done..]. simpl. apply IH.
Qed.

(** The two lists the loops build have one length. *)
Lemma dir_loop_lengths fuel parent_dir file_ext bands W sub_dirs specs labels :
  dir_loop fuel parent_dir file_ext bands W sub_dirs ([], []) = Done (specs, labels) →
  length specs = length labels.
Proof.
  revert specs labels. induction sub_dirs as [|d ds IH]; intros specs labels Hloop;
    simpl in Hloop.
  - by injection Hloop as <- <-.
  - destruct (file_loop fuel bands W _ ([], [])) as [[specs1 labels1]| |] eqn:Hfiles;
      [|done..].
    simpl in Hloop. rewrite dir_loop_acc in Hloop.
    destruct (dir_loop fuel parent_dir file_ext bands W ds ([], []))
      as [[specs2 labels2]| |] eqn:Hdirs; [|done..].
    injection Hloop as <- <-. rewrite !length_app. f_equal; [|by apply IH].
    clear Hdirs IH. revert specs1 labels1 Hfiles.
    generalize (glob (Py.path_join (Py.path_join parent_dir d) file_ext)).
    intros fns. induction fns as [|fn fns IHf]; intros specs1 labels1 Hfiles;
      simpl in Hfiles.
    + by injection Hfiles as <- <-.
    + destruct (Extract.load librosa_load fn) as [clip| |]; [|done..]. simpl in Hfiles.
      destruct (Extract.parse_label fn) as [label| |]; [|done..]. simpl in Hfiles.
      destruct (Windower.windows fuel clip W) as [ws| |]; [|done..]. simpl in Hfiles.
      rewrite file_loop_acc, clip_loop_filter in Hfiles. simpl in Hfiles.
      destruct (file_loop fuel bands W fns ([], [])) as [[specs' labels']| |] eqn:Hrest;
        [|done..].
      injection Hfiles as <- <-.
      rewrite !length_app, length_fmap, length_replicate. f_equal. by apply IHf.
Qed.

Lemma int_array_length labels ks :
  int_array labels = Done ks → length ks = length labels.
Proof.
  revert ks. induction labels as [|l labels IH]; intros ks Hks; simpl in Hks.
  - by injection Hks as <-.
  - destruct (np_int l); [|done].
    destruct (int_array labels) as [ks'| |]; [|done..].
    injection Hks as <-. simpl. f_equal. by apply IH.
Qed.

Lemma int_array_app labels1 labels2 ks1 ks2 :
  int_array labels1 = Done ks1 → int_array labels2 = Done ks2 →
  int_array (labels1 ++ labels2) = Done (ks1 ++ ks2).
Proof.
  revert ks1. induction labels1 as [|l labels1 IH]; intros ks1 H1 H2; simpl in *.
  - by injection H1 as <-.
  - destruct (np_int l); [|done].
    destruct (int_array labels1) as [ks'| |]; [|done..].
    injection H1 as <-. by rewrite (IH ks').
Qed.

Lemma int_array_replicate (n : nat) l k :
  np_int l = Some k → int_array (replicate n l) = Done (replicate n k).
Proof. intros Hl. induction n as [|n IH]; simpl; [done|]. by rewrite Hl, IH. Qed.

Lemma delta_loop_app bands frames rs1 rs2 rs1' rs2' :
  Extract.delta_loop delta bands frames rs1 = Done rs1' →
  Extract.delta_loop delta bands frames rs2 = Done rs2' →
  Extract.delta_loop delta bands frames (rs1 ++ rs2) = Done (rs1' ++ rs2').
Proof.
  revert rs1'. induction rs1 as [|r rs1 IH]; intros rs1' H1 H2; simpl in *.
  - by injection H1 as <-.
  - destruct (Np.set_channel1 _ _ _ _) as [r'| |]; [|done..]. simpl in *.
    destruct (Extract.delta_loop delta bands frames rs1) as [rs''| |]; [|done..].
    injection H1 as <-. by rewrite (IH rs'').
Qed.

Lemma features_of_app specs1 specs2 bands frames a1 a2 :
  features_of specs1 bands frames = Done a1 →
  features_of specs2 bands frames = Done a2 →
  features_of (specs1 ++ specs2) bands frames
  = Done {| Np.row_shape := [bands; frames; 2%nat];
            Np.rows := Np.rows a1 ++ Np.rows a2 |}.
Proof.
  unfold Extract.features_of, Np.asarray_reshape. intros H1 H2.
  rewrite forallb_app.
  destruct (forallb _ specs1); [|done]. destruct (forallb _ specs2); [|done].
  simpl in *. rewrite fmap_app.
  destruct (Extract.delta_loop delta bands frames
              ((λ r, r ≫= λ v, [v; zero]) <$> specs1)) as [rs1| |] eqn:Hrs1; [|done..].
  destruct (Extract.delta_loop delta bands frames
              ((λ r, r ≫= λ v, [v; zero]) <$> specs2)) as [rs2| |] eqn:Hrs2; [|done..].
  injection H1 as <-. injection H2 as <-.
  by rewrite (delta_loop_app _ _ _ _ rs1 rs2).
Qed.

(** X4. Whenever [extract_features] returns, it returns as many labels as
    feature tensors. *)
Theorem extract_features_lengths fuel parent_dir sub_dirs file_ext bands frames
    features labels :
  extract_features fuel parent_dir sub_dirs file_ext bands frames
  = Done (features, labels) →
  length (Np.rows features) = length labels
  ∧ Np.row_shape features = [bands; frames; 2%nat].
Proof.
  unfold Extract.extract_features. intros Hx.
  destruct (dir_loop fuel parent_dir file_ext bands _ sub_dirs ([], []))
    as [[specs ls]| |] eqn:Hloop; [|done..].
  simpl in Hx.
  destruct (features_of specs bands frames) as [a| |] eqn:Ha; [|done..]. simpl in Hx.
  destruct (int_array ls) as [ks| |] eqn:Hks; [|done..].
  injection Hx as <- <-.
  apply features_of_channel0 in Ha as (Hshape & Hlen & _).
  apply int_array_length in Hks. apply dir_loop_lengths in Hloop.
  split; [lia|done].
Qed.

(** X5. Extracting two lists of sub-directories in one call gives the
    examples and labels of the first call followed by those of the
    second. *)
Theorem extract_features_app fuel parent_dir ds1 ds2 file_ext bands frames
    a1 labels1 a2 labels2 :
  extract_features fuel parent_dir ds1 file_ext bands frames = Done (a1, labels1) →
  extract_features fuel parent_dir ds2 file_ext bands frames = Done (a2, labels2) →
  extract_features fuel parent_dir (ds1 ++ ds2) file_ext bands frames
  = Done ({| Np.row_shape := [bands; frames; 2%nat];
             Np.rows := Np.rows a1 ++ Np.rows a2 |},
          labels1 ++ labels2).
Proof.
  unfold Extract.extract_features. intros H1 H2.
  rewrite dir_loop_app.
  destruct (dir_loop fuel parent_dir file_ext bands _ ds1 ([], []))
    as [[specs1 ls1]| |] eqn:Hloop1; [|done..].
  destruct (dir_loop fuel parent_dir file_ext bands _ ds2 ([], []))
    as [[specs2 ls2]| |] eqn:Hloop2; [|done..].
  simpl in *. rewrite dir_loop_acc, Hloop2. simpl.
  destruct (features_of specs1 bands frames) as [b1| |] eqn:Hb1; [|done..].
  destruct (features_of specs2 bands frames) as [b2| |] eqn:Hb2; [|done..].
  simpl in *.
  destruct (int_array ls1) as [ks1| |] eqn:Hks1; [|done..].
  destruct (int_array ls2) as [ks2| |] eqn:Hks2; [|done..].
  injection H1 as <- <-. injection H2 as <- <-.
  rewrite (features_of_app _ _ _ _ b1 b2) by done. simpl.
  by rewrite (int_array_app _ _ ks1 ks2).
Qed.

(** X6. On a sub-directory with a single file whose name carries an integer
    label, [extract_features] does what [extract_feature_array] does on
    that file, and pairs every tensor with the label. *)
Theorem extract_features_single fuel parent_dir sub_dir file_ext bands frames fn l k :
  glob (Py.path_join (Py.path_join parent_dir sub_dir) file_ext) = [fn] →
  Extract.parse_label fn = Done l →
  np_int l = Some k →
  extract_features fuel parent_dir [sub_dir] file_ext bands frames
  = (λ a, (a, replicate (length (Np.rows a)) k))
      <$> extract_feature_array fuel fn bands frames.
Proof.
  intros Hglob Hl Hk.
  unfold Extract.extract_features, Extract.extract_feature_array. simpl.
  rewrite Hglob. simpl.
  destruct (Extract.load librosa_load fn) as [clip| |]; [|done..]. simpl.
  rewrite Hl. simpl.
  destruct (Windower.windows fuel clip _) as [ws| |]; [|done..]. simpl.
  rewrite clip_loop_filter, array_loop_filter. simpl.
  destruct (features_of _ bands frames) as [a| |] eqn:Ha; [|done..]. simpl.
  rewrite (int_array_replicate _ _ k Hk). simpl.
  apply features_of_channel0 in Ha as (_ & Hlen & _).
  by rewrite Hlen, length_fmap.
Qed.

End ExtractorMore.

(** ** The examples of one file *)

(** The number of full windows among the pairs yielded for a positive
    step. *)
Lemma full_window_count {A} (data : list A) (W : Z) :
  1 <= W / 2 →
  Z.of_nat
    (length
       (List.filter (Windower.full_window data W)
          (Windower.nth_window W 0 <$> seq 0 (Windower.n_windows (Py.len data) W 0))))
  = if W <=? Py.len data then (Py.len data - W) / (W / 2) + 1 else 0.
Proof.
  intros Hh. set (L := Py.len data).
  set (m := if W <=? L then Z.to_nat ((L - W) / (W / 2) + 1) else 0%nat).
  assert (∀ k : nat, (k < m)%nat ↔ Z.of_nat k * (W / 2) + W <= L) as Hm.
  { intros k. subst m. destruct (Z.leb_spec W L).
    - assert (0 <= (L - W) / (W / 2)) by (apply Z.div_pos; lia). split; intros Hk.
      + assert (Z.of_nat k <= (L - W) / (W / 2)) as Hk' by lia.
        assert (W / 2 * Z.of_nat k <= W / 2 * ((L - W) / (W / 2)))
          by (apply Z.mul_le_mono_nonneg_l; lia).
        pose proof (Z.mul_div_le (L - W) (W / 2)). lia.
      + assert (Z.of_nat k <= (L - W) / (W / 2)); [|lia].
        apply Z.div_le_lower_bound; lia.
    - split; lia. }
  rewrite (filter_seq_prefix _ _ _ m).
  - assert (m <= Windower.n_windows L W 0)%nat.
    { destruct m as [|m']; [lia|]. apply n_windows_spec; [done|].
      pose proof (proj1 (Hm m') ltac:(lia)). fold L. lia. }
    subst m. destruct (Z.leb_spec W L).
    + assert (0 <= (L - W) / (W / 2)) by (apply Z.div_pos; lia). lia.
    + lia.
  - intros k Hk. rewrite full_window_nth by done. fold L.
    apply bool_decide_ext. by rewrite Hm.
Qed.

Section ExtractorTotal.
Context {F : Type} (zero : F).
Variable librosa_load : string → option (list F).
Variable melspectrogram : list F → nat → list (list F).
Variable logamplitude : list (list F) → list (list F).
Variable delta : list (list F) → list (list F).

Local Abbreviation extract_feature_array :=
  (Extract.extract_feature_array zero librosa_load melspectrogram logamplitude delta).

(** X7. With a spectrogram kernel that returns [bands] rows and one column
    per 512 samples plus one, and a [delta] that keeps the shape of its
    argument, [extract_feature_array] returns for every decodable file:
    the window size [512 * (frames - 1)] makes every full window come out
    with [frames] columns, so the reshape cannot fail. The array has one
    tensor of shape [(bands, frames, 2)] per full window, that is
    [floor((L - W) / (W/2)) + 1] of them for a clip of [L >= W] samples and
    none for a shorter clip. *)
Theorem extract_feature_array_rows fuel filename bands frames sound_clip :
  (∀ signal, Np.has_shape (logamplitude (melspectrogram signal bands))
               bands (1 + length signal / 512) = true) →
  (∀ m, Np.has_shape m bands frames = true →
        Np.has_shape (delta m) bands frames = true) →
  (0 < bands)%nat → (2 <= frames)%nat →
  librosa_load filename = Some sound_clip →
  (Windower.n_windows (Py.len sound_clip) (Extract.window_size frames) 0 < fuel)%nat →
  ∃ a,
    extract_feature_array fuel filename bands frames = Done a
    ∧ Np.row_shape a = [bands; frames; 2%nat]
    ∧ Z.of_nat (length (Np.rows a))
      = if Extract.window_size frames <=? Py.len sound_clip
        then (Py.len sound_clip - Extract.window_size frames)
               / (Extract.window_size frames / 2) + 1
        else 0.
Proof.
  intros Hmel Hdelta Hbands Hframes Hload Hfuel.
  set (W := Extract.window_size frames) in *.
  assert (W = 512 * (Z.of_nat frames - 1)) as HW by done.
  assert (1 <= W / 2) as Hh by lia.
  pose proof (windows_from_closed_form fuel sound_clip W 0 Hh Hfuel) as Hws.
  destruct (extract_feature_array_returns zero librosa_load melspectrogram
              logamplitude delta fuel filename bands frames sound_clip _
              Hload Hws Hbands Hdelta) as [a Ha].
  { apply Forall_forall. intros p Hp.
    apply list_elem_of_In, List.filter_In in Hp as [_ Hfull].
    unfold Windower.full_window in Hfull. apply Z.eqb_eq in Hfull.
    specialize (Hmel (Py.slice sound_clip p.1 p.2)).
    replace (1 + length (Py.slice sound_clip p.1 p.2) / 512)%nat with frames in Hmel;
      [done|].
    unfold Py.len in Hfull. fold W in Hfull.
    assert (length (Py.slice sound_clip p.1 p.2) = ((frames - 1) * 512)%nat) as ->
      by lia.
    rewrite Nat.div_mul by done. lia. }
  exists a. split; [done|].
  destruct (extract_feature_array_channel0 zero librosa_load melspectrogram
              logamplitude delta (λ _, []) (λ _, None) fuel filename bands frames
              sound_clip _ a Hload Hws Ha) as (Hshape & Hlen & _).
  split; [done|]. rewrite Hlen. by apply full_window_count.
Qed.

End ExtractorTotal.

(** ** Encoding and decoding the labels *)

Lemma axis_index_spec (n : nat) (c : Z) (c' : nat) :
  Np.axis_index n c = Done c'
  ↔ - Z.of_nat n <= c < Z.of_nat n ∧ c' = Z.to_nat (c `mod` Z.of_nat n).
Proof.
  unfold Np.axis_index.
  destruct (Z.leb_spec 0 c); destruct (Z.ltb_spec c (Z.of_nat n)); simpl.
  - rewrite Z.mod_small by lia. split; [intros [= <-]; lia|intros [_ ->]; done].
  - destruct (Z.leb_spec (- Z.of_nat n) c); destruct (Z.ltb_spec c 0); simpl;
      (split; [intros [=]|intros [? _]]; lia).
  - destruct (Z.leb_spec (- Z.of_nat n) c); destruct (Z.ltb_spec c 0); simpl;
      try (split; [intros [=]|intros [? _]]; lia).
    assert (c `mod` Z.of_nat n = c + Z.of_nat n) as ->.
    { rewrite <- (Z.mod_add c 1 (Z.of_nat n)) by lia. rewrite Z.mod_small; lia. }
    split; [intros [= <-]; lia|intros [_ ->]; done].
  - lia.
Qed.

Section EncoderMore.
Context {F : Type} (zero one : F).

(** X8. [one_hot_encode] returns exactly when every label, as an index into
    an axis of as many columns [k] as there are distinct labels, is in
    bounds, that is in [-k .. k-1]; it then returns one row of [k] columns
    per label, all zeros but for a [one] at column [label mod k]. *)
Theorem one_hot_encode_spec (labels : list Z) :
  let k := length (Np.unique labels) in
  (returns (Labels.one_hot_encode zero one labels)
   ↔ Forall (λ c, - Z.of_nat k <= c < Z.of_nat k) labels)
  ∧ ∀ a, Labels.one_hot_encode zero one labels = Done a →
      Np.row_shape a = [k]
      ∧ length (Np.rows a) = length labels
      ∧ ∀ i c, labels !! i = Some c →
          (Z.to_nat (c `mod` Z.of_nat k) < k)%nat
          ∧ Np.rows a !! i
            = Some (<[Z.to_nat (c `mod` Z.of_nat k) := one]> (replicate k zero)).
Proof.
  intros k. split.
  - split.
    + intros [a Ha]. apply one_hot_encode_rows in Ha as (_ & _ & Hrows).
      apply Forall_lookup. intros i c Hi.
      destruct (Hrows i c Hi) as (c' & Hc' & _).
      by apply axis_index_spec in Hc' as [? _].
    + intros Hin. unfold Labels.one_hot_encode.
      edestruct (setitem_pairs_returns one (length (Np.unique labels))
                   (zip (seq 0 (length labels)) labels)) as [m Hm];
        [|rewrite Hm; by eexists].
      apply Forall_forall. intros [r c] Hrc. simpl.
      apply elem_of_zip_r in Hrc.
      pose proof (proj1 (Forall_forall _ _) Hin c Hrc) as Hc. simpl in Hc.
      eexists. apply axis_index_spec. split; [exact Hc|done].
  - intros a Ha. apply one_hot_encode_rows in Ha as (Hshape & Hlen & Hrows).
    split; [done|]. split; [done|]. intros i c Hi.
    destruct (Hrows i c Hi) as (c' & Hc' & Hrow).
    apply axis_index_spec in Hc' as [Hc ->]. split; [|done].
    fold k in Hc. pose proof (Z.mod_pos_bound c (Z.of_nat k)). lia.
Qed.

(** X9. [one_hot_encode] returns on labels that are not negative exactly
    when their distinct values are [0, 1, .., k - 1] with no gap. *)
Theorem one_hot_encode_returns_iff_dense (labels : list Z) :
  Forall (λ c, 0 <= c) labels →
  returns (Labels.one_hot_encode zero one labels)
  ↔ Np.unique labels = seqZ 0 (Z.of_nat (length (Np.unique labels))).
Proof.
  intros Hpos. split.
  - intros [a Ha]. by destruct (one_hot_encode_rank zero one labels a Hpos Ha).
  - intros Hdense. apply one_hot_encode_returns; [done|].
    apply Forall_forall. intros c Hc. apply unique_elem in Hc.
    rewrite Hdense in Hc. apply elem_of_seqZ in Hc. lia.
Qed.

Variable leb : F → F → bool.
Variable isnan : F → bool.
Hypothesis leb_zero_zero : leb zero zero = true.
Hypothesis leb_zero_one : leb zero one = true.
Hypothesis leb_one_zero : leb one zero = false.
Hypothesis isnan_one : isnan one = false.

Lemma argmax_from_zeros (best : F) (best_i i n : nat) (r : list F) :
  leb zero best = true →
  Evaluate.argmax_from leb isnan best best_i i (replicate n zero ++ r)
  = Evaluate.argmax_from leb isnan best best_i (i + n) r.
Proof.
  intros Hbest. revert i. induction n as [|n IH]; intros i; simpl.
  - by rewrite Nat.add_0_r.
  - rewrite Hbest, IH. f_equal. lia.
Qed.

Lemma insert_replicate_split (c k : nat) :
  (c < k)%nat →
  <[c := one]> (replicate k zero)
  = replicate c zero ++ one :: replicate (k - c - 1) zero.
Proof.
  revert k. induction c as [|c IH]; intros [|k] Hc; try lia; simpl.
  - by rewrite Nat.sub_0_r.
  - f_equal. apply IH. lia.
Qed.

Lemma argmax_one_hot (c k : nat) :
  (c < k)%nat → isnan zero = false →
  Evaluate.argmax leb isnan (<[c := one]> (replicate k zero)) = c.
Proof.
  intros Hc Hzero. rewrite insert_replicate_split by done.
  destruct c as [|c]; simpl.
  - rewrite isnan_one, <- (app_nil_r (replicate _ zero)).
    by rewrite argmax_from_zeros.
  - rewrite Hzero, argmax_from_zeros by done. simpl.
    rewrite leb_one_zero, isnan_one.
    rewrite <- (app_nil_r (replicate _ zero)).
    rewrite argmax_from_zeros by done. simpl. lia.
Qed.

Lemma lane_row (r : list F) : Evaluate.lane (length r) 1 r 0 = r.
Proof.
  unfold Evaluate.lane.
  assert (∀ pre, omap (λ i, (pre ++ r) !! (i * 1 + 0)%nat) (seq (length pre) (length r)) = r)
    as H; [|apply (H [])].
  induction r as [|x r IH]; intros pre; [done|].
  cbn [length seq omap list_omap]. rewrite Nat.mul_1_r, Nat.add_0_r, list_lookup_middle by done.
  f_equal. specialize (IH (pre ++ [x])).
  rewrite <- app_assoc, length_app in IH. cbn [length app] in IH.
  by rewrite Nat.add_1_r in IH.
Qed.

(** X10. Decoding undoes encoding: on labels that are not negative and not
    empty, the classes that [evaluate] reads back with [np.argmax] from
    the matrix returned by [one_hot_encode] are the labels. The elements 0
    and 1 of the matrix are ordered as numbers are, and 1 is a number;
    when there is more than one class, 0 is a number too. *)
Theorem y_true_one_hot_encode (labels : list Z) (a : Np.ndarray F) :
  labels ≠ [] →
  Forall (λ c, 0 <= c) labels →
  (isnan zero = false ∨ length (Np.unique labels) = 1%nat) →
  Labels.one_hot_encode zero one labels = Done a →
  Evaluate.y_true leb isnan a
  = Done {| Np.row_shape := []; Np.rows := (λ c, [Z.to_nat c]) <$> labels |}.
Proof.
  intros Hne Hpos Hnan Ha.
  apply one_hot_encode_rows in Ha as (Hshape & Hlen & Hrows).
  unfold Evaluate.y_true, Evaluate.argmax_axis1. rewrite Hshape.
  assert (0 < length (Np.unique labels))%nat as Hwidth.
  { destruct labels as [|c0 labels]; [done|].
    destruct (Hrows 0%nat c0 eq_refl) as (c0' & Hc0 & _).
    apply axis_index_nonneg in Hc0 as [_ Hk]; [lia|by inversion Hpos]. }
  destruct (length (Np.unique labels)) as [|k] eqn:Hk; [lia|].
  f_equal. f_equal. cbn [Np.size_of foldr seq fmap list_fmap].
  apply list_eq_same_length with (length labels);
    [by rewrite length_fmap|by rewrite length_fmap|].
  intros i x y Hi Hx Hy.
  rewrite list_lookup_fmap in Hx. rewrite list_lookup_fmap in Hy.
  destruct (lookup_lt_is_Some_2 labels i Hi) as [c Hc].
  rewrite Hc in Hy. injection Hy as <-.
  destruct (Hrows i c Hc) as (c' & Hc' & Hrow).
  rewrite Hrow in Hx. injection Hx as <-.
  apply axis_index_nonneg in Hc' as [-> Hlt];
    [|by eapply (Forall_lookup_1 _ _ _ _ Hpos)].
  f_equal.
  rewrite <- (length_replicate (S k) zero) at 1.
  rewrite <- (length_insert (replicate (S k) zero) (Z.to_nat c) one), lane_row.
  destruct Hnan as [Hzero|[= ->]]; [by apply (argmax_one_hot (Z.to_nat c) (S k))|].
  replace (Z.to_nat c) with 0%nat by lia. simpl. by rewrite isnan_one.
Qed.

End EncoderMore.

(** ** Saving and loading the folds *)

Section FoldMore.
Context {F : Type} (zero one : F).
Variable librosa_load : string → option (list F).
Variable melspectrogram : list F → nat → list (list F).
Variable logamplitude : list (list F) → list (list F).
Variable delta : list (list F) → list (list F).
Variable glob : string → list string.
Variable np_int : string → option Z.

Local Abbreviation extract_features :=
  (Extract.extract_features zero librosa_load melspectrogram logamplitude delta
     glob np_int).
Local Abbreviation fold_arrays :=
  (Extract.fold_arrays zero librosa_load melspectrogram logamplitude delta
     glob np_int one).
Local Abbreviation save_loop :=
  (Extract.save_loop zero librosa_load melspectrogram logamplitude delta
     glob np_int one).
Local Abbreviation save_folds :=
  (Extract.save_folds zero librosa_load melspectrogram logamplitude delta
     glob np_int one).
Local Abbreviation load_loop := (Extract.load_loop (F := F)).
Local Abbreviation load_folds := (Extract.load_folds (F := F)).

(** How the save loop ends does not depend on the files that are there. *)
Lemma save_loop_status fuel parent_dir data_dir ks
    (fs1 fs2 : gmap string (Np.ndarray F)) :
  (save_loop fuel parent_dir data_dir ks fs1).2
  = (save_loop fuel parent_dir data_dir ks fs2).2.
Proof.
  revert fs1 fs2. induction ks as [|k ks IH]; intros fs1 fs2; simpl; [done|].
  destruct (fold_arrays fuel parent_dir k) as [[features labels]| |]; [|done..].
  apply IH.
Qed.

Lemma save_loop_written fuel parent_dir data_dir ks (fs : gmap string (Np.ndarray F)) :
  NoDup ks →
  (save_loop fuel parent_dir data_dir ks fs).2 = Done () →
  ∀ k, k ∈ ks →
    ∃ features onehot,
      fold_arrays fuel parent_dir k = Done (features, onehot)
      ∧ (save_loop fuel parent_dir data_dir ks fs).1 !! Extract.feature_file data_dir k
        = Some features
      ∧ (save_loop fuel parent_dir data_dir ks fs).1 !! Extract.labels_file data_dir k
        = Some onehot.
Proof.
  intros Hnodup Hdone k Hk.
  destruct (save_loop fuel parent_dir data_dir ks fs) as [fs' r] eqn:Hsave.
  simpl in Hdone. subst r.
  destruct (save_loop_done zero one librosa_load melspectrogram logamplitude delta
              glob np_int fuel parent_dir data_dir ks fs fs' Hnodup Hsave k Hk)
    as (features & labels & onehot & Hx & Ho & Hfx & Hfy).
  exists features, onehot. split; [|done].
  unfold Extract.fold_arrays. rewrite Hx. simpl. by rewrite Ho.
Qed.

Lemma save_loop_prefix fuel parent_dir data_dir pre rest
    (fs : gmap string (Np.ndarray F)) :
  Forall (λ j, returns (fold_arrays fuel parent_dir j)) pre →
  save_loop fuel parent_dir data_dir (pre ++ rest) fs
  = save_loop fuel parent_dir data_dir rest
      (save_loop fuel parent_dir data_dir pre fs).1
  ∧ (save_loop fuel parent_dir data_dir pre fs).2 = Done ().
Proof.
  intros Hpre. revert fs. induction Hpre as [|j pre [[features onehot] Hj] _ IH];
    intros fs; simpl; [done|].
  rewrite Hj. apply IH.
Qed.

Lemma fold_range_split (k : Z) :
  1 <= k <= 10 →
  Extract.fold_range
  = (Z.of_nat <$> seq 1 (Z.to_nat k - 1)) ++ k :: (Z.of_nat <$> seq (Z.to_nat k + 1)
                                                             (10 - Z.to_nat k)).
Proof.
  intros Hk. unfold Extract.fold_range.
  replace 10%nat with ((Z.to_nat k - 1) + (1 + (10 - Z.to_nat k)))%nat at 1 by lia.
  rewrite seq_app, fmap_app. f_equal.
  replace (1 + (Z.to_nat k - 1))%nat with (Z.to_nat k) by lia.
  simpl. f_equal; [lia|]. f_equal. f_equal. lia.
Qed.

Lemma fold_range_nodup : NoDup Extract.fold_range.
Proof. unfold Extract.fold_range. apply NoDup_fmap; [apply _|apply NoDup_seq]. Qed.

(** X11. When the work on fold [k] raises, [save_folds] raises the same
    exception; the files of the folds before [k] have been written by then
    and stay, and the files of fold [k] and of the later folds are as they
    were before the call. *)
Theorem save_folds_failure fuel parent_dir data_dir (fs : gmap string (Np.ndarray F))
    (k : Z) (e : exn) :
  1 <= k <= 10 →
  (∀ j, 1 <= j < k → returns (fold_arrays fuel parent_dir j)) →
  fold_arrays fuel parent_dir k = Raise e →
  (save_folds fuel parent_dir data_dir fs).2 = Raise e
  ∧ (∀ j, 1 <= j < k →
       ∃ features onehot,
         fold_arrays fuel parent_dir j = Done (features, onehot)
         ∧ (save_folds fuel parent_dir data_dir fs).1 !! Extract.feature_file data_dir j
           = Some features
         ∧ (save_folds fuel parent_dir data_dir fs).1 !! Extract.labels_file data_dir j
           = Some onehot)
  ∧ (∀ j, k <= j →
       (save_folds fuel parent_dir data_dir fs).1 !! Extract.feature_file data_dir j
       = fs !! Extract.feature_file data_dir j
       ∧ (save_folds fuel parent_dir data_dir fs).1 !! Extract.labels_file data_dir j
         = fs !! Extract.labels_file data_dir j).
Proof.
  intros Hk Hbefore Hraise. unfold Extract.save_folds.
  rewrite (fold_range_split k Hk).
  set (pre := Z.of_nat <$> seq 1 (Z.to_nat k - 1)).
  assert (∀ j, j ∈ pre ↔ 1 <= j < k) as Hpre.
  { intros j. subst pre. rewrite list_elem_of_fmap. split.
    - intros (n & -> & Hn). apply elem_of_seq in Hn. lia.
    - intros Hj. exists (Z.to_nat j). split; [lia|]. apply elem_of_seq. lia. }
  destruct (save_loop_prefix fuel parent_dir data_dir pre
              (k :: (Z.of_nat <$> seq (Z.to_nat k + 1) (10 - Z.to_nat k))) fs)
    as [-> Hdone].
  { apply Forall_forall. intros j Hj. apply Hbefore. by apply Hpre. }
  simpl. rewrite Hraise. simpl. split; [done|].
  assert (NoDup pre) as Hnodup.
  { subst pre. apply NoDup_fmap; [apply _|apply NoDup_seq]. }
  split.
  - intros j Hj. apply (save_loop_written _ _ _ _ _ Hnodup Hdone). by apply Hpre.
  - intros j Hj. split; apply save_loop_other; intros i Hi; apply Hpre in Hi.
    + split; [|apply feature_file_labels_file].
      intros H. apply feature_file_inj in H. lia.
    + split; [intros H; by apply symmetry, feature_file_labels_file in H|].
      intros H. apply labels_file_inj in H. lia.
Qed.

(** X12. Running [save_folds] again over the directory it has filled
    leaves the directory as it is. *)
Theorem save_folds_idempotent fuel parent_dir data_dir
    (fs fs' : gmap string (Np.ndarray F)) :
  save_folds fuel parent_dir data_dir fs = (fs', Done ()) →
  save_folds fuel parent_dir data_dir fs' = (fs', Done ()).
Proof.
  unfold Extract.save_folds. intros Hsave.
  assert ((save_loop fuel parent_dir data_dir Extract.fold_range fs').2 = Done ())
    as Hdone.
  { rewrite (save_loop_status _ _ _ _ fs' fs). by rewrite Hsave. }
  assert ((save_loop fuel parent_dir data_dir Extract.fold_range fs).2 = Done ())
    as Hdone0 by (by rewrite Hsave).
  assert (fs' = (save_loop fuel parent_dir data_dir Extract.fold_range fs).1) as Hfs'
    by (by rewrite Hsave).
  destruct (save_loop fuel parent_dir data_dir Extract.fold_range fs') as [fs'' r]
    eqn:Hagain.
  simpl in Hdone. subst r. f_equal.
  apply map_eq. intros file.
  replace fs'' with (save_loop fuel parent_dir data_dir Extract.fold_range fs').1
    by (by rewrite Hagain).
  destruct (decide (Exists (λ k, file = Extract.feature_file data_dir k
                                 ∨ file = Extract.labels_file data_dir k)
                      Extract.fold_range)) as [Hin|Hout].
  - apply Exists_exists in Hin as (k & Hk & Hfile).
    destruct (save_loop_written fuel parent_dir data_dir _ fs fold_range_nodup
                Hdone0 k Hk) as (f1 & o1 & Ha1 & Hx1 & Hy1).
    destruct (save_loop_written fuel parent_dir data_dir _ fs' fold_range_nodup
                ltac:(by rewrite Hagain) k Hk) as (f2 & o2 & Ha2 & Hx2 & Hy2).
    rewrite Ha1 in Ha2. injection Ha2 as <- <-.
    rewrite <- Hfs' in Hx1, Hy1.
    destruct Hfile as [-> | ->]; congruence.
  - apply save_loop_other. intros k Hk. split; intros ->; apply Hout;
      apply Exists_exists; exists k; tauto.
Qed.

(** X13. What [save_folds] has written for a fold is what [load_folds]
    reads back for that fold alone: the features extracted from it and the
    one-hot encoding of its labels. *)
Theorem save_then_load_fold fuel parent_dir data_dir
    (fs fs' : gmap string (Np.ndarray F)) (k : Z) :
  save_folds fuel parent_dir data_dir fs = (fs', Done ()) →
  1 <= k <= 10 →
  ∃ features labels onehot,
    extract_features fuel parent_dir [Extract.fold_name k] "*.wav" 60 41
    = Done (features, labels)
    ∧ Labels.one_hot_encode zero one labels = Done onehot
    ∧ load_folds fs' data_dir [k] = Done (features, onehot).
Proof.
  intros Hsave Hk. unfold Extract.save_folds in Hsave.
  destruct (save_loop_done zero one librosa_load melspectrogram logamplitude delta
              glob np_int fuel parent_dir data_dir _ fs fs' fold_range_nodup Hsave k)
    as (features & labels & onehot & Hx & Ho & Hfx & Hfy).
  { by apply (fold_range_spec (F := F)). }
  exists features, labels, onehot. split; [done|]. split; [done|].
  unfold Extract.load_folds. simpl. unfold Extract.np_load. by rewrite Hfx, Hfy.
Qed.

Lemma load_loop_app (fs : gmap string (Np.ndarray F)) data_dir l1 l2 st :
  load_loop fs data_dir (l1 ++ l2) st
  = load_loop fs data_dir l1 st ≫= load_loop fs data_dir l2.
Proof.
  revert st. induction l1 as [|k l1 IH]; intros [[b ox] oy]; simpl; [done|].
  destruct (Extract.np_load fs (Extract.feature_file data_dir k)) as [X| |];
    [|reflexivity..]. simpl.
  destruct (Extract.np_load fs (Extract.labels_file data_dir k)) as [Y| |];
    [|reflexivity..]. simpl.
  destruct b; simpl.
  - destruct (Extract.local ox) as [X0| |]; [|reflexivity..]. simpl.
    destruct (Np.concatenate X0 X) as [X1| |]; [|reflexivity..]. simpl.
    destruct (Extract.local oy) as [Y0| |]; [|reflexivity..]. simpl.
    destruct (Np.concatenate Y0 Y) as [Y1| |]; [|reflexivity..]. simpl. apply IH.
  - apply IH.
Qed.

(** X14. A fold whose features file or labels file is missing makes
    [load_folds] raise [IOError], provided the folds listed before it are
    there and fit together. *)
Theorem load_folds_missing (fs : gmap string (Np.ndarray F)) data_dir pre k post
    Xs Ys sx sy :
  Forall2 (λ j X, fs !! Extract.feature_file data_dir j = Some X
                  ∧ Np.row_shape X = sx) pre Xs →
  Forall2 (λ j Y, fs !! Extract.labels_file data_dir j = Some Y
                  ∧ Np.row_shape Y = sy) pre Ys →
  fs !! Extract.feature_file data_dir k = None
  ∨ fs !! Extract.labels_file data_dir k = None →
  load_folds fs data_dir (pre ++ k :: post) = Raise IOError.
Proof.
  intros HX HY Hmissing. unfold Extract.load_folds.
  assert (∀ st, load_loop fs data_dir (k :: post) st = Raise IOError) as Hk.
  { intros [[b ox] oy]. simpl. unfold Extract.np_load.
    destruct Hmissing as [Hx|Hy]; [by rewrite Hx|].
    destruct (fs !! Extract.feature_file data_dir k); simpl; [|done].
    by rewrite Hy. }
  destruct pre as [|j pre].
  - change ([] ++ k :: post) with (k :: post). by rewrite Hk.
  - apply Forall2_cons_inv_l in HX as (X0 & Xs' & [HXj <-] & HXs' & ->).
    apply Forall2_cons_inv_l in HY as (Y0 & Ys' & [HYj <-] & HYs' & ->).
    assert (∃ st, load_loop fs data_dir (j :: pre) (false, None, None) = Done st)
      as [st Hst].
    { simpl. unfold Extract.np_load. rewrite HXj, HYj. simpl.
      rewrite (load_loop_subsequent fs data_dir pre Xs' Ys' X0 Y0) by done.
      by eexists. }
    rewrite load_loop_app, Hst. cbn [mbind outcome_bind]. by rewrite Hk.
Qed.

(** Rows put before the arrays loaded so far stay before what the loop
    adds. *)
Lemma load_loop_shift (fs : gmap string (Np.ndarray F)) data_dir l :
  ∀ A B A' B' P Q,
  Np.row_shape P = Np.row_shape A → Np.row_shape Q = Np.row_shape B →
  load_loop fs data_dir l (true, Some A, Some B) = Done (true, Some A', Some B') →
  Np.row_shape A' = Np.row_shape A ∧ Np.row_shape B' = Np.row_shape B
  ∧ load_loop fs data_dir l
      (true,
       Some {| Np.row_shape := Np.row_shape P; Np.rows := Np.rows P ++ Np.rows A |},
       Some {| Np.row_shape := Np.row_shape Q; Np.rows := Np.rows Q ++ Np.rows B |})
    = Done (true,
            Some {| Np.row_shape := Np.row_shape P;
                    Np.rows := Np.rows P ++ Np.rows A' |},
            Some {| Np.row_shape := Np.row_shape Q;
                    Np.rows := Np.rows Q ++ Np.rows B' |}).
Proof.
  induction l as [|k l IH]; intros A B A' B' P Q HP HQ Hloop; simpl in Hloop.
  - by injection Hloop as <- <-.
  - simpl.
    destruct (Extract.np_load fs (Extract.feature_file data_dir k)) as [X| |];
      [|done..].
    destruct (Extract.np_load fs (Extract.labels_file data_dir k)) as [Y| |];
      [|done..].
    simpl in *. unfold Np.concatenate in *. simpl.
    destruct (decide (Np.row_shape A = Np.row_shape X)) as [HA|]; [|done].
    destruct (decide (Np.row_shape B = Np.row_shape Y)) as [HB|]; [|done].
    simpl in Hloop.
    rewrite !decide_True by congruence. simpl.
    apply (IH _ _ _ _ P Q) in Hloop as (HA' & HB' & Hshift); [|done..].
    simpl in *. split; [done|]. split; [done|].
    by rewrite <- !app_assoc.
Qed.

Lemma load_loop_flag (fs : gmap string (Np.ndarray F)) data_dir l st b ox oy :
  l ≠ [] → load_loop fs data_dir l st = Done (b, ox, oy) → b = true.
Proof.
  revert st. induction l as [|k l IH]; intros [[b0 ox0] oy0] Hne Hloop; [done|].
  simpl in Hloop.
  destruct (Extract.np_load fs (Extract.feature_file data_dir k)) as [X| |];
    [|done..]. simpl in Hloop.
  destruct (Extract.np_load fs (Extract.labels_file data_dir k)) as [Y| |];
    [|done..]. simpl in Hloop.
  assert (∀ st', load_loop fs data_dir l st' = Done (b, ox, oy) → st'.1.1 = true →
                 b = true) as Hrest.
  { intros [[b' ox'] oy'] Hl Hb'. simpl in Hb'. subst b'.
    destruct l as [|k' l']; [by injection Hl as <- _ _|].
    eapply (IH (true, ox', oy')); [done|exact Hl]. }
  destruct b0; simpl in Hloop.
  - destruct (Extract.local ox0) as [X0| |]; [|done..]. simpl in Hloop.
    destruct (Np.concatenate X0 X) as [X1| |]; [|done..]. simpl in Hloop.
    destruct (Extract.local oy0) as [Y0| |]; [|done..]. simpl in Hloop.
    destruct (Np.concatenate Y0 Y) as [Y1| |]; [|done..]. simpl in Hloop.
    by eapply Hrest.
  - by eapply Hrest.
Qed.

(** X15. Loading two lists of folds in one call gives the concatenation of
    what the two calls give separately, when their row shapes agree: this
    is how the training folds [f] and [f + 1] are put together. *)
Theorem load_folds_app (fs : gmap string (Np.ndarray F)) data_dir l1 l2 X1 Y1 X2 Y2 :
  load_folds fs data_dir l1 = Done (X1, Y1) →
  load_folds fs data_dir l2 = Done (X2, Y2) →
  Np.row_shape X1 = Np.row_shape X2 → Np.row_shape Y1 = Np.row_shape Y2 →
  ∃ X Y,
    Np.concatenate X1 X2 = Done X
    ∧ Np.concatenate Y1 Y2 = Done Y
    ∧ load_folds fs data_dir (l1 ++ l2) = Done (X, Y).
Proof.
  unfold Extract.load_folds. intros H1 H2 HX HY.
  destruct (load_loop fs data_dir l1 (false, None, None)) as [[[b1 ox1] oy1]| |]
    eqn:Hl1; [|done..].
  destruct (load_loop fs data_dir l2 (false, None, None)) as [[[b2 ox2] oy2]| |]
    eqn:Hl2; [|done..].
  simpl in H1, H2.
  destruct ox1 as [X1'|]; [|done]. destruct oy1 as [Y1'|]; [|done].
  destruct ox2 as [X2'|]; [|done]. destruct oy2 as [Y2'|]; [|done].
  simpl in H1, H2. injection H1 as -> ->. injection H2 as -> ->.
  assert (l1 ≠ []) as Hne1 by (intros ->; done).
  pose proof (load_loop_flag _ _ _ _ _ _ _ Hne1 Hl1) as ->.
  unfold Np.concatenate. rewrite !decide_True by done.
  eexists _, _. split; [done|]. split; [done|].
  rewrite load_loop_app, Hl1. simpl.
  destruct l2 as [|k l2]; [done|]. simpl in *.
  destruct (Extract.np_load fs (Extract.feature_file data_dir k)) as [X| |]; [|done..].
  destruct (Extract.np_load fs (Extract.labels_file data_dir k)) as [Y| |]; [|done..].
  simpl in *.
  assert (b2 = true) as ->.
  { destruct l2 as [|k' l2']; [by injection Hl2 as <- _ _|].
    eapply (load_loop_flag _ _ (k' :: l2')); [done|exact Hl2]. }
  destruct (load_loop_shift fs data_dir l2 X Y X2 Y2 X Y eq_refl eq_refl Hl2)
    as (HX2 & HY2 & _).
  destruct (load_loop_shift fs data_dir l2 X Y X2 Y2 X1 Y1
              ltac:(congruence) ltac:(congruence) Hl2) as (_ & _ & Hshift).
  unfold Np.concatenate. rewrite !decide_True by congruence. simpl.
  by rewrite Hshift.
Qed.

End FoldMore.

(** ** Labels in file names *)

Lemma append_cons (c : ascii) (a b : string) :
  String c a +:+ b = String c (a +:+ b).
Proof. done. Qed.

Lemma prefix_append (sep b : string) : String.prefix sep (sep +:+ b) = true.
Proof.
  induction sep as [|c sep IH]; [by destruct b|].
  rewrite append_cons. simpl. by destruct (ascii_dec c c).
Qed.

Lemma split_go_skip (sep x b cur : string) :
  Py.split_go sep (x +:+ b) (String.length x) cur = Py.split_go sep b 0 cur.
Proof.
  induction x as [|c x IH]; [done|]. rewrite append_cons. simpl. apply IH.
Qed.

(** Up to the first occurrence of the separator [split] collects one
    piece, and goes on after the separator with a new piece. *)
Lemma split_go_first (sep a b cur : string) (i : Z) :
  sep ≠ EmptyString → 0 <= i →
  PyStr.find_from sep (a +:+ sep +:+ b) i = i + Z.of_nat (String.length a) →
  Py.split_go sep (a +:+ sep +:+ b) 0 cur = (cur +:+ a) :: Py.split_go sep b 0 "".
Proof.
  intros Hsep. revert cur i. induction a as [|x a IH]; intros cur i Hi Hfind.
  - rewrite append_nil_r. change ("" +:+ sep +:+ b) with (sep +:+ b).
    destruct sep as [|c sep]; [done|]. rewrite append_cons.
    cbn [Py.split_go]. rewrite <- append_cons, prefix_append.
    cbn [String.length]. rewrite Nat.sub_succ, Nat.sub_0_r.
    by rewrite split_go_skip.
  - rewrite append_cons in *. cbn [Py.split_go PyStr.find_from String.length] in *.
    destruct (String.prefix sep (String x (a +:+ sep +:+ b))); [lia|].
    rewrite (IH _ (i + 1)) by lia. by rewrite append_snoc.
Qed.

Lemma find_from_char (c : ascii) (a b : string) (i : Z) :
  Py.contains (String c "") a = false →
  PyStr.find_from (String c "") (a +:+ String c "" +:+ b) i
  = i + Z.of_nat (String.length a).
Proof.
  revert i. induction a as [|x a IH]; intros i Ha.
  - change ("" +:+ String c "" +:+ b) with (String c b).
    cbn [PyStr.find_from]. rewrite prefix_char, bool_decide_true by done. simpl. lia.
  - rewrite append_cons. cbn [PyStr.find_from Py.contains String.length] in *.
    apply orb_false_iff in Ha as [Hx Ha]. rewrite prefix_char in *.
    rewrite Hx, IH by done. lia.
Qed.

(** X16. The label of a recording is read correctly from a path of the
    form [pre fold mid - label - rest], as the UrbanSound8K names under the
    fold directories are, when "fold" occurs first where the directory
    name has it and not again after it, and neither the text between
    "fold" and the first "-" nor the label contains a "-". *)
Theorem parse_label_convention (pre mid label rest : string) :
  let tail := mid +:+ "-" +:+ label +:+ "-" +:+ rest in
  let fn := pre +:+ "fold" +:+ tail in
  PyStr.find fn "fold" = Z.of_nat (String.length pre) →
  Py.contains "fold" tail = false →
  Py.contains "-" mid = false →
  Py.contains "-" label = false →
  Extract.parse_label fn = Done label.
Proof.
  intros tail fn Hfind Htail Hmid Hlabel.
  unfold Extract.parse_label, Py.split, fn.
  rewrite (split_go_first "fold" pre tail "" 0) by done.
  rewrite (split_go_absent "fold" tail "") by done.
  cbn [Py.getitem lookup list_lookup mbind outcome_bind].
  change ("" +:+ tail) with tail. unfold tail.
  rewrite (split_go_first "-" mid _ "" 0); [|done|done|by apply find_from_char].
  rewrite (split_go_first "-" label rest "" 0); [|done|done|by apply find_from_char].
  done.
Qed.

(** ** The fold rotation over the trials *)

(** X17. From one trial to the next every role moves on by one fold: for
    the trials 1 to 8 the second training fold and the validation fold of a
    trial are the training folds of the next, and its test fold is the
    validation fold of the next. So no two of the trials 1 to 9 validate on
    the same fold, or test on the same fold. *)
Theorem rotation_advances (f g : Z) :
  1 <= f <= 9 → 1 <= g <= 9 →
  (f <= 8 →
   Trial.train (Trial.rotation (f + 1))
   = drop 1 (Trial.train (Trial.rotation f)) ++ Trial.validation (Trial.rotation f)
   ∧ Trial.validation (Trial.rotation (f + 1)) = Trial.test (Trial.rotation f))
  ∧ (Trial.validation (Trial.rotation f) = Trial.validation (Trial.rotation g) → f = g)
  ∧ (Trial.test (Trial.rotation f) = Trial.test (Trial.rotation g) → f = g).
Proof.
  intros Hf Hg. unfold Trial.rotation. cbn [Trial.train Trial.validation Trial.test drop app].
  repeat match goal with
         | |- context [?a >? 10] => destruct (Z.gtb_spec a 10)
         end;
    (split; [intros; split;
             repeat match goal with |- _ :: _ = _ :: _ => f_equal end; lia|]);
    split; intros; simplify_eq; lia.
Qed.

(** ** The loads of a trial and of all the folds *)

Section TrialFacts.
Context {F : Type}.
Implicit Types fs : gmap string (Np.ndarray F).

(** X18. A trial [f] of 1..9 whose four folds are stored, the two training
    folds agreeing on the shape of an example, loads the training fold [f]
    followed by fold [f + 1], the validation fold and the test fold as
    stored; the eight files it reads are pairwise distinct, so no file
    feeds two of the three sets. *)
Theorem load_trial_folds fs data_dir (f v t : Z) x1 y1 x2 y2 xv yv xt yt :
  1 <= f <= 9 →
  Trial.validation (Trial.rotation f) = [v] →
  Trial.test (Trial.rotation f) = [t] →
  fs !! Extract.feature_file data_dir f = Some x1 →
  fs !! Extract.labels_file data_dir f = Some y1 →
  fs !! Extract.feature_file data_dir (f + 1) = Some x2 →
  fs !! Extract.labels_file data_dir (f + 1) = Some y2 →
  fs !! Extract.feature_file data_dir v = Some xv →
  fs !! Extract.labels_file data_dir v = Some yv →
  fs !! Extract.feature_file data_dir t = Some xt →
  fs !! Extract.labels_file data_dir t = Some yt →
  Np.row_shape x1 = Np.row_shape x2 →
  Np.row_shape y1 = Np.row_shape y2 →
  Training.load_trial fs data_dir f
  = Done (({| Np.row_shape := Np.row_shape x1; Np.rows := Np.rows x1 ++ Np.rows x2 |},
           {| Np.row_shape := Np.row_shape y1; Np.rows := Np.rows y1 ++ Np.rows y2 |}),
          (xv, yv), (xt, yt))
  ∧ NoDup ((Extract.feature_file data_dir <$> [f; f + 1; v; t])
           ++ (Extract.labels_file data_dir <$> [f; f + 1; v; t])).
Proof.
  intros Hf Hv Ht Hx1 Hy1 Hx2 Hy2 Hxv Hyv Hxt Hyt Hsx Hsy. split.
  - unfold Training.load_trial. rewrite Hv, Ht.
    change (Trial.train (Trial.rotation f)) with [f; f + 1].
    unfold Extract.load_folds. cbn [Extract.load_loop]. unfold Extract.np_load.
    rewrite Hx1, Hy1, Hx2, Hy2, Hxv, Hyv, Hxt, Hyt.
    cbn [mbind outcome_bind Extract.local]. unfold Np.concatenate.
    rewrite !decide_True by done. reflexivity.
  - assert (NoDup [f; f + 1; v; t]) as Hnodup.
    { revert Hv Ht. unfold Trial.rotation.
      cbn [Trial.validation Trial.test].
      repeat match goal with
             | |- context [?a >? 10] => destruct (Z.gtb_spec a 10)
             end;
        intros; simplify_eq;
        repeat (apply NoDup_cons; split);
        rewrite ?elem_of_cons, ?elem_of_nil; try apply NoDup_nil; lia. }
    apply NoDup_app. split; [|split].
    + assert (Inj (=) (=) (Extract.feature_file data_dir))
        by (intros ??; apply feature_file_inj).
      by apply (NoDup_fmap_2 _).
    + intros file Hin1 Hin2.
      apply list_elem_of_fmap in Hin1 as (k & -> & _).
      apply list_elem_of_fmap in Hin2 as (k' & Heq & _).
      by apply feature_file_labels_file in Heq.
    + assert (Inj (=) (=) (Extract.labels_file data_dir))
        by (intros ??; apply labels_file_inj).
      by apply (NoDup_fmap_2 _).
Qed.

End TrialFacts.

Section AllFoldsFacts.
Context {F : Type}.
Variable global_features : outcome (Np.ndarray F).
Variable global_labels : outcome (Np.ndarray F).
Implicit Types fs : gmap string (Np.ndarray F).

Local Abbreviation train_loop := (AllFolds.train_loop global_features global_labels).

(** One more fold in the loop, once [subsequent_fold] is set: the training
    arrays become the globals followed by the fold just read, whatever
    they were. *)
Lemma train_loop_subsequent fs data_dir ks ox oy st :
  ks ≠ [] →
  train_loop fs data_dir ks (true, ox, oy) = Done st ↔
  ∃ G GL x y,
    global_features = Done G ∧ global_labels = Done GL
    ∧ Forall (λ k, ∃ x y,
                fs !! Extract.feature_file data_dir k = Some x
                ∧ fs !! Extract.labels_file data_dir k = Some y
                ∧ Np.row_shape G = Np.row_shape x
                ∧ Np.row_shape GL = Np.row_shape y) ks
    ∧ (last ks ≫= λ k, fs !! Extract.feature_file data_dir k) = Some x
    ∧ (last ks ≫= λ k, fs !! Extract.labels_file data_dir k) = Some y
    ∧ st = (true,
            Some {| Np.row_shape := Np.row_shape G; Np.rows := Np.rows G ++ Np.rows x |},
            Some {| Np.row_shape := Np.row_shape GL; Np.rows := Np.rows GL ++ Np.rows y |}).
Proof.
  revert ox oy. induction ks as [|k ks IH]; intros ox oy Hne; [done|].
  cbn [AllFolds.train_loop]. unfold Extract.np_load, Np.concatenate.
  split.
  - destruct (fs !! Extract.feature_file data_dir k) as [x|] eqn:Hx; [|done].
    destruct (fs !! Extract.labels_file data_dir k) as [y|] eqn:Hy; [|done].
    cbn [mbind outcome_bind].
    destruct global_features as [G| |] eqn:HG; [|done..].
    cbn [mbind outcome_bind].
    destruct (decide (Np.row_shape G = Np.row_shape x)) as [Hsx|]; [|done].
    cbn [mbind outcome_bind].
    destruct global_labels as [GL| |] eqn:HGL; [|done..].
    cbn [mbind outcome_bind].
    destruct (decide (Np.row_shape GL = Np.row_shape y)) as [Hsy|]; [|done].
    cbn [mbind outcome_bind].
    destruct ks as [|k' ks'].
    + cbn [AllFolds.train_loop]. intros [= <-].
      exists G, GL, x, y. repeat split; try done.
      constructor; [|done]. by exists x, y.
    + intros Hrun. apply IH in Hrun as (G' & GL' & x' & y' & [= <-] & [= <-] & Hall & Hx' & Hy' & ->);
        [|done].
      exists G, GL, x', y'. repeat split; try done.
      constructor; [|done]. by exists x, y.
  - intros (G & GL & x & y & HG & HGL & Hall & Hx & Hy & ->).
    apply Forall_cons in Hall as [(xk & yk & Hxk & Hyk & Hsx & Hsy) Hall].
    rewrite Hxk, Hyk, HG, HGL. cbn [mbind outcome_bind].
    rewrite !decide_True by done. cbn [mbind outcome_bind].
    destruct ks as [|k' ks'].
    + cbn [last mbind option_bind] in Hx, Hy. simplify_eq. reflexivity.
    + rewrite <- HG, <- HGL. apply IH; [done|]. exists G, GL, x, y.
      split; [done|]. split; [done|]. split; [done|].
      split; [exact Hx|]. split; [exact Hy|done].
Qed.

(** X19. [load_all_folds] runs to its end exactly when the globals
    [features] and [labels] are defined, the files of all ten folds exist,
    and the folds 2 to 8 have the shape of an example of the globals. Its
    training arrays are then the globals followed by fold 8 alone: of the
    folds 1 to 7 nothing is kept. The validation arrays are fold 9 and the
    test arrays fold 10. *)
Theorem load_all_folds_locals_spec fs data_dir st :
  AllFolds.load_all_folds_locals global_features global_labels fs data_dir = Done st ↔
  ∃ G GL x8 y8,
    global_features = Done G ∧ global_labels = Done GL
    ∧ is_Some (fs !! Extract.feature_file data_dir 1)
    ∧ is_Some (fs !! Extract.labels_file data_dir 1)
    ∧ (∀ k, 2 <= k <= 8 → ∃ x y,
         fs !! Extract.feature_file data_dir k = Some x
         ∧ fs !! Extract.labels_file data_dir k = Some y
         ∧ Np.row_shape G = Np.row_shape x
         ∧ Np.row_shape GL = Np.row_shape y)
    ∧ fs !! Extract.feature_file data_dir 8 = Some x8
    ∧ fs !! Extract.labels_file data_dir 8 = Some y8
    ∧ AllFolds.train_x st
      = {| Np.row_shape := Np.row_shape G; Np.rows := Np.rows G ++ Np.rows x8 |}
    ∧ AllFolds.train_y st
      = {| Np.row_shape := Np.row_shape GL; Np.rows := Np.rows GL ++ Np.rows y8 |}
    ∧ fs !! Extract.feature_file data_dir 9 = Some (AllFolds.valid_x st)
    ∧ fs !! Extract.labels_file data_dir 9 = Some (AllFolds.valid_y st)
    ∧ fs !! Extract.feature_file data_dir 10 = Some (AllFolds.test_x st)
    ∧ fs !! Extract.labels_file data_dir 10 = Some (AllFolds.test_y st).
Proof.
  unfold AllFolds.load_all_folds_locals.
  change AllFolds.train_range with (1 :: (Z.of_nat <$> seq 2 7)).
  cbn [AllFolds.train_loop].
  assert (∀ P : Z → Prop,
            Forall P (Z.of_nat <$> seq 2 7) ↔ ∀ k, 2 <= k <= 8 → P k) as Hrange.
  { intros P. rewrite Forall_fmap, Forall_seq. split.
    - intros H k Hk. specialize (H (Z.to_nat k)). simpl in H.
      rewrite Z2Nat.id in H by lia. apply H. lia.
    - intros H j Hj. apply H. lia. }
  split.
  - unfold Extract.np_load.
    destruct (fs !! Extract.feature_file data_dir 1) as [x1|] eqn:Hx1; [|by cbn [mbind outcome_bind]].
    destruct (fs !! Extract.labels_file data_dir 1) as [y1|] eqn:Hy1; [|by cbn [mbind outcome_bind]].
    cbn [mbind outcome_bind].
    destruct (train_loop fs data_dir (Z.of_nat <$> seq 2 7) (true, Some x1, Some y1))
      as [st'| |] eqn:Hloop; [|by cbn [mbind outcome_bind]..].
    apply train_loop_subsequent in Hloop
        as (G & GL & x8 & y8 & HG & HGL & Hall & Hx8 & Hy8 & ->); [|done].
    cbn [mbind outcome_bind].
    destruct (fs !! Extract.feature_file data_dir 9) as [x9|] eqn:Hx9; [|by cbn [mbind outcome_bind]].
    destruct (fs !! Extract.labels_file data_dir 9) as [y9|] eqn:Hy9; [|by cbn [mbind outcome_bind]].
    destruct (fs !! Extract.feature_file data_dir 10) as [x10|] eqn:Hx10; [|by cbn [mbind outcome_bind]].
    destruct (fs !! Extract.labels_file data_dir 10) as [y10|] eqn:Hy10; [|by cbn [mbind outcome_bind]].
    cbn [mbind outcome_bind Extract.local]. intros [= <-].
    exists G, GL, x8, y8. cbn [AllFolds.train_x AllFolds.train_y AllFolds.valid_x
      AllFolds.valid_y AllFolds.test_x AllFolds.test_y].
    repeat split; try done. by apply Hrange.
  - intros (G & GL & x8 & y8 & HG & HGL & [x1 Hx1] & [y1 Hy1] & Hall & Hx8 & Hy8
            & Htx & Hty & Hvx & Hvy & Htex & Htey).
    unfold Extract.np_load. rewrite Hx1, Hy1, Hvx, Hvy, Htex, Htey.
    cbn [mbind outcome_bind].
    assert (train_loop fs data_dir (Z.of_nat <$> seq 2 7) (true, Some x1, Some y1)
            = Done (true, Some (AllFolds.train_x st), Some (AllFolds.train_y st))) as ->.
    { apply train_loop_subsequent; [done|].
      exists G, GL, x8, y8. rewrite Htx, Hty. repeat split; try done.
      by apply Hrange. }
    cbn [mbind outcome_bind Extract.local]. by destruct st.
Qed.

(** X20. When the folds 1 and 2 are stored and a global that
    [load_all_folds] reads is not defined, the call raises the error of
    that look-up at fold 2: for [features] at once, for [labels] after
    the feature arrays have been concatenated. *)
Theorem load_all_folds_undefined_global fs data_dir (e : exn) x1 y1 x2 y2 :
  fs !! Extract.feature_file data_dir 1 = Some x1 →
  fs !! Extract.labels_file data_dir 1 = Some y1 →
  fs !! Extract.feature_file data_dir 2 = Some x2 →
  fs !! Extract.labels_file data_dir 2 = Some y2 →
  global_features = Raise e
  ∨ (∃ G, global_features = Done G ∧ Np.row_shape G = Np.row_shape x2)
    ∧ global_labels = Raise e →
  AllFolds.load_all_folds global_features global_labels fs data_dir = Raise e.
Proof.
  intros Hx1 Hy1 Hx2 Hy2 Hglobal.
  unfold AllFolds.load_all_folds, AllFolds.load_all_folds_locals.
  change AllFolds.train_range with (1 :: 2 :: (Z.of_nat <$> seq 3 6)).
  cbn [AllFolds.train_loop]. unfold Extract.np_load.
  rewrite Hx1, Hy1, Hx2, Hy2. cbn [mbind outcome_bind].
  destruct Hglobal as [->|[(G & -> & Hs) ->]]; [done|].
  cbn [mbind outcome_bind]. unfold Np.concatenate.
  by rewrite decide_True.
Qed.

End AllFoldsFacts.

(** ** The properties above on the sample corpus *)

Lemma returns_computed {A} (o : outcome A) :
  match o with Done _ => True | _ => False end → returns o.
Proof. destruct o; [by eexists|done..]. Qed.

Lemma full_windows_cover_witness :
  ∃ p, p ∈ List.filter (Windower.full_window [1; 2; 3; 4; 5; 6; 7; 8; 9; 10] 4)
             [(0, 4); (2, 6); (4, 8); (6, 10); (8, 12)]
       ∧ p.1 <= 7 < p.2.
Proof.
  apply (full_windows_cover [1; 2; 3; 4; 5; 6; 7; 8; 9; 10] 4 7 10).
  - lia.
  - unfold Py.len. simpl. lia.
  - reflexivity.
  - lia.
  - unfold Py.len. simpl. lia.
Defined.

Lemma yielded_pair_slice_witness :
  (6, 10).1 = Z.of_nat 3 * (4 / 2)
  ∧ (6, 10).2 - (6, 10).1 = 4
  ∧ 0 <= (6, 10).1 < Py.len [1; 2; 3; 4; 5; 6; 7; 8; 9; 10]
  ∧ (Windower.full_window [1; 2; 3; 4; 5; 6; 7; 8; 9; 10] 4 (6, 10) = true
     ↔ (6, 10).2 <= Py.len [1; 2; 3; 4; 5; 6; 7; 8; 9; 10])
  ∧ (Windower.full_window [1; 2; 3; 4; 5; 6; 7; 8; 9; 10] 4 (6, 10) = true →
     Py.slice [1; 2; 3; 4; 5; 6; 7; 8; 9; 10] (6, 10).1 (6, 10).2
     = take (Z.to_nat 4) (drop (Z.to_nat (6, 10).1) [1; 2; 3; 4; 5; 6; 7; 8; 9; 10])).
Proof.
  apply (yielded_pair_slice [1; 2; 3; 4; 5; 6; 7; 8; 9; 10] 4 3 (6, 10)).
  - lia.
  - reflexivity.
Defined.

Lemma features_channel1_is_delta_witness :
  Np.channel 1 2 2 [1; 7; 2; 7; 3; 7; 4; 7]
  = Sample.delta (Np.channel 0 2 2 [1; 7; 2; 7; 3; 7; 4; 7])
  ∧ Np.broadcast_to [[8; 9]] 2 2 = Some (Np.channel 1 2 2 [1; 8; 2; 9; 3; 8; 4; 9]).
Proof.
  split.
  - destruct (features_channel1_is_delta 0 Sample.delta [[1; 2; 3; 4]] 2 2
                {| Np.row_shape := [2; 2; 2]%nat; Np.rows := [[1; 7; 2; 7; 3; 7; 4; 7]] |}
                0 [1; 7; 2; 7; 3; 7; 4; 7])
      as (flat & _ & _ & _ & _ & Hkeeps); [reflexivity|reflexivity|].
    apply Hkeeps. reflexivity.
  - destruct (features_channel1_is_delta 0 (λ _, [[8; 9]]) [[1; 2; 3; 4]] 2 2
                {| Np.row_shape := [2; 2; 2]%nat; Np.rows := [[1; 8; 2; 9; 3; 8; 4; 9]] |}
                0 [1; 8; 2; 9; 3; 8; 4; 9])
      as (flat & _ & _ & _ & Hbroadcast & _); [reflexivity|reflexivity|].
    exact Hbroadcast.
Defined.

(** The stand-in kernels have the shapes of the librosa kernels. *)
Lemma sample_melspectrogram_shape (signal : list Z) (bands : nat) :
  Np.has_shape (Sample.logamplitude (Sample.melspectrogram signal bands))
    bands (1 + length signal / 512) = true.
Proof.
  apply has_shape_spec. unfold Sample.logamplitude, Sample.melspectrogram. split.
  - by rewrite length_fmap, length_seq.
  - apply Forall_fmap, Forall_forall. intros b _. simpl.
    by rewrite length_fmap, length_seq.
Qed.

Lemma sample_delta_shape (m : list (list Z)) (bands frames : nat) :
  Np.has_shape m bands frames = true →
  Np.has_shape (Sample.delta m) bands frames = true.
Proof.
  rewrite !has_shape_spec. unfold Sample.delta. intros [Hlen Hrows]. split.
  - by rewrite length_fmap.
  - apply Forall_fmap. eapply Forall_impl; [exact Hrows|].
    intros r Hr. simpl. by rewrite length_fmap.
Qed.

Lemma extract_feature_array_rows_witness :
  ∃ a,
    Extract.extract_feature_array 0 (λ _, Sample.clip 88200) Sample.melspectrogram
      Sample.logamplitude Sample.delta 10 "samples/us8k/music.wav" 60 41 = Done a
    ∧ Np.row_shape a = [60; 41; 2]%nat
    ∧ Z.of_nat (length (Np.rows a)) = 7.
Proof.
  apply (extract_feature_array_rows 0 (λ _, Sample.clip 88200) Sample.melspectrogram
           Sample.logamplitude Sample.delta 10 "samples/us8k/music.wav" 60 41
           (replicate (Z.to_nat 88200) 5)).
  - intros signal. apply sample_melspectrogram_shape.
  - intros m. apply sample_delta_shape.
  - lia.
  - lia.
  - reflexivity.
  - unfold Py.len. rewrite length_replicate. vm_compute. lia.
Defined.

Lemma extract_features_single_witness :
  Sample.extract_features 10 "us8k" ["fold2"] "*.wav" 60 41
  = (λ a, (a, replicate (length (Np.rows a)) 0))
      <$> Sample.extract_feature_array 10 "us8k/fold2/102-0-0-0.wav" 60 41.
Proof.
  apply (extract_features_single 0 Sample.librosa_load Sample.melspectrogram
           Sample.logamplitude Sample.delta Sample.glob Sample.np_int
           10 "us8k" "fold2" "*.wav" 60 41 "us8k/fold2/102-0-0-0.wav" "0" 0);
    reflexivity.
Defined.

Lemma extract_features_lengths_witness :
  ∃ features labels,
    Sample.extract_features 10 "us8k" ["fold1"] "*.wav" 60 41 = Done (features, labels)
    ∧ length (Np.rows features) = length labels
    ∧ Np.row_shape features = [60; 41; 2]%nat.
Proof.
  assert (returns (Extract.extract_features 0 Sample.librosa_load Sample.melspectrogram
            Sample.logamplitude Sample.delta Sample.glob Sample.np_int
            10 "us8k" ["fold1"] "*.wav" 60 41))
    as [[features labels] Hdone] by (apply returns_computed; vm_compute; exact I).
  exists features, labels. split; [exact Hdone|].
  exact (extract_features_lengths 0 Sample.librosa_load Sample.melspectrogram
           Sample.logamplitude Sample.delta Sample.glob Sample.np_int
           10 "us8k" ["fold1"] "*.wav" 60 41 features labels Hdone).
Defined.

Lemma extract_features_app_witness :
  ∃ a1 labels1 a2 labels2,
    Sample.extract_features 10 "us8k" ["fold1"] "*.wav" 60 41 = Done (a1, labels1)
    ∧ Sample.extract_features 10 "us8k" ["fold2"] "*.wav" 60 41 = Done (a2, labels2)
    ∧ Sample.extract_features 10 "us8k" ["fold1"; "fold2"] "*.wav" 60 41
      = Done ({| Np.row_shape := [60; 41; 2]%nat;
                 Np.rows := Np.rows a1 ++ Np.rows a2 |},
              labels1 ++ labels2).
Proof.
  assert (returns (Extract.extract_features 0 Sample.librosa_load Sample.melspectrogram
            Sample.logamplitude Sample.delta Sample.glob Sample.np_int
            10 "us8k" ["fold1"] "*.wav" 60 41))
    as [[a1 labels1] H1] by (apply returns_computed; vm_compute; exact I).
  assert (returns (Extract.extract_features 0 Sample.librosa_load Sample.melspectrogram
            Sample.logamplitude Sample.delta Sample.glob Sample.np_int
            10 "us8k" ["fold2"] "*.wav" 60 41))
    as [[a2 labels2] H2] by (apply returns_computed; vm_compute; exact I).
  exists a1, labels1, a2, labels2. split; [exact H1|]. split; [exact H2|].
  exact (extract_features_app 0 Sample.librosa_load Sample.melspectrogram
           Sample.logamplitude Sample.delta Sample.glob Sample.np_int
           10 "us8k" ["fold1"] ["fold2"] "*.wav" 60 41 a1 labels1 a2 labels2 H1 H2).
Defined.

Lemma one_hot_encode_spec_witness :
  returns (Labels.one_hot_encode 0 1 [1; 0; -1])
  ∧ ¬ returns (Labels.one_hot_encode 0 1 [0; 2]).
Proof.
  split.
  - apply (one_hot_encode_spec 0 1 [1; 0; -1]). repeat constructor; simpl; lia.
  - intros Hret. apply (one_hot_encode_spec 0 1 [0; 2]) in Hret.
    apply Forall_cons in Hret as [_ Hret]. apply Forall_cons in Hret as [Hret _].
    simpl in Hret. lia.
Defined.

Lemma one_hot_encode_returns_iff_dense_witness :
  returns (Labels.one_hot_encode 0 1 [0; 1; 1])
  ↔ Np.unique [0; 1; 1] = seqZ 0 (Z.of_nat (length (Np.unique [0; 1; 1]))).
Proof.
  apply (one_hot_encode_returns_iff_dense 0 1 [0; 1; 1]). repeat constructor; lia.
Defined.

Lemma y_true_one_hot_encode_witness :
  Evaluate.y_true Z.leb (λ _, false)
    {| Np.row_shape := [3%nat]; Np.rows := [[1; 0; 0]; [0; 0; 1]; [0; 1; 0]; [0; 0; 1]] |}
  = Done {| Np.row_shape := []; Np.rows := [[0]; [2]; [1]; [2]]%nat |}.
Proof.
  apply (y_true_one_hot_encode 0 1 Z.leb (λ _, false) eq_refl eq_refl eq_refl eq_refl
           [0; 2; 1; 2]).
  - discriminate.
  - repeat constructor; lia.
  - left. reflexivity.
  - reflexivity.
Defined.

Lemma save_folds_failure_witness :
  (Sample.save_folds 10 "raw" "data" ∅).2 = Raise IndexError
  ∧ (∀ j, 1 <= j < 2 →
       ∃ features onehot,
         Extract.fold_arrays 0 Sample.librosa_load Sample.melspectrogram
           Sample.logamplitude Sample.delta Sample.glob Sample.np_int 1 10 "raw" j
         = Done (features, onehot)
         ∧ (Sample.save_folds 10 "raw" "data" ∅).1 !! Extract.feature_file "data" j
           = Some features
         ∧ (Sample.save_folds 10 "raw" "data" ∅).1 !! Extract.labels_file "data" j
           = Some onehot)
  ∧ (∀ j, 2 <= j →
       (Sample.save_folds 10 "raw" "data" ∅).1 !! Extract.feature_file "data" j
       = (∅ : gmap string (Np.ndarray Z)) !! Extract.feature_file "data" j
       ∧ (Sample.save_folds 10 "raw" "data" ∅).1 !! Extract.labels_file "data" j
         = (∅ : gmap string (Np.ndarray Z)) !! Extract.labels_file "data" j).
Proof.
  apply (save_folds_failure 0 1 Sample.librosa_load Sample.melspectrogram
           Sample.logamplitude Sample.delta Sample.glob Sample.np_int
           10 "raw" "data" ∅ 2 IndexError).
  - lia.
  - intros j Hj. replace j with 1 by lia. apply returns_computed. vm_compute. exact I.
  - reflexivity.
Defined.

Lemma save_folds_idempotent_witness :
  Sample.save_folds 10 "us8k" "data" (Sample.save_folds 10 "us8k" "data" ∅).1
  = ((Sample.save_folds 10 "us8k" "data" ∅).1, Done ()).
Proof.
  apply (save_folds_idempotent 0 1 Sample.librosa_load Sample.melspectrogram
           Sample.logamplitude Sample.delta Sample.glob Sample.np_int
           10 "us8k" "data" ∅).
  apply pair_with_snd. vm_compute. reflexivity.
Defined.

Lemma save_then_load_fold_witness :
  ∃ features labels onehot,
    Sample.extract_features 10 "us8k" [Extract.fold_name 2] "*.wav" 60 41
    = Done (features, labels)
    ∧ Labels.one_hot_encode 0 1 labels = Done onehot
    ∧ Extract.load_folds (Sample.save_folds 10 "us8k" "data" ∅).1 "data" [2]
      = Done (features, onehot).
Proof.
  apply (save_then_load_fold 0 1 Sample.librosa_load Sample.melspectrogram
           Sample.logamplitude Sample.delta Sample.glob Sample.np_int
           10 "us8k" "data" ∅); [|lia].
  apply pair_with_snd. vm_compute. reflexivity.
Defined.

Lemma load_folds_missing_witness :
  Extract.load_folds Sample.saved "data" [1; 2; 3; 1] = Raise IOError.
Proof.
  apply (load_folds_missing Sample.saved "data" [1; 2] 3 [1]
           [Sample.fold1_x; Sample.fold2_x] [Sample.fold1_y; Sample.fold2_y]
           [1; 1; 2]%nat [2%nat]).
  - repeat constructor.
  - repeat constructor.
  - left. reflexivity.
Defined.

Lemma load_folds_app_witness :
  ∃ X Y,
    Np.concatenate Sample.fold1_x Sample.fold2_x = Done X
    ∧ Np.concatenate Sample.fold1_y Sample.fold2_y = Done Y
    ∧ Extract.load_folds Sample.saved "data" ([1] ++ [2]) = Done (X, Y).
Proof.
  apply (load_folds_app Sample.saved "data" [1] [2]); reflexivity.
Defined.

Lemma parse_label_convention_witness :
  Extract.parse_label "UrbanSound8K/audio/fold5/100032-3-0-0.wav" = Done "3".
Proof.
  apply (parse_label_convention "UrbanSound8K/audio/" "5/100032" "3" "0-0.wav");
    reflexivity.
Defined.

Lemma rotation_advances_witness :
  (8 <= 8 →
   Trial.train (Trial.rotation (8 + 1))
   = drop 1 (Trial.train (Trial.rotation 8)) ++ Trial.validation (Trial.rotation 8)
   ∧ Trial.validation (Trial.rotation (8 + 1)) = Trial.test (Trial.rotation 8))
  ∧ (Trial.validation (Trial.rotation 8) = Trial.validation (Trial.rotation 9) → 8 = 9)
  ∧ (Trial.test (Trial.rotation 8) = Trial.test (Trial.rotation 9) → 8 = 9).
Proof. apply (rotation_advances 8 9); lia. Defined.

Lemma load_trial_folds_witness :
  Training.load_trial SampleFolds.saved "data" 9
  = Done (({| Np.row_shape := [1; 1; 2]%nat; Np.rows := [[91; 92]; [101; 102]] |},
           {| Np.row_shape := [2%nat]; Np.rows := [[0; 1]; [1; 0]] |}),
          (SampleFolds.fold_x 1, SampleFolds.fold_y 1),
          (SampleFolds.fold_x 2, SampleFolds.fold_y 2))
  ∧ NoDup ((Extract.feature_file "data" <$> [9; 9 + 1; 1; 2])
           ++ (Extract.labels_file "data" <$> [9; 9 + 1; 1; 2])).
Proof.
  apply (load_trial_folds SampleFolds.saved "data" 9 1 2
           (SampleFolds.fold_x 9) (SampleFolds.fold_y 9)
           (SampleFolds.fold_x 10) (SampleFolds.fold_y 10));
    first [lia|reflexivity].
Defined.

Lemma load_all_folds_locals_spec_witness :
  AllFolds.load_all_folds_locals (Done SampleFolds.global_features)
    (Done SampleFolds.global_labels) SampleFolds.saved "data"
  = Done {| AllFolds.train_x :=
              {| Np.row_shape := [1; 1; 2]%nat; Np.rows := [[1; 2]; [3; 4]; [81; 82]] |};
            AllFolds.train_y :=
              {| Np.row_shape := [2%nat]; Np.rows := [[1; 0]; [0; 1]; [1; 0]] |};
            AllFolds.valid_x := SampleFolds.fold_x 9;
            AllFolds.valid_y := SampleFolds.fold_y 9;
            AllFolds.test_x := SampleFolds.fold_x 10;
            AllFolds.test_y := SampleFolds.fold_y 10 |}.
Proof.
  apply load_all_folds_locals_spec.
  exists SampleFolds.global_features, SampleFolds.global_labels,
    (SampleFolds.fold_x 8), (SampleFolds.fold_y 8).
  split; [reflexivity|]. split; [reflexivity|].
  split; [by eexists|]. split; [by eexists|].
  split; [|repeat split; reflexivity].
  intros k Hk. exists (SampleFolds.fold_x k), (SampleFolds.fold_y k).
  assert (k = 2 ∨ k = 3 ∨ k = 4 ∨ k = 5 ∨ k = 6 ∨ k = 7 ∨ k = 8)
    as [->|[->|[->|[->|[->|[->| ->]]]]]] by lia;
    repeat split; reflexivity.
Defined.

Lemma load_all_folds_undefined_global_witness :
  AllFolds.load_all_folds (Done SampleFolds.global_features) (Raise UnboundLocalError)
    SampleFolds.saved "data"
  = Raise UnboundLocalError.
Proof.
  apply (load_all_folds_undefined_global (Done SampleFolds.global_features)
           (Raise UnboundLocalError) SampleFolds.saved "data" UnboundLocalError
           (SampleFolds.fold_x 1) (SampleFolds.fold_y 1)
           (SampleFolds.fold_x 2) (SampleFolds.fold_y 2));
    try reflexivity.
  right. split; [|reflexivity]. by eexists.
Defined.
